(** * 5axisPrinter: the G-code pipeline of [gcode_processor_gui.py]

    A shallow embedding of the three file-to-file passes of
    [ProcessWorker] (bending, inverse-kinematics translation, Klipper
    conversion) and of [klipper_converter.convert_b_axis_to_manual_stepper].

    Conventions of the embedding:
    - a Python [float] (and a [numpy.float64]) is a binary64 value, the
      primitive [float] of Rocq; [+ - * / sqrt abs] and the comparisons are
      the IEEE operations of the kernel;
    - a text line is a [string] whose characters are code points below 256;
    - an exception is a value of [exn]; code that can raise returns [result];
    - the calls into the C library ([sin], [cos], [atan], [pow]), into SciPy
      (the spline object), the decimal printing of floats and the allocation
      of a NumPy array are fields of an environment record: the passes are
      defined for every environment. *)

From Stdlib Require Import ZArith Floats List String Ascii Bool Lia
  DecimalString.
Import ListNotations.

Set Warnings "-inexact-float".
Local Open Scope string_scope.
Local Open Scope Z_scope.

(** ** Exceptions *)

(** An exception: its class and [str(e)]. *)
Inductive exn : Type :=
| ValueError (msg : string)
| IndexError (msg : string)
| ZeroDivisionError (msg : string)
| OverflowError (msg : string)
| TypeError (msg : string)
| MemoryError (msg : string)
| UnicodeDecodeError (msg : string)
| OSError (msg : string).

(** [str(e)] *)
Definition exn_str (e : exn) : string :=
  match e with
  | ValueError msg | IndexError msg | ZeroDivisionError msg
  | OverflowError msg | TypeError msg | MemoryError msg
  | UnicodeDecodeError msg | OSError msg => msg
  end.

Inductive result (A : Type) : Type :=
| Ok (a : A)
| Raise (e : exn).
Arguments Ok {A} a.
Arguments Raise {A} e.

Definition rbind {A B : Type} (r : result A) (k : A -> result B) : result B :=
  match r with
  | Ok a => k a
  | Raise e => Raise e
  end.

Declare Scope result_scope.
Delimit Scope result_scope with result.
Notation "x <- r ;; k" := (rbind r (fun x => k))
  (at level 61, r at next level, right associativity) : result_scope.

(** ** The libraries behind the passes

    What the program calls but does not define: the C library's
    trigonometric functions (behind [math] and NumPy) and its [pow] (behind
    [**] of a Python float and of a [numpy.float64]), the decimal printing
    of a float, rounding to a number of decimals, and the allocation of a
    NumPy array. *)

Record library : Type := mk_library {
  c_sin : float -> float;
  c_cos : float -> float;
  c_atan : float -> float;
  c_pow : float -> float -> float;
  (** [str(x)], which is also how an f-string prints [x] *)
  float_str : float -> string;
  (** [format(x, ".2f")] *)
  fixed_2 : float -> string;
  (** [round(x, n)] of a Python float and of a [numpy.float64] *)
  py_round : float -> Z -> float;
  np_round : float -> Z -> float;
  (** the allocation of an array of [n] items of type [float64]: [None]
      when the machine grants it, the exception raised when it does not *)
  np_alloc : Z -> option exn
}.

(** ** Python strings *)

Module PyStr.

Definition code (c : ascii) : N := N_of_ascii c.

Definition in_range (lo hi : N) (c : ascii) : bool :=
  (N.leb lo (code c) && N.leb (code c) hi)%bool.

(** [str.isspace] on one character, which is also [\s] of a [re] pattern
    over [str] and the separator set of [str.split()] and [str.strip()]. *)
Definition is_space (c : ascii) : bool :=
  (in_range 9 13 c || in_range 28 32 c || N.eqb (code c) 133
   || N.eqb (code c) 160)%bool.

(** [\d]: the decimal digits below 256. *)
Definition is_digit (c : ascii) : bool := in_range 48 57 c.

(** [\w]: alphanumeric characters and the underscore. *)
Definition is_word (c : ascii) : bool :=
  (in_range 48 57 c || in_range 65 90 c || in_range 97 122 c
   || N.eqb (code c) 95
   || N.eqb (code c) 170 || N.eqb (code c) 178 || N.eqb (code c) 179
   || N.eqb (code c) 181 || in_range 185 186 c || in_range 188 190 c
   || in_range 192 214 c || in_range 216 246 c || in_range 248 255 c)%bool.

(** ASCII lower-casing, enough for the case-insensitive letters used. *)
Definition lower (c : ascii) : ascii :=
  if in_range 65 90 c then ascii_of_N (code c + 32) else c.

Fixpoint lower_str (s : string) : string :=
  match s with
  | EmptyString => EmptyString
  | String c r => String (lower c) (lower_str r)
  end.

Definition startswith (s p : string) : bool := String.prefix p s.

(** [s.find(sub) != -1] *)
Fixpoint contains (sub s : string) : bool :=
  if String.prefix sub s then true
  else match s with
       | EmptyString => false
       | String _ r => contains sub r
       end.

Fixpoint lstrip (s : string) : string :=
  match s with
  | EmptyString => EmptyString
  | String c r => if is_space c then lstrip r else s
  end.

Fixpoint rstrip (s : string) : string :=
  match s with
  | EmptyString => EmptyString
  | String c r =>
      match rstrip r with
      | EmptyString => if is_space c then EmptyString else String c EmptyString
      | r' => String c r'
      end
  end.

Definition strip (s : string) : string := rstrip (lstrip s).

(** [s.split()]: the maximal runs of non-whitespace characters. [cur] is the
    run being read, reversed. *)
Fixpoint rev_str (acc s : string) : string :=
  match s with
  | EmptyString => acc
  | String c r => rev_str (String c acc) r
  end.

Fixpoint split_go (cur : string) (s : string) : list string :=
  match s with
  | EmptyString =>
      match cur with
      | EmptyString => []
      | _ => [rev_str EmptyString cur]
      end
  | String c r =>
      if is_space c then
        match cur with
        | EmptyString => split_go EmptyString r
        | _ => rev_str EmptyString cur :: split_go EmptyString r
        end
      else split_go (String c cur) r
  end.

Definition split (s : string) : list string := split_go EmptyString s.

(** [sep.join(parts)] *)
Fixpoint join (sep : string) (parts : list string) : string :=
  match parts with
  | [] => EmptyString
  | [p] => p
  | p :: rest => p ++ sep ++ join sep rest
  end.

(** The longest prefix of decimal digits, and what follows it. *)
Fixpoint span_digits (s : string) : string * string :=
  match s with
  | EmptyString => (EmptyString, EmptyString)
  | String c r =>
      if is_digit c then
        let (d, rest) := span_digits r in (String c d, rest)
      else (EmptyString, s)
  end.

Definition is_empty (s : string) : bool :=
  match s with EmptyString => true | _ => false end.

Definition double_quote : ascii := ascii_of_N 34.

Definition hex_digit (n : N) : ascii :=
  ascii_of_N (if N.ltb n 10 then 48 + n else 87 + n).

(** [str.isprintable] on one character below 256. *)
Definition printable (c : ascii) : bool :=
  negb (in_range 0 31 c || in_range 127 160 c || N.eqb (code c) 173).

(** One character inside the quotes of [repr]. *)
Definition escape (quote c : ascii) : string :=
  if (Ascii.eqb c quote || Ascii.eqb c "\")%bool
  then String "\" (String c EmptyString)
  else if N.eqb (code c) 9 then "\t"
  else if N.eqb (code c) 10 then "\n"
  else if N.eqb (code c) 13 then "\r"
  else if printable c then String c EmptyString
  else String "\" (String "x" (String (hex_digit (N.div (code c) 16))
                                (String (hex_digit (N.modulo (code c) 16))
                                   EmptyString))).

Fixpoint escape_all (quote : ascii) (s : string) : string :=
  match s with
  | EmptyString => EmptyString
  | String c r => escape quote c ++ escape_all quote r
  end.

(** [repr(s)], which is how an error message shows a text: in single
    quotes, or in double quotes when the text holds a single quote and no
    double quote; the quote and the backslash are escaped, and so are the
    characters that are not printable. *)
Definition str_repr (s : string) : string :=
  let quote :=
    if (contains "'" s
        && negb (contains (String double_quote EmptyString) s))%bool
    then double_quote else "'"%char in
  String quote (escape_all quote s ++ String quote EmptyString).

End PyStr.

(** ** Python floats *)

Module PyFloat.
Import PyStr.

Definition is_finite (x : float) : bool :=
  negb (PrimFloat.is_nan x || PrimFloat.is_infinity x).

(** The value of a run of decimal digits. *)
Fixpoint digits_value (acc : Z) (s : string) : Z :=
  match s with
  | EmptyString => acc
  | String c r => digits_value (10 * acc + (Z.of_N (code c) - 48)) r
  end.

(** The binary64 value nearest to [m * 2^e] (ties to even). *)
Definition round_binary (neg : bool) (m e : Z) : float :=
  SF2Prim (binary_normalize prec emax (if neg then - m else m) e neg).

(** [float(i)] of an integer: the conversion a mixed product such as
    [i * discretization_length] applies to [i]. *)
Definition float_of_int (i : Z) : float := round_binary false i 0.

(** The binary64 value nearest to [m * 10^e10], for [0 <= m]: the result of
    a correctly rounded decimal-to-binary conversion. A negative power of
    ten is divided out with 64 guard bits and a sticky bit. *)
Definition decimal_to_float (neg : bool) (m e10 : Z) : float :=
  if m =? 0 then round_binary neg 0 0
  else if 0 <=? e10 then round_binary neg (m * 10 ^ e10) 0
  else
    let d := 10 ^ (- e10) in
    let k := Z.max 0 (Z.log2 d + 64 - Z.log2 m) in
    let q := (m * 2 ^ k) / d in
    let sticky := if (m * 2 ^ k) mod d =? 0 then 0 else 1 in
    round_binary neg (2 * q + sticky) (- (k + 1)).

(** Underscores of a numeric literal: each one stands between two digits.
    Returns the text without them. *)
Fixpoint drop_underscores (prev_digit : bool) (s : string) : option string :=
  match s with
  | EmptyString => Some EmptyString
  | String c r =>
      if Ascii.eqb c "_" then
        if prev_digit then
          match r with
          | String d _ => if is_digit d then drop_underscores false r else None
          | EmptyString => None
          end
        else None
      else option_map (String c) (drop_underscores (is_digit c) r)
  end.

Definition split_sign (s : string) : bool * string :=
  match s with
  | String "-" r => (true, r)
  | String "+" r => (false, r)
  | _ => (false, s)
  end.

(** [digits [. digits] [e [sign] digits]] with at least one digit before
    the exponent; the decimal mantissa and the power of ten. *)
Definition parse_decimal (s : string) : option (Z * Z) :=
  let (ip, r1) := span_digits s in
  let (fp, r2) :=
    match r1 with
    | String "." r => span_digits r
    | _ => (EmptyString, r1)
    end in
  if is_empty (ip ++ fp) then None
  else
    let m := digits_value 0 (ip ++ fp) in
    let shift := Z.of_nat (String.length fp) in
    match r2 with
    | EmptyString => Some (m, - shift)
    | String c r3 =>
        if Ascii.eqb (lower c) "e" then
          let (eneg, r4) := split_sign r3 in
          let (ed, r5) := span_digits r4 in
          if (negb (is_empty ed) && is_empty r5)%bool then
            let ev := digits_value 0 ed in
            Some (m, (if eneg then - ev else ev) - shift)
          else None
        else None
    end.

Definition parse_body (neg : bool) (s : string) : option float :=
  let w := lower_str s in
  if (String.eqb w "inf" || String.eqb w "infinity")%bool then
    Some (if neg then neg_infinity else infinity)
  else if String.eqb w "nan" then Some nan
  else
    match parse_decimal s with
    | Some (m, e10) => Some (decimal_to_float neg m e10)
    | None => None
    end.

(** [float(s)] for a [str] argument. *)
Definition py_float (s : string) : result float :=
  match drop_underscores false (strip s) with
  | Some t =>
      let (neg, body) := split_sign t in
      match parse_body neg body with
      | Some v => Ok v
      | None =>
          Raise (ValueError ("could not convert string to float: " ++ str_repr s))
      end
  | None =>
      Raise (ValueError ("could not convert string to float: " ++ str_repr s))
  end.

(** A Python number as the kinematics pass prints it: [max(v, 0)] keeps the
    float [v] or returns the integer [0]. *)
Inductive num : Type :=
| PyInt (z : Z)
| PyFloat (f : float).

(** [max(v, 0)]: the second argument replaces the first when [0 > v]. *)
Definition max_0 (v : float) : num :=
  if PrimFloat.ltb v 0%float then PyInt 0 else PyFloat v.

(** The value of a number as a float, for comparisons. *)
Definition num_value (n : num) : float :=
  match n with
  | PyInt z => float_of_int z
  | PyFloat f => f
  end.

End PyFloat.

(** ** Printing and rounding floats

    What CPython and NumPy do when the passes print a float or round it to
    a number of decimals, on the exact value [m * 2^e] of the float:
    [repr] (which [str] and an f-string without a format use) writes the
    shortest decimal text that reads back as the same float, [format] with
    [.2f] and [round] of a Python float round the exact value half to even,
    and [round] of a [numpy.float64] scales, rounds to an integer and
    scales back in floating point. *)

Module Printing.
Import PyFloat.

(** The decimal text of a natural number. *)
Definition int_str (n : Z) : string :=
  NilEmpty.string_of_uint (N.to_uint (Z.to_N n)).

Fixpoint zeros (n : nat) : string :=
  match n with
  | O => EmptyString
  | S k => String "0" (zeros k)
  end.

(** [num / den] rounded to an integer, halves to the even one. *)
Definition half_even (num den : Z) : Z :=
  let q := num / den in
  let r := num mod den in
  if 2 * r <? den then q
  else if den <? 2 * r then q + 1
  else if Z.even q then q else q + 1.

(** [m * 2^e * 10^k] as a fraction of two positive integers. *)
Definition scaled (m e k : Z) : Z * Z :=
  (m * 2 ^ Z.max e 0 * 10 ^ Z.max k 0, 2 ^ Z.max (- e) 0 * 10 ^ Z.max (- k) 0).

Definition scaled_round (m e k : Z) : Z :=
  let (num, den) := scaled m e k in half_even num den.

(** The position of the decimal point of [m * 2^e], for [0 < m]: the [d]
    with [10^(d-1) <= m * 2^e < 10^d], from an estimate that is off by one
    at most. *)
Definition decimal_point (m e : Z) : Z :=
  let d0 := ((Z.log2 m + e) * 30103) / 100000 in
  let below d := let (num, den) := scaled m e (- d) in num <? den in
  if below d0 then d0
  else if below (d0 + 1) then d0 + 1
  else d0 + 2.

(** The digits and the decimal point of the shortest text: the first
    number of digits for which a neighbour of the value reads back as the
    float, and of the neighbours that do, the nearest one. *)
Fixpoint shortest_from (fuel : nat) (p : Z) (x : float) (m e : Z) : Z * Z :=
  let d := decimal_point m e in
  let k := p - d in
  let (num, den) := scaled m e k in
  let near := half_even num den in
  let far := if near =? num / den then num / den + 1 else num / den in
  let reads n := PrimFloat.eqb (decimal_to_float false n (- k)) x in
  let found n := if n =? 10 ^ p then (10 ^ (p - 1), d + 1) else (n, d) in
  match fuel with
  | O => found near
  | S fuel' =>
      if reads near then found near
      else if reads far then found far
      else shortest_from fuel' (p + 1) x m e
  end.

Definition shortest (x : float) (m e : Z) : Z * Z := shortest_from 16 1 x m e.

(** The exponent of the scientific form: a sign and two digits at least. *)
Definition exponent_str (ex : Z) : string :=
  ((if (ex <? 0)%Z then "-" else "+")
     ++ (if (Z.abs ex <? 10)%Z then "0" else EmptyString)
     ++ int_str (Z.abs ex))%string.

(** The text of [repr] from the digits and the decimal point: scientific
    outside [1e-4 <= v < 1e16], and a fractional part always otherwise. *)
Definition repr_text (digits : string) (decpt : Z) : string :=
  let n := Z.of_nat (String.length digits) in
  if ((decpt <=? -4) || (16 <? decpt))%bool then
    (match digits with
     | String c EmptyString => String c EmptyString
     | String c r => String c ("." ++ r)
     | EmptyString => EmptyString
     end ++ "e" ++ exponent_str (decpt - 1))%string
  else if decpt <=? 0 then
    ("0." ++ zeros (Z.to_nat (- decpt)) ++ digits)%string
  else if n <=? decpt then
    (digits ++ zeros (Z.to_nat (decpt - n)) ++ ".0")%string
  else
    (substring 0 (Z.to_nat decpt) digits ++ "."
       ++ substring (Z.to_nat decpt) (Z.to_nat (n - decpt)) digits)%string.

(** [repr(x)], which is [str(x)], of a float. *)
Definition float_repr (x : float) : string :=
  match Prim2SF x with
  | S754_nan => "nan"
  | S754_infinity s => if s then "-inf" else "inf"
  | S754_zero s => if s then "-0.0" else "0.0"
  | S754_finite s m e =>
      let (n, d) := shortest (PrimFloat.abs x) (Zpos m) e in
      ((if s then "-" else EmptyString) ++ repr_text (int_str n) d)%string
  end.

(** [format(x, ".2f")]. *)
Definition format_fixed_2 (x : float) : string :=
  let text (s : bool) (n : Z) :=
    ((if s then "-" else EmptyString) ++ int_str (n / 100)%Z ++ "."
       ++ int_str (n mod 100 / 10)%Z ++ int_str (n mod 10)%Z)%string in
  match Prim2SF x with
  | S754_nan => "nan"
  | S754_infinity s => if s then "-inf" else "inf"
  | S754_zero s => text s 0
  | S754_finite s m e => text s (scaled_round (Zpos m) e 2)
  end.

(** [round(x, n)] of a Python float: the exact value rounded to [n]
    decimals, halves to even, and read back as a float. *)
Definition double_round (x : float) (n : Z) : float :=
  match Prim2SF x with
  | S754_finite s m e =>
      if 323 <? n then x
      else if n <? -308 then round_binary s 0 0
      else decimal_to_float s (scaled_round (Zpos m) e n) (- n)
  | _ => x
  end.

(** C's [rint] in the default rounding mode. *)
Definition rint (x : float) : float :=
  match Prim2SF x with
  | S754_finite s m e =>
      if 0 <=? e then x else round_binary s (half_even (Zpos m) (2 ^ (- e))) 0
  | _ => x
  end.

(** The power of ten by which NumPy scales. *)
Definition power_of_ten (n : Z) : float := decimal_to_float false 1 n.

(** [round(x, n)] of a [numpy.float64]. *)
Definition numpy_round (x : float) (n : Z) : float :=
  if 0 <=? n then (rint (x * power_of_ten n) / power_of_ten n)%float
  else (rint (x / power_of_ten (- n)) * power_of_ten (- n))%float.

End Printing.

(** ** Klipper conversion

    [klipper_converter.convert_b_axis_to_manual_stepper] and
    [ProcessWorker.run_klipper_conversion] run the same loop over the lines
    of the input file. *)

Module Klipper.
Import PyStr PyFloat.
Local Open Scope result_scope.

(** A line of [converted_lines]: an inserted stepper command, or the
    (cleaned) input line. *)
Inductive out_line : Type :=
| Stepper (v : float)
| Gcode (text : string).

(** The number pattern of both regular expressions (an optional minus
    sign, one or more digits, an optional dot, any digits) at the start of
    [s]: the matched text and the rest. *)
Definition match_number (s : string) : option (string * string) :=
  let (sg, r0) :=
    match s with
    | String "-" r => ("-", r)
    | _ => (EmptyString, s)
    end in
  let (d1, r1) := span_digits r0 in
  if is_empty d1 then None
  else
    match r1 with
    | String "." r2 =>
        let (d2, r3) := span_digits r2 in
        Some (sg ++ d1 ++ "." ++ d2, r3)
    | _ => Some (sg ++ d1, r1)
    end.

(** [re.search] of a word boundary, the letter B and the number pattern
    as group 1: group 1 of the leftmost match.
    [prev_word] tells whether the previous character is a word character. *)
Fixpoint search_B (prev_word : bool) (s : string) : option string :=
  match s with
  | EmptyString => None
  | String c r =>
      if (Ascii.eqb c "B" && negb prev_word)%bool then
        match match_number r with
        | Some (g, _) => Some g
        | None => search_B (is_word c) r
        end
      else search_B (is_word c) r
  end.

Definition re_search_B (s : string) : option string := search_B false s.

Fixpoint leading_spaces (s : string) : nat * string :=
  match s with
  | EmptyString => (O, EmptyString)
  | String c r =>
      if is_space c then let (n, t) := leading_spaces r in (S n, t)
      else (O, s)
  end.

(** The length of the match, at the start of [s], of any whitespace, the
    axis letter and the number pattern. *)
Definition match_axis_len (axis : ascii) (s : string) : option nat :=
  let (n, t) := leading_spaces s in
  match t with
  | String c r =>
      if Ascii.eqb c axis then
        match match_number r with
        | Some (g, _) => Some (n + 1 + String.length g)%nat
        | None => None
        end
      else None
  | EmptyString => None
  end.

(** [re.sub] of that pattern by the empty string: every match, left to
    right, is deleted. [skip] counts the characters of the current match still to
    delete. *)
Fixpoint sub_axis_go (axis : ascii) (skip : nat) (s : string) : string :=
  match s with
  | EmptyString => EmptyString
  | String c r =>
      match skip with
      | S k => sub_axis_go axis k r
      | O =>
          match match_axis_len axis s with
          | Some (S k) => sub_axis_go axis k r
          | _ => String c (sub_axis_go axis O r)
          end
      end
  end.

Definition re_sub_axis (axis : ascii) (s : string) : string :=
  sub_axis_go axis O s.

(** [last_b_value is None or current_b != last_b_value] *)
Definition changed (last_b_value : option float) (current_b : float) : bool :=
  match last_b_value with
  | None => true
  | Some l => negb (PrimFloat.eqb current_b l)
  end.

(** One iteration of the loop: the new [last_b_value] and the lines
    appended to [converted_lines]. *)
Definition convert_line (last_b_value : option float) (line : string)
  : result (option float * list out_line) :=
  let original_line := strip line in
  if startswith original_line "G1" then
    match re_search_B original_line with
    | Some g =>
        current_b <- py_float g ;;
        let cleaned := re_sub_axis "A" (re_sub_axis "B" original_line) in
        if changed last_b_value current_b then
          Ok (Some current_b, [Stepper current_b; Gcode cleaned])
        else Ok (last_b_value, [Gcode cleaned])
    | None => Ok (last_b_value, [Gcode (re_sub_axis "A" original_line)])
    end
  else Ok (last_b_value, [Gcode original_line]).

Fixpoint convert_loop (last_b_value : option float) (lines : list string)
  : result (list out_line) :=
  match lines with
  | [] => Ok []
  | line :: rest =>
      step <- convert_line last_b_value line ;;
      tail <- convert_loop (fst step) rest ;;
      Ok (snd step ++ tail)%list
  end.

(** [convert_b_axis_to_manual_stepper], from the lines read to the list
    [converted_lines]. *)
Definition convert (lines : list string) : result (list out_line) :=
  convert_loop None lines.

Section Rendering.
Variable L : library.

Definition render (l : out_line) : string :=
  match l with
  | Stepper v => "MANUAL_STEPPER STEPPER=b_stepper MOVE=" ++ float_str L v
  | Gcode text => text
  end.

Definition newline : string := String (ascii_of_nat 10) EmptyString.

(** The text written to the output file. *)
Definition output_text (out : list out_line) : string :=
  join newline (map render out).
End Rendering.

(** *** Vocabulary of the claims about this pass *)

(** The rotation-B value a motion line carries: the line is a [G1] line,
    the pattern finds a B field and [float] converts it. *)
Definition rotation_B (line : string) : option float :=
  let original_line := strip line in
  if startswith original_line "G1" then
    match re_search_B original_line with
    | Some g => match py_float g with Ok v => Some v | Raise _ => None end
    | None => None
    end
  else None.

(** The line as it is copied to the output. *)
Definition cleaned_line (line : string) : string :=
  let original_line := strip line in
  if startswith original_line "G1" then
    match re_search_B original_line with
    | Some _ => re_sub_axis "A" (re_sub_axis "B" original_line)
    | None => re_sub_axis "A" original_line
    end
  else original_line.

Fixpoint rotations (lines : list string) : list float :=
  match lines with
  | [] => []
  | l :: rest =>
      match rotation_B l with
      | Some v => v :: rotations rest
      | None => rotations rest
      end
  end.

Fixpoint stepper_values (out : list out_line) : list float :=
  match out with
  | [] => []
  | Stepper v :: rest => v :: stepper_values rest
  | Gcode _ :: rest => stepper_values rest
  end.

(** The value of the last stepper command of [out], or [start] when [out]
    has none. *)
Definition last_stepper_from (start : option float) (out : list out_line)
  : option float :=
  fold_left
    (fun acc l => match l with Stepper v => Some v | Gcode _ => acc end)
    out start.


(** What one line adds to the output, given the last value sent. *)
Definition line_output (last_sent : option float) (line : string)
  : list out_line :=
  match rotation_B line with
  | Some v =>
      if changed last_sent v
      then [Stepper v; Gcode (cleaned_line line)]
      else [Gcode (cleaned_line line)]
  | None => [Gcode (cleaned_line line)]
  end.

(** One value per run: a value is kept when it is the first one or differs
    from the value before it. *)
Fixpoint runs (prev : option float) (vs : list float) : list float :=
  match vs with
  | [] => []
  | v :: rest =>
      if changed prev v then v :: runs (Some v) rest else runs prev rest
  end.

End Klipper.

(** ** The outcome of a pass

    [ProcessWorker.run] wraps each pass in one [try]: an exception raised
    while a line is processed ends the pass, and its text is sent on the
    error signal instead of the finished signal. *)

Inductive outcome : Type :=
| Finished
| Aborted (e : exn).

(** ** Inverse-kinematics translation *)

Module IK.
Import PyStr PyFloat.
Local Open Scope result_scope.
Local Open Scope float_scope.

Definition La : float := 28.4.
Definition Lb : float := 47.7.

Definition math_pi : float := 3.141592653589793.

(** [math.radians] *)
Definition radians (x : float) : float := x * (math_pi / 180).

(** A one-argument function of the [math] module: the C function [f] is
    called, and a NaN result of a non-NaN argument, or an infinite result
    of a finite argument, raises. *)
Definition math_call (f : float -> float) (x : float) : result float :=
  let r := f x in
  if ((PrimFloat.is_nan r && negb (PrimFloat.is_nan x))
      || (PrimFloat.is_infinity r && is_finite x))%bool
  then Raise (ValueError "math domain error")
  else Ok r.

Fixpoint list_set {A : Type} (l : list A) (i : nat) (v : A) : list A :=
  match l, i with
  | [], _ => []
  | _ :: t, O => v :: t
  | h :: t, S j => h :: list_set t j v
  end.

(** The values read by the first loop of [recalculate]. *)
Record fields : Type := mk_fields {
  x_val : float; y_val : float; z_val : float;
  a_val : float; b_val : float;
  x_indices : list nat; y_indices : list nat; z_indices : list nat
}.

Definition no_fields : fields := mk_fields 0 0 0 0 0 [] [] [].

(** [parts[i][1:]] *)
Definition tail_str (s : string) : string :=
  match s with
  | EmptyString => EmptyString
  | String _ r => r
  end.

(** The first loop, from index [i] on; [parts] are the items from [i]. *)
Fixpoint scan (i : nat) (parts : list string) (f : fields) : result fields :=
  match parts with
  | [] => Ok f
  | p :: rest =>
      if startswith p "X" then
        v <- py_float (tail_str p) ;;
        scan (S i) rest
          (mk_fields v (y_val f) (z_val f) (a_val f) (b_val f)
             (x_indices f ++ [i]) (y_indices f) (z_indices f))
      else if startswith p "Y" then
        v <- py_float (tail_str p) ;;
        scan (S i) rest
          (mk_fields (x_val f) v (z_val f) (a_val f) (b_val f)
             (x_indices f) (y_indices f ++ [i]) (z_indices f))
      else if startswith p "Z" then
        v <- py_float (tail_str p) ;;
        scan (S i) rest
          (mk_fields (x_val f) (y_val f) v (a_val f) (b_val f)
             (x_indices f) (y_indices f) (z_indices f ++ [i]))
      else if startswith p "A" then
        v <- py_float (tail_str p) ;;
        scan (S i) rest
          (mk_fields (x_val f) (y_val f) (z_val f) v (b_val f)
             (x_indices f) (y_indices f) (z_indices f))
      else if startswith p "B" then
        v <- py_float (tail_str p) ;;
        scan (S i) rest
          (mk_fields (x_val f) (y_val f) (z_val f) (a_val f) v
             (x_indices f) (y_indices f) (z_indices f))
      else scan (S i) rest f
  end.

Section WithLibrary.
Variable L : library.

Definition math_sin : float -> result float := math_call (c_sin L).
Definition math_cos : float -> result float := math_call (c_cos L).

Definition func_x (x_val y_val z_val a_val b_val : float) : result num :=
  sa <- math_sin (radians a_val) ;;
  ca <- math_cos (radians a_val) ;;
  sb <- math_sin (radians b_val) ;;
  Ok (max_0 (x_val + sa * La + ca * sb * Lb)).

Definition func_y (x_val y_val z_val a_val b_val : float) : result num :=
  ca <- math_cos (radians a_val) ;;
  sa <- math_sin (radians a_val) ;;
  sb <- math_sin (radians b_val) ;;
  Ok (max_0 (y_val - La + ca * La - sa * sb * Lb)).

Definition func_z (x_val y_val z_val a_val b_val : float) : result num :=
  cb <- math_cos (radians b_val) ;;
  Ok (max_0 (z_val + cb * Lb - Lb)).

(** [str] of the value of [max(v, 0)]. *)
Definition num_str (n : num) : string :=
  match n with
  | PyInt _ => "0"%string
  | PyFloat f => float_str L f
  end.

(** [for i in indices: parts[i] = letter + str(func(...))] *)
Fixpoint rewrite_axis (letter : string)
    (func : float -> float -> float -> float -> float -> result num)
    (f : fields) (indices : list nat) (parts : list string)
  : result (list string) :=
  match indices with
  | [] => Ok parts
  | i :: rest =>
      v <- func (x_val f) (y_val f) (z_val f) (a_val f) (b_val f) ;;
      rewrite_axis letter func f rest
        (list_set parts i (letter ++ num_str v)%string)
  end.

Definition recalculate (line : string) : result string :=
  if (negb (startswith line "G") && negb (startswith line "M"))%bool
  then Ok line
  else
    let parts := split line in
    f <- scan 1 (tl parts) no_fields ;;
    parts <- rewrite_axis "X" func_x f (x_indices f) parts ;;
    parts <- rewrite_axis "Y" func_y f (y_indices f) parts ;;
    parts <- rewrite_axis "Z" func_z f (z_indices f) parts ;;
    Ok (join " " parts).

(** The loop over the lines read: what was written to the output file,
    and how the pass ended. *)
Fixpoint translate_lines (lines : list string) : list string * outcome :=
  match lines with
  | [] => ([], Finished)
  | line :: rest =>
      match recalculate (strip line) with
      | Ok new_line =>
          let (written, o) := translate_lines rest in
          ((new_line ++ Klipper.newline)%string :: written, o)
      | Raise e => ([], Aborted e)
      end
  end.

Definition run_ik_translation (lines : list string) : list string * outcome :=
  translate_lines lines.
End WithLibrary.

End IK.

(** ** Bending *)

Module Bend.
Import PyStr PyFloat.
Local Open Scope result_scope.

(** [GCodeLine]: the text captured for each field, [None] when absent. *)
Record GCodeLine : Type := mk_GCodeLine {
  gx : option string; gy : option string; gz : option string;
  ge : option string; gf : option string
}.

Definition no_groups : GCodeLine := mk_GCodeLine None None None None None.

(** Up to [n] characters among the digits and the dot. *)
Fixpoint take_number_chars (n : nat) (s : string) : string * string :=
  match n, s with
  | S k, String c r =>
      if (is_digit c || Ascii.eqb c ".")%bool then
        let (t, rest) := take_number_chars k r in (String c t, rest)
      else (EmptyString, s)
  | _, _ => (EmptyString, s)
  end.

(** One iteration of the repeated group of the pattern of [parse_gcode]:
    whitespace, one of the letters x y z e f in either case, an optional
    minus sign and 1 to 15 characters among the digits and the dot. Returns
    the lower-case letter, the captured text and the rest. *)
Definition match_field (s : string) : option (ascii * string * string) :=
  match Klipper.leading_spaces s with
  | (O, _) => None
  | (S _, String c r) =>
      let l := lower c in
      if (Ascii.eqb l "x" || Ascii.eqb l "y" || Ascii.eqb l "z"
          || Ascii.eqb l "e" || Ascii.eqb l "f")%bool then
        let (sg, r0) :=
          match r with
          | String "-" r' => ("-", r')
          | _ => (EmptyString, r)
          end in
        let (t, rest) := take_number_chars 15 r0 in
        if is_empty t then None else Some (l, sg ++ t, rest)
      else None
  | (S _, EmptyString) => None
  end.

(** A group keeps the text of its last match. *)
Definition set_group (g : GCodeLine) (l : ascii) (t : string) : GCodeLine :=
  if Ascii.eqb l "x" then mk_GCodeLine (Some t) (gy g) (gz g) (ge g) (gf g)
  else if Ascii.eqb l "y" then mk_GCodeLine (gx g) (Some t) (gz g) (ge g) (gf g)
  else if Ascii.eqb l "z" then mk_GCodeLine (gx g) (gy g) (Some t) (ge g) (gf g)
  else if Ascii.eqb l "e" then mk_GCodeLine (gx g) (gy g) (gz g) (Some t) (gf g)
  else mk_GCodeLine (gx g) (gy g) (gz g) (ge g) (Some t).

(** The greedy repetition: fields are read as long as one matches. Every
    iteration consumes characters, so [fuel] = the length of the text is
    enough. *)
Fixpoint match_fields (fuel : nat) (g : GCodeLine) (s : string) : GCodeLine :=
  match fuel with
  | O => g
  | S k =>
      match match_field s with
      | Some (l, t, rest) => match_fields k (set_group g l t) rest
      | None => g
      end
  end.

(** [parse_gcode]: the pattern is matched at the start of the line. *)
Definition parse_gcode (current_line : string) : option GCodeLine :=
  match current_line with
  | String c0 (String c1 r) =>
      if (Ascii.eqb (lower c0) "g" && in_range 48 51 c1)%bool
      then Some (match_fields (String.length r) no_groups r)
      else None
  | _ => None
  end.

(** The parameters of a run ([self.params]) that the loop reads. [spline_x0]
    is [spline_x[0]]. *)
Record params : Type := mk_params {
  spline_x0 : float;
  layer_height : float;
  warning_angle : float;
  discretization_length : float
}.

(** The spline object built by SciPy: [value h] is [spline(h)] and
    [slope h] is [spline(h, 1)]. *)
Record spline_obj : Type := mk_spline {
  value : float -> float;
  slope : float -> float
}.

(** The cursor carried across the lines. *)
Record state : Type := mk_state {
  last_position : float * float;
  current_z : float;
  last_z : float;
  relative_mode : bool
}.

Definition initial_state : state := mk_state (0, 0)%float 0%float 0%float false.

(** What the loop sends on the log signal. *)
Inductive diagnostic : Type :=
| SplineTooShort (z_height : float)
| BelowPlatform
| UnplausibleMove (z : float)
| SelfIntersection (z : float)
| AngleExceeded (angle z : float).

Inductive severity : Type := Warning | Error.

(** The word the message starts with. *)
Definition severity_of (d : diagnostic) : severity :=
  match d with
  | SelfIntersection _ => Error
  | _ => Warning
  end.

(** One effect of the loop body: a call of [output_file.write] or of
    [self.log_signal.emit]. *)
Inductive event : Type :=
| Write (text : string)
| Log (d : diagnostic).

Fixpoint written (evs : list event) : string :=
  match evs with
  | [] => EmptyString
  | Write t :: rest => t ++ written rest
  | Log _ :: rest => written rest
  end.

Fixpoint logged (evs : list event) : list diagnostic :=
  match evs with
  | [] => []
  | Write _ :: rest => logged rest
  | Log d :: rest => d :: logged rest
  end.

Definition nl : string := Klipper.newline.

Definition math_pi : float := 3.141592653589793.

Definition degree_sign : string := String (ascii_of_N 176) EmptyString.

(** The text of a diagnostic, as the f-strings of the loop build it. *)
Definition message (L : library) (d : diagnostic) : string :=
  match d with
  | SplineTooShort z_height =>
      "Warning! Spline not defined high enough for Z=" ++ float_str L z_height
  | BelowPlatform =>
      "Warning! Movement below build platform. Check your spline!"
  | UnplausibleMove z =>
      "Warning! Possibly unplausible move detected on height "
        ++ float_str L z ++ " mm!"
  | SelfIntersection z =>
      "ERROR! Self intersection on height " ++ float_str L z
        ++ " mm! Check your spline!"
  | AngleExceeded angle z =>
      "Warning! Spline angle is " ++ fixed_2 L angle ++ degree_sign
        ++ " at height " ++ float_str L z ++ " mm!"
  end.

(** What the log shows for a list of effects. *)
Definition log_text (L : library) (evs : list event) : list string :=
  map (message L) (logged evs).

Section Loop.
Variable L : library.
Variable spline : spline_obj.
Variable P : params.
(** [spline_lookup_table] *)
Variable spline_lookup_table : list float.

Local Open Scope float_scope.

(** [on_spline_length], from index [i] on: the corrected height, and
    whether the warning was sent. *)
Fixpoint lookup_from (i : nat) (table : list float) (z_height : float)
  : float * list event :=
  match table with
  | [] => (z_height, [Log (SplineTooShort z_height)])
  | height :: rest =>
      if PrimFloat.leb z_height height
      then (float_of_int (Z.of_nat i) * discretization_length P, [])
      else lookup_from (S i) rest z_height
  end.

Definition on_spline_length (z_height : float) : float * list event :=
  lookup_from 0 spline_lookup_table z_height.

Definition get_normal_point (current_point : float * float)
    (derivative distance : float) : float * float :=
  let angle := c_atan L derivative + math_pi / 2 in
  (fst current_point + distance * c_cos L angle,
   snd current_point + distance * c_sin L angle).

(** [write_line], called with [g = 1] and [f = None]. *)
Definition write_line (x y z a : float) (e : option float) : string :=
  ("G1 X" ++ float_str L (np_round L x 5)
     ++ " Y" ++ float_str L (py_round L y 5)
     ++ " Z" ++ float_str L (np_round L z 3)
     ++ " A0 B" ++ float_str L (np_round L a 3)
     ++ match e with
        | Some ev => " E" ++ float_str L (py_round L ev 5)
        | None => EmptyString
        end
     ++ nl)%string.

(** The quantities the bend algorithm computes for a move to abscissa
    [px], before its checks: [geometry] gathers the local variables of
    the loop body. *)
Record geometry : Type := mk_geometry {
  dist_to_spline : float;
  corrected_z_height : float;
  spline_warning : list event;
  angle_spline_this_layer : float;
  angle_last_layer : float;
  height_difference : float;
  transformed_gcode : float * float
}.

Definition bend_geometry (st : state) (px : float) : geometry :=
  let midpoint_x :=
    fst (last_position st) + (px - fst (last_position st)) / 2 in
  let dist := midpoint_x - spline_x0 P in
  let (corrected, ev0) := on_spline_length (current_z st) in
  let angle_this := c_atan L (slope spline corrected) in
  let angle_last := c_atan L (slope spline (corrected - layer_height P)) in
  mk_geometry dist corrected ev0 angle_this angle_last
    (c_sin L (angle_this - angle_last) * dist * (-1))
    (get_normal_point (corrected, value spline corrected)
       (slope spline corrected) (px - spline_x0 P)).

(** The depth of the transformed point, [transformed_gcode.x]. *)
Definition depth (g : geometry) : float := fst (transformed_gcode g).

(** [transformed_gcode.x < 0 or np.abs(transformed_gcode.x - current_z) > 50] *)
Definition unplausible (st : state) (g : geometry) : bool :=
  (PrimFloat.ltb (depth g) 0
   || PrimFloat.ltb 50 (abs (depth g - current_z st)))%bool.

(** [(layer_height + height_difference) < 0] *)
Definition self_intersects (g : geometry) : bool :=
  PrimFloat.ltb (layer_height P + height_difference g) 0.

(** The factor applied to the E field. *)
Definition extrusion_scale (g : geometry) : float :=
  (layer_height P + height_difference g) / layer_height P.

(** The three checks that only log, as lists of events. *)
Definition platform_check (g : geometry) : list event :=
  if PrimFloat.leb (depth g) 0 then [Log BelowPlatform] else [].

Definition intersection_check (st : state) (g : geometry) : list event :=
  if self_intersects g then [Log (SelfIntersection (current_z st))] else [].

Definition angle_check (st : state) (g : geometry) : list event :=
  if PrimFloat.ltb (warning_angle P * math_pi / 180)
       (angle_spline_this_layer g)
  then [Log (AngleExceeded (angle_spline_this_layer g * 180 / math_pi)
               (current_z st))]
  else [].

(** [extrusion_amount]: the E field times the scale, [None] without one. *)
Definition extrusion_amount (cmds : GCodeLine) (g : geometry)
  : result (option float) :=
  match ge cmds with
  | Some es => e <- py_float es ;; Ok (Some (e * extrusion_scale g))
  | None => Ok None
  end.

(** The rewritten move, as [write_line] prints it. *)
Definition rewritten_move (g : geometry) (py : float) (e : option float)
  : string :=
  write_line (snd (transformed_gcode g)) py (depth g)
    (angle_spline_this_layer g * 57.2958) e.

(** The bend algorithm on a line with an X and a Y field. *)
Definition bend_move (st : state) (cmds : GCodeLine) (xs ys : string)
    (current_line : string) : list event * result state :=
  match py_float xs with
  | Raise e => ([], Raise e)
  | Ok px =>
  match py_float ys with
  | Raise e => ([], Raise e)
  | Ok py =>
    let current_position := (px, py) in
    let g := bend_geometry st px in
    if unplausible st g
    then
      ((spline_warning g ++ platform_check g
          ++ [Log (UnplausibleMove (current_z st)); Write current_line])%list,
       Ok st)
    else
      match extrusion_amount cmds g with
      | Raise e =>
          ((spline_warning g ++ platform_check g ++ intersection_check st g
              ++ angle_check st g)%list,
           Raise e)
      | Ok e =>
          ((spline_warning g ++ platform_check g ++ intersection_check st g
              ++ angle_check st g ++ [Write (rewritten_move g py e)])%list,
           Ok (mk_state current_position (current_z st) (current_z st)
                 (relative_mode st)))
      end
  end
  end.

Definition set_relative (st : state) (b : bool) : state :=
  mk_state (last_position st) (current_z st) (last_z st) b.

Definition set_current_z (st : state) (z : float) : state :=
  mk_state (last_position st) z (last_z st) (relative_mode st).

(** The body of the loop over the lines of the input file. *)
Definition bend_line (st : state) (current_line : string)
  : list event * result state :=
  match current_line with
  | EmptyString => ([], Raise (IndexError "string index out of range"))
  | String c0 _ =>
      if Ascii.eqb c0 ";" then ([Write current_line], Ok st)
      else if contains "G91 " current_line
      then ([Write current_line], Ok (set_relative st true))
      else if contains "G90 " current_line
      then ([Write current_line], Ok (set_relative st false))
      else if relative_mode st then ([Write current_line], Ok st)
      else
        match parse_gcode current_line with
        | None => ([Write current_line], Ok st)
        | Some cmds =>
            match
              match gz cmds with
              | Some zs => py_float zs
              | None => Ok (current_z st)
              end
            with
            | Raise e => ([], Raise e)
            | Ok cz =>
                let st1 := set_current_z st cz in
                match gx cmds, gy cmds with
                | Some xs, Some ys => bend_move st1 cmds xs ys current_line
                | _, _ =>
                    match gz cmds with
                    | Some _ =>
                        (([Write ("G91" ++ nl ++ "G1 Z"
                                    ++ float_str L (cz - last_z st))%string]
                            ++ match gf cmds with
                               | Some f => [Write (" F" ++ f)%string]
                               | None => []
                               end
                            ++ [Write (nl ++ "G90" ++ nl ++ "M83" ++ nl)%string])%list,
                         Ok (mk_state (last_position st1) cz cz
                               (relative_mode st1)))
                    | None => ([Write current_line], Ok st1)
                    end
                end
            end
        end
  end.

(** The loop: the effects in order, and the final cursor or the exception
    that ended the pass. *)
Fixpoint bend_lines (st : state) (lines : list string)
  : list event * result state :=
  match lines with
  | [] => ([], Ok st)
  | line :: rest =>
      match bend_line st line with
      | (evs, Ok st') =>
          let (evs', r) := bend_lines st' rest in ((evs ++ evs')%list, r)
      | (evs, Raise e) => (evs, Raise e)
      end
  end.

(** The loop of [run_bending] under the [try] of [run]. The file is read
    while the loop runs: [lines] are the lines that [for current_line in
    gcode_file] yields, and [failure] is the exception that the read after
    the last of them raises, if it does (the file is opened with the
    default encoding and strict decoding, so bytes that do not decode
    raise [UnicodeDecodeError] when their block is read). The output file
    is taken to accept what is written. *)
Definition run_bending (lines : list string) (failure : option exn)
  : list event * outcome :=
  match bend_lines initial_state lines with
  | (evs, Ok _) =>
      match failure with
      | None => (evs, Finished)
      | Some e => (evs, Aborted e)
      end
  | (evs, Raise e) => (evs, Aborted e)
  end.
End Loop.

(** The lookup table built before the loop. [height_steps] is the array
    [np.arange(discretization_length, spline_z[-1], discretization_length)]. *)
Section Table.
Variable L : library.
Variable spline : spline_obj.
Variable dl : float.
Local Open Scope float_scope.

(** [x ** 2] of a [numpy.float64]: NumPy's scalar power calls the C
    library's [pow]; an overflow gives a warning and infinity. *)
Definition np_square (x : float) : float := c_pow L x 2.

(** [x ** 2] of a Python float, as [float_pow] computes it: its special
    cases, then the C library's [pow] on the absolute value. *)
Definition py_square (x : float) : float :=
  if PrimFloat.is_nan x then x
  else if PrimFloat.is_infinity x then abs x
  else if PrimFloat.eqb x 0 then 0
  else if PrimFloat.eqb (abs x) 1 then 1
  else c_pow L (abs x) 2.

(** [float_pow] raises when [pow] is called and returns an infinity. *)
Definition py_square_overflows (x : float) : bool :=
  (is_finite x && negb (PrimFloat.eqb x 0) && negb (PrimFloat.eqb (abs x) 1)
   && PrimFloat.is_infinity (c_pow L (abs x) 2))%bool.

Fixpoint extend_table (prev : float) (height_steps : list float) : list float :=
  match height_steps with
  | [] => []
  | height :: rest =>
      let next :=
        prev + sqrt (np_square (value spline height - value spline (height - dl))
                     + py_square dl) in
      next :: extend_table next rest
  end.

(** The table, when [discretization_length ** 2] does not raise. *)
Definition build_table (height_steps : list float) : list float :=
  0 :: extend_table 0 height_steps.

(** The loop that fills the table. [discretization_length ** 2] is the
    same at every iteration: it raises at the first one or at none. The
    text of the error is that of the C library (here glibc's). *)
Definition fill_table (height_steps : list float) : result (list float) :=
  match height_steps with
  | _ :: _ =>
      if py_square_overflows dl
      then Raise (OverflowError "(34, 'Numerical result out of range')")
      else Ok (build_table height_steps)
  | [] => Ok (build_table height_steps)
  end.

End Table.

(** The least integer not below a finite float (0 for the others). *)
Definition ceil_Z (x : float) : Z :=
  match Prim2SF x with
  | S754_finite s m e =>
      let v := if s then Z.neg m else Z.pos m in
      if (0 <=? e)%Z then (v * 2 ^ e)%Z else (- ((- v) / 2 ^ (- e)))%Z
  | _ => 0%Z
  end.

(** The sign bit of a float. *)
Definition signbit (x : float) : bool :=
  match Prim2SF x with
  | S754_zero s | S754_infinity s | S754_finite s _ _ => s
  | S754_nan => false
  end.

(** The length that [np.arange] computes from Python floats: the quotient
    [(stop - start) / step] is a division of Python floats, which raises on
    a zero divisor; a zero quotient of a difference that is not zero counts
    as one item, or none when it is negative; otherwise the length is the
    ceiling of the quotient, which must be a number and fit a signed
    64-bit integer (a ceiling of exactly 2^63 passes NumPy's comparison and
    is then converted out of range, which C leaves undefined: it is taken
    to raise as the larger ones do). *)
Definition arange_length (start stop step : float) : result Z :=
  let delta := (stop - start)%float in
  if PrimFloat.eqb step 0
  then Raise (ZeroDivisionError "float division by zero")
  else
    let quotient := (delta / step)%float in
    if (PrimFloat.eqb quotient 0 && negb (PrimFloat.eqb delta 0))%bool
    then Ok (if signbit quotient then 0%Z else 1%Z)
    else if PrimFloat.is_nan quotient
    then Raise (ValueError "arange: cannot compute length")
    else if (PrimFloat.is_infinity quotient
             || (ceil_Z quotient <? - 2 ^ 63)%Z
             || (2 ^ 63 - 1 <? ceil_Z quotient)%Z)%bool
    then Raise (ValueError "Maximum allowed size exceeded")
    else Ok (ceil_Z quotient).

(** [np.arange(start, stop, step)] on floats: an array of that length,
    empty when the length is not positive; the first two items are [start]
    and [start + step], the others [start + i * delta] for [delta] the
    difference of the first two. *)
Definition np_arange (L : library) (start stop step : float)
  : result (list float) :=
  match arange_length start stop step with
  | Raise e => Raise e
  | Ok length =>
      if (length <=? 0)%Z then Ok []
      else
        match np_alloc L length with
        | Some e => Raise e
        | None =>
            let next := (start + step)%float in
            let delta := (next - start)%float in
            Ok (map (fun i =>
                       match i with
                       | O => start
                       | S O => next
                       | _ => (start + float_of_int (Z.of_nat i) * delta)%float
                       end)
                    (seq 0 (Z.to_nat length)))
        end
  end.

End Bend.

(** ** SciPy's spline, for two control points

    [CubicSpline(spline_z, spline_x, bc_type=((1, 0), (1, 2.5)))] as the
    window builds it: [spline_z] and [spline_x] hold two values each, and
    [extrapolate] is left at its default, under which a query outside
    [spline_z[0], spline_z[-1]] is answered by the polynomial piece of the
    nearest interval. With two control points and both end slopes given the
    spline is one cubic in [h - spline_z[0]]. *)

Module CubicSpline.
Import PyFloat.
Local Open Scope float_scope.

(** The coefficients [c[0..3]] of the single piece and its left knot. *)
Record ppoly : Type := mk_ppoly {
  k0 : float; k1 : float; k2 : float; k3 : float;
  knot : float
}.

Definition make (z0 z1 x0 x1 : float) : result ppoly :=
  if negb (is_finite z0 && is_finite z1)%bool
  then Raise (ValueError "`x` must contain only finite values.")
  else if negb (is_finite x0 && is_finite x1)%bool
  then Raise (ValueError "`y` must contain only finite values.")
  else if PrimFloat.leb (z1 - z0) 0
  then Raise (ValueError "`x` must be strictly increasing sequence.")
  else
    let dx := z1 - z0 in
    let slope := (x1 - x0) / dx in
    let s0 := 0 in
    let s1 := 2.5 in
    let t := (s0 + s1 - 2 * slope) / dx in
    Ok (mk_ppoly (t / dx) ((slope - s0) / dx - t) s0 x0 z0).

(** [spline(h, nu)] for [nu] = 0 (the value) and [nu] = 1 (the slope): the
    terms are added from the constant one up. *)
Definition call (p : ppoly) (nu : nat) (h : float) : float :=
  if PrimFloat.is_nan h then nan
  else
    let s := h - knot p in
    match nu with
    | O => 0 + k3 p * 1 * 1 + k2 p * s * 1 + k1 p * (s * s) * 1
           + k0 p * (s * s * s) * 1
    | _ => 0 + k2 p * 1 * 1 + k1 p * s * 2 + k0 p * (s * s) * 3
    end.

Definition spline_of (p : ppoly) : Bend.spline_obj :=
  Bend.mk_spline (call p 0) (call p 1).

End CubicSpline.

(** ** A run of the bending pass from its parameters *)

Module Pipeline.
Import Bend.

(** [self.params] as the window fills it: two control points. *)
Record bending_params : Type := mk_bending_params {
  spline_x : float * float;
  spline_z : float * float;
  p_layer_height : float;
  p_warning_angle : float;
  p_discretization_length : float
}.

Definition loop_params (bp : bending_params) : params :=
  mk_params (fst (spline_x bp)) (p_layer_height bp) (p_warning_angle bp)
    (p_discretization_length bp).

(** [spline_lookup_table], or the exception that [np.arange] or the loop
    that fills the table raises. *)
Definition lookup_table (L : library) (bp : bending_params)
    (spline : spline_obj) : result (list float) :=
  match np_arange L (p_discretization_length bp) (snd (spline_z bp))
          (p_discretization_length bp) with
  | Raise e => Raise e
  | Ok height_steps =>
      fill_table L spline (p_discretization_length bp) height_steps
  end.

(** [ProcessWorker.run] with [process_type] bending, its files opening: the
    spline and the lookup table are built, then the lines are processed as
    they are read. *)
Definition run_bending (L : library) (bp : bending_params)
    (lines : list string) (failure : option exn) : list event * outcome :=
  match CubicSpline.make (fst (spline_z bp)) (snd (spline_z bp))
          (fst (spline_x bp)) (snd (spline_x bp)) with
  | Raise e => ([], Aborted e)
  | Ok pp =>
      let spline := CubicSpline.spline_of pp in
      match lookup_table L bp spline with
      | Raise e => ([], Aborted e)
      | Ok table =>
          Bend.run_bending L spline (loop_params bp) table lines failure
      end
  end.

End Pipeline.

(** ** Output file names

    [GCodeProcessorGUI.get_output_filename] and the functions of [os.path]
    that it calls, as [posixpath] defines them. *)

Module PosixPath.
Import PyStr.

(** [s.rfind(c)] for a one-character [c]: the last index, or -1. *)
Fixpoint rfind (c : ascii) (s : string) : Z :=
  match s with
  | EmptyString => -1
  | String a r =>
      let i := rfind c r in
      if 0 <=? i then i + 1 else if Ascii.eqb a c then 0 else -1
  end.

(** [s[:n]] and [s[n:]] for [0 <= n]. *)
Fixpoint take (n : nat) (s : string) : string :=
  match n, s with
  | S k, String c r => String c (take k r)
  | _, _ => EmptyString
  end.

Fixpoint drop (n : nat) (s : string) : string :=
  match n, s with
  | S k, String _ r => drop k r
  | _, _ => s
  end.

(** [head == sep * len(head)] *)
Fixpoint all_sep (s : string) : bool :=
  match s with
  | EmptyString => true
  | String c r => (Ascii.eqb c "/" && all_sep r)%bool
  end.

(** [head.rstrip(sep)] *)
Fixpoint rstrip_sep (s : string) : string :=
  match s with
  | EmptyString => EmptyString
  | String c r =>
      match rstrip_sep r with
      | EmptyString =>
          if Ascii.eqb c "/" then EmptyString else String c EmptyString
      | r' => String c r'
      end
  end.

Definition basename (p : string) : string :=
  let i := rfind "/" p + 1 in
  drop (Z.to_nat i) p.

Definition dirname (p : string) : string :=
  let i := rfind "/" p + 1 in
  let head := take (Z.to_nat i) p in
  if (negb (is_empty head) && negb (all_sep head))%bool
  then rstrip_sep head else head.

(** Some character of [s] is not the dot. *)
Fixpoint has_non_dot (s : string) : bool :=
  match s with
  | EmptyString => false
  | String c r => (negb (Ascii.eqb c ".") || has_non_dot r)%bool
  end.

(** [splitext]: the extension starts at the last dot of the last
    component, unless only dots precede it there. *)
Definition splitext (p : string) : string * string :=
  let sepIndex := rfind "/" p in
  let dotIndex := rfind "." p in
  if sepIndex <? dotIndex then
    let filenameIndex := sepIndex + 1 in
    if has_non_dot (take (Z.to_nat (dotIndex - filenameIndex))
                      (drop (Z.to_nat filenameIndex) p))
    then (take (Z.to_nat dotIndex) p, drop (Z.to_nat dotIndex) p)
    else (p, EmptyString)
  else (p, EmptyString).

(** [path.endswith(sep)] *)
Fixpoint endswith_sep (s : string) : bool :=
  match s with
  | EmptyString => false
  | String c EmptyString => Ascii.eqb c "/"
  | String _ r => endswith_sep r
  end.

(** [join(a, b)] *)
Definition join (a b : string) : string :=
  if startswith b "/" then b
  else if (is_empty a || endswith_sep a)%bool then a ++ b
  else a ++ "/" ++ b.

End PosixPath.

(** [get_output_filename(prefix, input_file)] *)
Definition get_output_filename (prefix input_file : string) : string :=
  let directory := PosixPath.dirname input_file in
  let filename := PosixPath.basename input_file in
  let (name, ext) := PosixPath.splitext filename in
  PosixPath.join directory (prefix ++ "_" ++ name ++ ext).

(** The files of a stage of the pipeline, as the handlers [run_bending],
    [run_ik_translation] and [run_klipper_conversion] of the window give
    them to the worker: the file read and the file written. *)
Inductive stage : Type := Bending | Kinematics | KlipperConversion.

Definition stage_files (s : stage) (input_file : string) : string * string :=
  match s with
  | Bending => (input_file, get_output_filename "BENT" input_file)
  | Kinematics =>
      (get_output_filename "BENT" input_file,
       get_output_filename "IK" input_file)
  | KlipperConversion =>
      (get_output_filename "IK" input_file,
       get_output_filename "KLIPPER" input_file)
  end.

(** ** The remote controller

    [KlipperRemoteController] of [klipper_remote_control.py]: HTTP requests
    to Moonraker through [requests]. The server and the file system are the
    environment: the reply to a request may depend on the requests sent
    before it. *)

Module Moonraker.
#[local] Set Warnings "-register-all".

(** A value decoded from JSON. Members of an object are in document order;
    a key that occurs twice has the value of its last occurrence. *)
Inductive json : Type :=
| JNull
| JBool (b : bool)
| JInt (z : Z)
| JFloat (f : float)
| JString (s : string)
| JArray (items : list json)
| JObject (members : list (string * json)).

(** The exceptions that the methods do not catch. *)
Inductive error : Type :=
| KeyError (key : string)
| TypeError
| OSError (text : string).

Inductive attempt (A : Type) : Type :=
| Returned (a : A)
| Raised (e : error).
Arguments Returned {A} a.
Arguments Raised {A} e.

Fixpoint dict_get (key : string) (members : list (string * json))
  : option json :=
  match members with
  | [] => None
  | (k, v) :: rest =>
      match dict_get key rest with
      | Some w => Some w
      | None => if String.eqb k key then Some v else None
      end
  end.

(** [v[key]] for a [str] key: only a dictionary has string keys. *)
Definition subscript (v : json) (key : string) : attempt json :=
  match v with
  | JObject members =>
      match dict_get key members with
      | Some w => Returned w
      | None => Raised (KeyError key)
      end
  | _ => Raised TypeError
  end.

Inductive verb : Type := GET | POST.

(** What a call of [requests.get] or [requests.post] carries: [params],
    [json], or [files] with [data]. *)
Inductive payload : Type :=
| NoPayload
| Query (params : list (string * json))
| Json (data : json)
| Multipart (file_name file_content content_type : string)
    (data : list (string * string)).

Record request : Type := mk_request {
  method : verb;
  url : string;
  body : payload;
  timeout : Z
}.

(** The outcome of a call: a response, with its status code, the text of
    the error that [raise_for_status] raises for an error status and the
    outcome of [response.json()] (the decoded value, or the text of the
    decoding error, which [requests] raises as a [RequestException]); or a
    [RequestException] raised by the call itself. *)
Inductive reply : Type :=
| Response (status_code : Z) (http_error : string) (decoded : string + json)
| RequestException (text : string).

(** A path of the file system: [os.path.exists] is false, or the file
    opens with its content, or it exists and [open] raises. *)
Inductive file_state : Type :=
| Missing
| Readable (content : string)
| Unreadable (text : string).

(** The dictionaries the methods return. *)
Inductive result_dict : Type :=
| Success (key : string) (value : json)
| Failure (error_text : string).

(** [result["success"]] *)
Definition success (r : result_dict) : bool :=
  match r with
  | Success _ _ => true
  | Failure _ => false
  end.

(** [str(n)] of an [int]. *)
Definition int_str (z : Z) : string :=
  if z <? 0 then "-" ++ Printing.int_str (- z) else Printing.int_str z.

Section Controller.
Variable L : library.
Variable server : list request -> request -> reply.
Variable files : string -> file_state.
Variable host : string.
Variable port : Z.

Definition base_url : string := "http://" ++ host ++ ":" ++ int_str port.

(** A method: from the calls of [requests] made so far to its result and
    the calls made after it. A call that fails before anything leaves the
    machine is a call all the same, with a [RequestException] as reply. *)
Definition action (A : Type) : Type :=
  list request -> attempt A * list request.

(** One call of [requests]. *)
Definition call (r : request) : list request -> reply * list request :=
  fun sent => (server sent r, (sent ++ [r])%list).

(** [response.raise_for_status()] then [response.json()], under the
    [except requests.RequestException] of the method: the decoded body, or
    [str(e)]. *)
Definition checked (rep : reply) : string + json :=
  match rep with
  | RequestException text => inl text
  | Response status_code http_error decoded =>
      if ((400 <=? status_code) && (status_code <? 600))%bool
      then inl http_error
      else decoded
  end.

Definition answer (key : string) (rep : reply) : result_dict :=
  match checked rep with
  | inr value => Success key value
  | inl text => Failure text
  end.

Definition test_connection : action bool :=
  fun sent =>
    let (rep, sent') :=
      call (mk_request GET (base_url ++ "/server/info") NoPayload 5) sent in
    (Returned match rep with
              | Response status_code _ _ => status_code =? 200
              | RequestException _ => false
              end,
     sent').

Definition script_request (gcode_command : string) : request :=
  mk_request POST (base_url ++ "/printer/gcode/script")
    (Json (JObject [("script", JString gcode_command)])) 10.

Definition send_gcode (gcode_command : string) : action result_dict :=
  fun sent =>
    let (rep, sent') := call (script_request gcode_command) sent in
    (Returned (answer "response" rep), sent').

Definition upload_request (file_path content target_folder : string)
  : request :=
  mk_request POST (base_url ++ "/server/files/upload")
    (Multipart (PosixPath.basename file_path) content "text/plain"
       [("root", target_folder)]) 30.

Definition upload_file (file_path target_folder : string)
  : action result_dict :=
  fun sent =>
    match files file_path with
    | Missing => (Returned (Failure "File not found"), sent)
    | Unreadable text => (Raised (OSError text), sent)
    | Readable content =>
        let (rep, sent') :=
          call (upload_request file_path content target_folder) sent in
        (Returned (answer "response" rep), sent')
    end.

Definition start_request (filename : json) : request :=
  mk_request POST (base_url ++ "/printer/print/start")
    (Json (JObject [("filename", filename)])) 10.

Definition start_print (filename : json) : action result_dict :=
  fun sent =>
    let (rep, sent') := call (start_request filename) sent in
    (Returned (answer "response" rep), sent').

(** [upload_result["response"]["item"]["path"]] *)
Definition uploaded_path (upload_result : result_dict) : attempt json :=
  match upload_result with
  | Success key value =>
      if String.eqb key "response" then
        match subscript value "item" with
        | Returned item => subscript item "path"
        | Raised e => Raised e
        end
      else Raised (KeyError "response")
  | Failure _ => Raised (KeyError "response")
  end.

Definition upload_and_print (file_path : string) : action result_dict :=
  fun sent =>
    match upload_file file_path "gcodes" sent with
    | (Raised e, sent') => (Raised e, sent')
    | (Returned upload_result, sent') =>
        if negb (success upload_result)
        then (Returned upload_result, sent')
        else
          match uploaded_path upload_result with
          | Returned filename => start_print filename sent'
          | Raised (KeyError _) =>
              (Returned (Failure "Could not determine uploaded filename"),
               sent')
          | Raised e => (Raised e, sent')
          end
    end.

Definition get_printer_status : action result_dict :=
  fun sent =>
    let (rep, sent') :=
      call (mk_request GET (base_url ++ "/printer/objects/query")
              (Query [("print_stats", JNull); ("toolhead", JNull);
                      ("extruder", JNull)]) 5) sent in
    (Returned (answer "status" rep), sent').

Definition emergency_stop : action result_dict := send_gcode "M112".

Definition home_all_axes : action result_dict := send_gcode "G28".

Definition set_manual_stepper (stepper_name : string) (position : float)
  : action result_dict :=
  send_gcode ("MANUAL_STEPPER STEPPER=" ++ stepper_name ++ " MOVE="
                ++ float_str L position).

(** *** The setup sequences of the window

    [setup_mass_production] and [setup_five_axis] of the window send their
    commands one by one and stop at the first that fails. *)

Inductive step_report : Type :=
| StepDone (number : nat) (command : string)
| StepFailed (number : nat) (command error_text : string).

Definition mass_production_commands : list string :=
  ["G91"; "G1 Z15 F1000"; "G90";
   "MANUAL_STEPPER STEPPER=a_stepper MOVE=90";
   "MANUAL_STEPPER STEPPER=b_stepper MOVE=-45"].

Definition five_axis_commands : list string :=
  ["G91"; "G1 Z25 F1000"; "G90";
   "MANUAL_STEPPER STEPPER=b_stepper MOVE=-90"].

(** The loop over [enumerate(commands)], from index [i] on: the value of
    [success_count] (or the exception that ended the loop), the lines
    added to the log, and the requests sent. *)
Fixpoint run_steps (i : nat) (commands : list string) (sent : list request)
  : attempt nat * list step_report * list request :=
  match commands with
  | [] => (Returned O, [], sent)
  | command :: rest =>
      match send_gcode command sent with
      | (Raised e, sent') => (Raised e, [], sent')
      | (Returned (Failure text), sent') =>
          (Returned O, [StepFailed (S i) command text], sent')
      | (Returned (Success _ _), sent') =>
          let '(count, reports, sent'') := run_steps (S i) rest sent' in
          (match count with
           | Returned n => Returned (S n)
           | Raised e => Raised e
           end,
           StepDone (S i) command :: reports, sent'')
      end
  end.

End Controller.

End Moonraker.

(** ** The worker thread

    [ProcessWorker.run] and the signals of its three passes. The file
    system is the environment of a run: what opening and reading the input
    file gives, and whether the output file opens. An output file that is
    open takes what is written. *)

Module Worker.

Inductive signal : Type :=
| log_signal (text : string)
| finished_signal (process_type : string)
| error_signal (text : string).

(** What [open] and the reading of the input file give: [open] raises, or
    the file yields [lines] and then ends or raises [failure]. *)
Inductive reading : Type :=
| OpenFails (e : exn)
| Opens (lines : list string) (failure : option exn).

(** The files of a run: the input file, and the exception that opening
    the output file for writing raises, if it does. *)
Record files : Type := mk_files {
  input : reading;
  output_fails : option exn
}.

(** What a pass did: the signals it sent, the text of the exception that
    left it, and the text of the output file if the pass opened it. *)
Record pass : Type := mk_pass {
  signals : list signal;
  raised : option string;
  output : option string
}.

Section Run.
Variable L : library.

(** [run_bending]: [params] is [self.params], which the window fills for
    this pass only. The spline and the table come first, then both files
    are opened, the input file before the output file, and the input file
    is read line by line while the loop runs. *)
Definition run_bending (params : option Pipeline.bending_params)
    (fs : files) : pass :=
  let start := log_signal "Starting G-code bending process..." in
  let stopped (e : exn) := mk_pass [start] (Some (exn_str e)) None in
  match params with
  | None => stopped (TypeError "'NoneType' object is not subscriptable")
  | Some bp =>
      match CubicSpline.make (fst (Pipeline.spline_z bp))
              (snd (Pipeline.spline_z bp)) (fst (Pipeline.spline_x bp))
              (snd (Pipeline.spline_x bp)) with
      | Raise e => stopped e
      | Ok pp =>
          let spline := CubicSpline.spline_of pp in
          match Pipeline.lookup_table L bp spline with
          | Raise e => stopped e
          | Ok table =>
              match input fs, output_fails fs with
              | OpenFails e, _ => stopped e
              | Opens _ _, Some e => stopped e
              | Opens lines failure, None =>
                  let (evs, o) :=
                    Bend.run_bending L spline (Pipeline.loop_params bp) table
                      lines failure in
                  let logs := map log_signal (Bend.log_text L evs) in
                  match o with
                  | Aborted e =>
                      mk_pass (start :: logs) (Some (exn_str e))
                        (Some (Bend.written evs))
                  | Finished =>
                      mk_pass (start :: logs
                                 ++ [log_signal "G-code bending finished!";
                                     finished_signal "bending"])
                        None (Some (Bend.written evs))
                  end
              end
          end
      end
  end.

(** [run_ik_translation]: the input file is read whole with [readlines],
    then the output file is opened. *)
Definition run_ik_translation (fs : files) : pass :=
  let start := log_signal "Starting IK translation process..." in
  let stopped (e : exn) := mk_pass [start] (Some (exn_str e)) None in
  match input fs with
  | OpenFails e => stopped e
  | Opens _ (Some e) => stopped e
  | Opens lines None =>
      match output_fails fs with
      | Some e => stopped e
      | None =>
          let (written, o) := IK.run_ik_translation L lines in
          match o with
          | Aborted e =>
              mk_pass [start] (Some (exn_str e))
                (Some (String.concat EmptyString written))
          | Finished =>
              mk_pass [start; log_signal "IK translation finished!";
                       finished_signal "ik"]
                None (Some (String.concat EmptyString written))
          end
      end
  end.

(** [run_klipper_conversion]: the input file is read whole (bytes that do
    not decode are ignored, so a [failure] is an error of the system), the
    lines are converted, then the output file is opened and written. *)
Definition run_klipper_conversion (fs : files) : pass :=
  let start := log_signal "Starting Klipper conversion process..." in
  let stopped (e : exn) := mk_pass [start] (Some (exn_str e)) None in
  match input fs with
  | OpenFails e => stopped e
  | Opens _ (Some e) => stopped e
  | Opens lines None =>
      match Klipper.convert lines with
      | Raise e => stopped e
      | Ok converted_lines =>
          match output_fails fs with
          | Some e => stopped e
          | None =>
              mk_pass [start; log_signal "Klipper conversion finished!";
                       finished_signal "klipper"]
                None (Some (Klipper.output_text L converted_lines))
          end
      end
  end.

(** [run]: the pass named by [process_type] under [try], and the error
    signal for an exception. *)
Definition run (process_type : string)
    (params : option Pipeline.bending_params) (fs : files)
  : list signal * option string :=
  let under_try (p : pass) :=
    (match raised p with
     | Some text => (signals p ++ [error_signal text])%list
     | None => signals p
     end, output p) in
  if String.eqb process_type "bending"
  then under_try (run_bending params fs)
  else if String.eqb process_type "ik"
  then under_try (run_ik_translation fs)
  else if String.eqb process_type "klipper"
  then under_try (run_klipper_conversion fs)
  else ([], None).

End Run.

End Worker.

(** ** The buttons of the window

    The handlers of [GCodeProcessorGUI] that enable and disable buttons,
    as steps on the state they change. *)

Module Window.

(** [printer_controller] tells whether [self.printer_controller] is a
    controller (not [None]); the other flags are the enabled states. *)
Record state : Type := mk_state {
  input_file : string;
  printer_controller : bool;
  bend_button : bool;
  ik_button : bool;
  klipper_button : bool;
  open_folder_button : bool;
  copy_path_button : bool;
  send_to_printer_button : bool;
  upload_only_button : bool;
  mass_production_button : bool;
  five_axis_button : bool;
  home_all_button : bool;
  emergency_stop_button : bool
}.

(** The state that [__init__] and [init_ui] leave: of these buttons only
    the Klipper button is enabled. *)
Definition initial : state :=
  mk_state EmptyString false false false true false false false false
    false false false false.

(** What a connection test met: [test_connection] returned, or an
    exception reached the handler. *)
Inductive test_outcome : Type :=
| Answered (ok : bool)
| Failed.

(** A handler call, with what the environment gave it: the path chosen in
    the file dialog (empty when it is cancelled), the argument of a
    signal, the text of the address field and the outcome of the test. *)
Inductive event : Type :=
| browse_file (file_path : string)
| on_process_finished (process_type : string)
| on_process_error (error_message : string)
| test_printer_connection (ip_text : string) (outcome : test_outcome).

Section Handlers.
(** [KLIPPER_AVAILABLE] *)
Variable klipper_available : bool.

Definition set_printer (s : state) (controller controls : bool) : state :=
  mk_state (input_file s) controller (bend_button s) (ik_button s)
    (klipper_button s) (open_folder_button s) (copy_path_button s)
    (send_to_printer_button s) (upload_only_button s)
    controls controls controls controls.

Definition step (s : state) (e : event) : state :=
  match e with
  | browse_file file_path =>
      if PyStr.is_empty file_path then s
      else
        mk_state file_path (printer_controller s) true (ik_button s)
          (klipper_button s) (open_folder_button s) (copy_path_button s)
          (send_to_printer_button s) (upload_only_button s)
          (mass_production_button s) (five_axis_button s)
          (home_all_button s) (emergency_stop_button s)
  | on_process_finished process_type =>
      if String.eqb process_type "bending" then
        mk_state (input_file s) (printer_controller s) (bend_button s) true
          (klipper_button s) true (copy_path_button s)
          (send_to_printer_button s) (upload_only_button s)
          (mass_production_button s) (five_axis_button s)
          (home_all_button s) (emergency_stop_button s)
      else if String.eqb process_type "ik" then
        mk_state (input_file s) (printer_controller s) (bend_button s)
          (ik_button s) true (open_folder_button s) (copy_path_button s)
          (send_to_printer_button s) (upload_only_button s)
          (mass_production_button s) (five_axis_button s)
          (home_all_button s) (emergency_stop_button s)
      else if String.eqb process_type "klipper" then
        mk_state (input_file s) (printer_controller s) (bend_button s)
          (ik_button s) (klipper_button s) (open_folder_button s) true
          (if printer_controller s then true else send_to_printer_button s)
          (if printer_controller s then true else upload_only_button s)
          (mass_production_button s) (five_axis_button s)
          (home_all_button s) (emergency_stop_button s)
      else s
  | on_process_error _ => s
  | test_printer_connection ip_text outcome =>
      if negb klipper_available then s
      else if PyStr.is_empty (PyStr.strip ip_text) then s
      else
        match outcome with
        | Answered true => set_printer s true true
        | Answered false => set_printer s false false
        | Failed => set_printer s false false
        end
  end.

(** The window after a sequence of handler calls. *)
Definition run (events : list event) : state := fold_left step events initial.

End Handlers.

End Window.

(** ** A reference environment for the examples

    The control points, layer height and warning angle that the window
    shows when it opens, with a discretization length of 1, and the C
    library restricted to the arguments that occur in the examples below
    (the values are those of the C library behind CPython's [math]). *)

Module Reference.
Import Bend.
Local Open Scope float_scope.

Definition tabulated (table : list (float * float)) (x : float) : float :=
  match find (fun p => PrimFloat.eqb (fst p) x) table with
  | Some p => snd p
  | None => nan
  end.

Definition sin_table : list (float * float) :=
  [ (0, 0);
    (0.0046469442841570174, 0.004646927559751978);
    (2.165122840450871, 0.8285258059855267);
    (0.0011035355520413333, 0.0011035353280621223);
    (1.5707963267948966, 1);
    (2.356194490192345, 0.7071067811865476);
    (0.1495168085209626, 0.14896034928765356);
    (2.289626326416521, 0.7525766947068778);
    (0.5235987755982988, 0.49999999999999994) ].

Definition cos_table : list (float * float) :=
  [ (0, 1);
    (2.165122840450871, -0.5599508807172583);
    (1.5707963267948966, 6.123233995736766e-17);
    (2.356194490192345, -0.7071067811865475);
    (2.289626326416521, -0.658504607868518);
    (0.5235987755982988, 0.8660254037844387) ].

Definition atan_table : list (float * float) :=
  [ (0, 0);
    (0.6758400000000001, 0.5943265136559744);
    (0.6690916640000001, 0.5896795693718174);
    (-0.001103536000000001, -0.0011035355520413333);
    (1, 0.7853981633974483);
    (0.875, 0.7188299996216245);
    (0.64, 0.5693131911006619) ].

(** The squares at which the C library's [pow] does not return the rounded
    product; at the other arguments of the examples it does. *)
Definition pow_table : list (float * float) :=
  [ (18.659, 348.158281) ].

Definition pow (x y : float) : float :=
  if PrimFloat.eqb y 2 then
    match find (fun p => PrimFloat.eqb (fst p) x) pow_table with
    | Some p => snd p
    | None => x * x
    end
  else nan.

Definition lib : library :=
  mk_library (tabulated sin_table) (tabulated cos_table) (tabulated atan_table)
    pow Printing.float_repr Printing.format_fixed_2 Printing.double_round
    Printing.numpy_round (fun _ => None).

Definition parameters : Pipeline.bending_params :=
  Pipeline.mk_bending_params (115.5, 205.5) (0, 100) 0.28 100 1.

Definition spline : spline_obj :=
  match CubicSpline.make 0 100 115.5 205.5 with
  | Ok pp => CubicSpline.spline_of pp
  | Raise _ => mk_spline (fun _ => nan) (fun _ => nan)
  end.

Definition P : params := Pipeline.loop_params parameters.

(** The heights of the table, 1 to 99, and the table. *)
Definition height_steps : list float :=
  match np_arange lib 1 100 1 with
  | Ok steps => steps
  | Raise _ => []
  end.

Definition table : list float :=
  match Pipeline.lookup_table lib parameters spline with
  | Ok t => t
  | Raise _ => []
  end.

End Reference.

(** * Vocabulary of the properties

    The predicates and functions in which the properties below are stated,
    pass by pass, and the inputs of their examples. *)

(** ** The bending pass *)

Section BendVocabulary.
Import PyStr PyFloat Bend.

(** The conditions under which the loop body reaches the parser: the line
    is not empty, is no comment, holds no toggle text, and the cursor is
    in absolute mode. *)
Definition reaches_parser (st : state) (line : string) : Prop :=
  line <> EmptyString
  /\ startswith line ";" = false
  /\ contains "G91 " line = false
  /\ contains "G90 " line = false
  /\ relative_mode st = false.

(** The text of the layer-change block. *)
Definition layer_change_text (L : library) (dz : float) (f : option string)
  : string :=
  ("G91" ++ nl ++ "G1 Z" ++ float_str L dz
     ++ match f with Some t => " F" ++ t | None => EmptyString end
     ++ nl ++ "G90" ++ nl ++ "M83" ++ nl)%string.

(** An X/Y move: the line reaches the parser and parses with an X and a Y
    field; [px], [py] are the converted fields and [cz] is the current
    height once the Z field, if any, is read. *)
Definition xy_move (st : state) (line : string) (cmds : GCodeLine)
    (px py cz : float) : Prop :=
  reaches_parser st line
  /\ parse_gcode line = Some cmds
  /\ match gz cmds with
     | Some zs => py_float zs
     | None => Ok (current_z st)
     end = Ok cz
  /\ option_map py_float (gx cmds) = Some (Ok px)
  /\ option_map py_float (gy cmds) = Some (Ok py).

(** The cursor once the height of the line is read. *)
Definition at_height (st : state) (cz : float) : state := set_current_z st cz.

(** The cursor after a rewritten move. *)
Definition after_move (st : state) (px py cz : float) : state :=
  mk_state (px, py) cz cz (relative_mode st).

(** The height delta of the specification, steps 1 to 5 of its bend
    algorithm, for a move to abscissa [px] from the cursor [st]:
    [heightDelta = -sin(angleThisLayer - angleLastLayer) * distToSpline],
    the factor -1 being applied last. *)
Definition height_delta (L : library) (spline : spline_obj) (P : params)
    (table : list float) (st : state) (px : float) : float :=
  let midpoint_x :=
    (fst (last_position st) + (px - fst (last_position st)) / 2)%float in
  let dist_to_spline := (midpoint_x - spline_x0 P)%float in
  let corrected_height := fst (on_spline_length P table (current_z st)) in
  let angle_this_layer := c_atan L (slope spline corrected_height) in
  let angle_last_layer :=
    c_atan L (slope spline (corrected_height - layer_height P)%float) in
  (c_sin L (angle_this_layer - angle_last_layer)%float * dist_to_spline
   * (-1))%float.

(** The part of a rewritten line before the E field. *)
Definition move_stem (L : library) (x y z a : float) : string :=
  ("G1 X" ++ float_str L (np_round L x 5)
     ++ " Y" ++ float_str L (py_round L y 5)
     ++ " Z" ++ float_str L (np_round L z 3)
     ++ " A0 B" ++ float_str L (np_round L a 3))%string.

End BendVocabulary.

(** A line of a text file: the text and its line end. *)
Definition file_line (text : string) : string := (text ++ Bend.nl)%string.

(** ** The Klipper conversion *)

Section KlipperVocabulary.
Import PyStr PyFloat Klipper.

(** A text of decimal digits only. *)
Fixpoint all_digits (s : string) : bool :=
  match s with
  | EmptyString => true
  | String c r => (is_digit c && all_digits r)%bool
  end.

(** A text that does not start with a decimal digit. *)
Definition starts_nondigit (s : string) : Prop :=
  match s with
  | EmptyString => True
  | String c _ => is_digit c = false
  end.

(** The characters of a matched number: digits, the minus sign, the dot. *)
Definition number_char (c : ascii) : bool :=
  (is_digit c || Ascii.eqb c "-" || Ascii.eqb c ".")%bool.

(** A text of such characters only. *)
Fixpoint all_number_chars (s : string) : bool :=
  match s with
  | EmptyString => true
  | String c r => (number_char c && all_number_chars r)%bool
  end.

(** The text of a number: digits, then possibly a dot and digits. *)
Definition unsigned_text (body : string) : Prop :=
  exists d1 tail,
    body = (d1 ++ tail)%string
    /\ all_digits d1 = true /\ d1 <> EmptyString
    /\ (tail = EmptyString
        \/ exists d2, tail = ("." ++ d2)%string /\ all_digits d2 = true).

(** The output of the loop, line by line. *)
Fixpoint loop_output (last_sent : option float) (lines : list string)
  : list out_line :=
  match lines with
  | [] => []
  | line :: rest =>
      (line_output last_sent line
         ++ loop_output
              (last_stepper_from last_sent (line_output last_sent line)) rest)%list
  end.

End KlipperVocabulary.

(** ** The kinematics translation *)

Section KinematicsVocabulary.
Import PyStr PyFloat IK.
Local Open Scope float_scope.

(** The indices, counted from [i], of the parts that start with [letter]. *)
Fixpoint axis_positions (letter : string) (i : nat) (parts : list string)
  : list nat :=
  match parts with
  | [] => []
  | p :: rest =>
      if startswith p letter
      then i :: axis_positions letter (S i) rest
      else axis_positions letter (S i) rest
  end.

(** A part as the pass leaves it, given the three printed values. *)
Definition rewrite_part (sx sy sz : string) (p : string) : string :=
  if startswith p "X" then ("X" ++ sx)%string
  else if startswith p "Y" then ("Y" ++ sy)%string
  else if startswith p "Z" then ("Z" ++ sz)%string
  else p.

(** The three formulas, on the values read from a line and the sines and
    cosines of its angles. *)
Definition new_x (f : fields) (sa ca sb : float) : num :=
  max_0 (x_val f + sa * La + ca * sb * Lb).

Definition new_y (f : fields) (sa ca sb : float) : num :=
  max_0 (y_val f - La + ca * La - sa * sb * Lb).

Definition new_z (f : fields) (cb : float) : num :=
  max_0 (z_val f + cb * Lb - Lb).

(** The number that the parts of a line carry for an axis: that of the
    last part that starts with the letter, [v] when there is none. *)
Fixpoint axis_value (letter : string) (v : float) (parts : list string)
  : float :=
  match parts with
  | [] => v
  | p :: rest =>
      axis_value letter
        (if startswith p letter
         then match py_float (tail_str p) with
              | Ok w => w
              | Raise _ => v
              end
         else v)
        rest
  end.

(** Degrees to radians. *)
Definition to_radians (degrees : float) : float :=
  degrees * (3.141592653589793 / 180).

(** The formulas of the specification, with La = 28.4 and Lb = 47.7, on
    the numbers of a line, the angles in degrees. *)
Definition spec_x (L : library) (X A B : float) : num :=
  max_0 (X + c_sin L (to_radians A) * 28.4
         + c_cos L (to_radians A) * c_sin L (to_radians B) * 47.7).

Definition spec_y (L : library) (Y A B : float) : num :=
  max_0 (Y - 28.4 + c_cos L (to_radians A) * 28.4
         - c_sin L (to_radians A) * c_sin L (to_radians B) * 47.7).

Definition spec_z (L : library) (Z B : float) : num :=
  max_0 (Z + c_cos L (to_radians B) * 47.7 - 47.7).

End KinematicsVocabulary.

(** ** Fields, words and lines *)

Section FieldVocabulary.
Import PyStr PyFloat Bend.

Fixpoint count_dots (s : string) : nat :=
  match s with
  | EmptyString => O
  | String c r => ((if Ascii.eqb c "." then 1 else 0) + count_dots r)%nat
  end.

Fixpoint has_digit (s : string) : bool :=
  match s with
  | EmptyString => false
  | String c r => (is_digit c || has_digit r)%bool
  end.

(** A text without its leading minus sign. *)
Definition unsigned_part (t : string) : string :=
  match t with
  | String "-" r => r
  | _ => t
  end.

(** One number: after the sign, at least one digit and at most one dot. *)
Definition field_is_number (t : string) : bool :=
  (has_digit (unsigned_part t) && (count_dots (unsigned_part t) <=? 1)%nat)%bool.

(** The texts that [parse_gcode] captured, and those among them that the
    loop converts with [float]. *)
Definition captured (cmds : GCodeLine) : list (option string) :=
  [gx cmds; gy cmds; gz cmds; ge cmds; gf cmds].

Definition converted (cmds : GCodeLine) : list (option string) :=
  [gx cmds; gy cmds; gz cmds; ge cmds].

Fixpoint digits_and_dots (s : string) : bool :=
  match s with
  | EmptyString => true
  | String c r => ((is_digit c || Ascii.eqb c ".") && digits_and_dots r)%bool
  end.

(** The shape of a captured text. *)
Definition field_shape (t : string) : Prop :=
  digits_and_dots (unsigned_part t) = true
  /\ unsigned_part t <> EmptyString
  /\ (String.length t <= 16)%nat.

Definition all_shaped (g : GCodeLine) : Prop :=
  forall t, In (Some t) (captured g) -> field_shape t.

(** A line that the loop copies whatever it holds: a comment line, or, in
    relative mode, a line that does not switch back to absolute mode. *)
Definition kept_verbatim (rel : bool) (line : string) : Prop :=
  line <> EmptyString
  /\ (startswith line ";" = true
      \/ (rel = true
          /\ (contains "G91 " line = true \/ contains "G90 " line = false))).

End FieldVocabulary.

(** A float that is not above zero, as a specification float: a NaN, or a
    value with the sign bit set. *)
Definition not_above_zero (x : spec_float) : Prop :=
  match x with
  | S754_zero s | S754_infinity s | S754_finite s _ _ => s = true
  | S754_nan => True
  end.

Definition below_zero (x : spec_float) : Prop :=
  match x with
  | S754_infinity s | S754_finite s _ _ => s = true
  | _ => False
  end.

Definition above_zero (x : spec_float) : Prop :=
  match x with
  | S754_infinity s | S754_finite s _ _ => s = false
  | _ => False
  end.

Section WordVocabulary.
Import PyStr PyFloat IK.

(** A part that the first loop of [recalculate] converts: it starts with
    one of the five axis letters. *)
Definition axis_word (p : string) : bool :=
  (startswith p "X" || startswith p "Y" || startswith p "Z"
   || startswith p "A" || startswith p "B")%bool.

(** A part that the second loops rewrite. *)
Definition coordinate_word (p : string) : bool :=
  (startswith p "X" || startswith p "Y" || startswith p "Z")%bool.

Fixpoint no_space (s : string) : bool :=
  match s with
  | EmptyString => true
  | String c r => (negb (is_space c) && no_space r)%bool
  end.

(** A word: a non-empty text without whitespace. *)
Definition word (s : string) : Prop := s <> EmptyString /\ no_space s = true.

End WordVocabulary.

(** The lines of the Klipper output that are not stepper commands. *)
Fixpoint gcode_lines (out : list Klipper.out_line) : list string :=
  match out with
  | [] => []
  | Klipper.Stepper _ :: rest => gcode_lines rest
  | Klipper.Gcode text :: rest => text :: gcode_lines rest
  end.

(** ** The controller, the worker and the window *)

Section ControllerVocabulary.
Import Moonraker.
Variable server : list request -> request -> reply.
Variable host : string.
Variable port : Z.

(** Whether the printer accepts a command sent after [sent]. *)
Definition accepted (sent : list request) (command : string) : bool :=
  match checked (server sent (script_request host port command)) with
  | inr _ => true
  | inl _ => false
  end.

(** The requests of a list of commands. *)
Definition scripts (commands : list string) : list request :=
  map (script_request host port) commands.

End ControllerVocabulary.

(** A signal that ends a run for the window. *)
Definition terminal (s : Worker.signal) : bool :=
  match s with
  | Worker.log_signal _ => false
  | _ => true
  end.

(** The process types that [run] knows. *)
Definition known (process_type : string) : bool :=
  (String.eqb process_type "bending" || String.eqb process_type "ik"
   || String.eqb process_type "klipper")%bool.

(** The signals of a run that ends: the starting line, lines of the log,
    and one terminal signal, which is the finished signal of the process
    type after the output file was written, or the error signal. *)
Definition one_terminal_last (process_type : string)
    (sigs : list Worker.signal) (out : option string) : Prop :=
  exists start body last,
    sigs = (Worker.log_signal start :: body ++ [last])%list
    /\ forallb (fun s => negb (terminal s)) body = true
    /\ ((last = Worker.finished_signal process_type /\ out <> None)
        \/ exists text, last = Worker.error_signal text).

(** A Klipper conversion that finished while a controller was connected. *)
Definition converted_while_connected (klipper_available : bool)
    (events : list Window.event) : Prop :=
  exists pre post,
    events = (pre ++ Window.on_process_finished "klipper" :: post)%list
    /\ Window.printer_controller (Window.run klipper_available pre) = true.

(** ** The inputs of the examples *)

(** *** Two moves at height 50 under the reference parameters

    The cursor stands at height 50. A move from X 210 to X 212 lands below
    the platform; a move from X 190 to X 195 is plausible. On both the
    height difference exceeds the layer height in absolute value. *)

Definition far_state : Bend.state :=
  Bend.mk_state (210, 100)%float 50%float 50%float false.

Definition far_line : string := file_line "G1 X212 Y100 E0.5".

Definition far_fields : Bend.GCodeLine :=
  Bend.mk_GCodeLine (Some "212") (Some "100") None (Some "0.5") None.

Definition near_state : Bend.state :=
  Bend.mk_state (190, 100)%float 50%float 50%float false.

Definition near_line : string := file_line "G1 X195 Y100 E0.5".

Definition near_fields : Bend.GCodeLine :=
  Bend.mk_GCodeLine (Some "195") (Some "100") None (Some "0.5") None.

(** *** A move under the control points of the specification

    Offsets 0 and 10 at the heights 0 and 10, layer height 1 and
    discretization length 1. The cursor stands at height 5 and the line
    moves it from (0, 5) to (2, 5): the midpoint of the move is 1 away
    from the base of the spline. *)

Definition curved_parameters : Pipeline.bending_params :=
  Pipeline.mk_bending_params (0, 10)%float (0, 10)%float 1%float 100%float
    1%float.

Definition curved_spline : Bend.spline_obj :=
  match CubicSpline.make 0 10 0 10 with
  | Ok pp => CubicSpline.spline_of pp
  | Raise _ => Bend.mk_spline (fun _ => nan) (fun _ => nan)
  end.

Definition curved_P : Bend.params := Pipeline.loop_params curved_parameters.

Definition curved_table : list float :=
  match Pipeline.lookup_table Reference.lib curved_parameters curved_spline with
  | Ok t => t
  | Raise _ => []
  end.

Definition curved_state : Bend.state :=
  Bend.mk_state (0, 5)%float 5%float 5%float false.

Definition curved_line : string := file_line "G1 X2 Y5 E1".

Definition curved_fields : Bend.GCodeLine :=
  Bend.mk_GCodeLine (Some "2") (Some "5") None (Some "1") None.

Definition curved_geometry : Bend.geometry :=
  Bend.bend_geometry Reference.lib curved_spline curved_P curved_table
    (at_height curved_state 5%float) 2%float.

(** *** The lines of the other two passes *)

(** The example of the specification: six motion lines whose B fields are
    5, 5, 5, 10, 10, 5. *)
Definition six_rotations : list string :=
  map file_line
    [ "G1 X1.0 Y1.0 Z0.2 A0 B5.0 E0.1"; "G1 X2.0 Y1.0 Z0.2 A0 B5.0 E0.2";
      "G1 X3.0 Y1.0 Z0.2 A0 B5.0 E0.3"; "G1 X4.0 Y1.0 Z0.2 A0 B10.0 E0.4";
      "G1 X5.0 Y1.0 Z0.2 A0 B10.0 E0.5"; "G1 X6.0 Y1.0 Z0.2 A0 B5.0 E0.6" ].

(** The home line of the specification and the values read from it. *)
Definition home_line : string := "G1 X0 Y0 Z0 A0 B0".

(** A line with both angles, and a line whose X field is not a number. *)
Definition tilted_line : string := "G1 X10 Y20 Z50 A90 B30 E1".

Definition nan_line : string := "G1 Xnan Y1 Z1 A0 B0".

Definition home_fields : IK.fields :=
  IK.mk_fields 0 0 0 0 0 [1%nat] [2%nat] [3%nat].

(** * Facts about binary64 arithmetic *)

Module FloatFacts.
Import PyFloat.
Local Open Scope float_scope.

(** A float that is neither NaN nor infinite is a zero or a finite
    number. *)
Lemma finite_cases (x : float) :
  is_finite x = true ->
  (exists s, Prim2SF x = S754_zero s)
  \/ (exists s m e, Prim2SF x = S754_finite s m e).
Proof.
  unfold is_finite, Prim2SF.
  destruct (PrimFloat.is_nan x); [discriminate |].
  destruct (PrimFloat.is_infinity x); [discriminate |].
  intros _.
  destruct (is_zero x); [left; eauto |].
  destruct (Z.frexp x) as [r ex].
  destruct (shr_fexp prec emax _ _ _) as [sh e'].
  destruct (shr_m sh); eauto.
Qed.

Lemma of_spec_zero (x : float) (s : bool) :
  Prim2SF x = S754_zero s -> x = (if s then PrimFloat.neg_zero else PrimFloat.zero).
Proof.
  intros H. rewrite <- (SF2Prim_Prim2SF x), H. destruct s; reflexivity.
Qed.

(** [a - a] is [+0] for every finite [a]. *)
Lemma sub_diag (a : float) : is_finite a = true -> a - a = 0.
Proof.
  intros Hfin.
  apply (of_spec_zero _ false).
  rewrite sub_spec.
  destruct (finite_cases a Hfin) as [[s ->] | (s & m & e & ->)].
  - destruct s; reflexivity.
  - unfold SF64sub, SFsub. rewrite Z.sub_diag. reflexivity.
Qed.

(** A zero times a finite number is a zero. *)
Lemma mul_zero_l (z d : float) :
  z = PrimFloat.zero \/ z = PrimFloat.neg_zero -> is_finite d = true ->
  z * d = PrimFloat.zero \/ z * d = PrimFloat.neg_zero.
Proof.
  intros Hz Hfin.
  assert (H : exists s, Prim2SF (z * d) = S754_zero s).
  { rewrite mul_spec.
    destruct (finite_cases d Hfin) as [[s ->] | (s & m & e & ->)];
      destruct Hz as [-> | ->]; cbn; eauto. }
  destruct H as [s H]. apply of_spec_zero in H.
  destruct s; auto.
Qed.

(** [0 * d == 0] for every finite [d]. *)
Lemma mul_zero_eqb (d : float) :
  is_finite d = true -> PrimFloat.eqb (0 * d) 0 = true.
Proof.
  intros Hfin.
  destruct (mul_zero_l 0 d (or_introl eq_refl) Hfin) as [-> | ->]; reflexivity.
Qed.

(** For [v] not NaN, [v < 0] fails only if [0 <= v]. *)
Lemma not_lt_zero (v : float) :
  PrimFloat.is_nan v = false -> PrimFloat.ltb v 0 = false ->
  PrimFloat.leb 0 v = true.
Proof.
  rewrite ltb_spec, leb_spec.
  change (Prim2SF 0) with (S754_zero false).
  unfold Prim2SF at 1 2.
  intros ->.
  destruct (is_zero v); [reflexivity |].
  destruct (PrimFloat.is_infinity v).
  - destruct (get_sign v); [discriminate | reflexivity].
  - destruct (Z.frexp v) as [r ex].
    destruct (shr_fexp prec emax _ _ _) as [sh e'].
    destruct (shr_m sh); try reflexivity.
    destruct (get_sign v); [discriminate | reflexivity].
Qed.


End FloatFacts.

(** * The printing functions on known values

    The texts and values that CPython gives for the same arguments. *)

Example float_repr_values :
  map Printing.float_repr
    [0.1; 0.4; 100; -2.5; 0.30000000000000004; 123456789.123; 0.0001; 1e-5;
     1e15; 1e16; 1e23; 5e-324; 1125899906842624.25; -0.13895253946589686;
     0.28 + 47.7 - 47.7]%float
  = ["0.1"; "0.4"; "100.0"; "-2.5"; "0.30000000000000004"; "123456789.123";
     "0.0001"; "1e-05"; "1000000000000000.0"; "1e+16"; "1e+23"; "5e-324";
     "1125899906842624.2"; "-0.13895253946589686"; "0.28000000000000114"].
Proof. vm_compute. reflexivity. Qed.

Example format_fixed_2_values :
  map Printing.format_fixed_2
    [0.125; 0.135; 2.675; -0.001; 99.995; 123.456; 57.29577951308232]%float
  = ["0.12"; "0.14"; "2.67"; "-0.00"; "100.00"; "123.46"; "57.30"].
Proof. vm_compute. reflexivity. Qed.

(** The two roundings differ: on 1.000005 the exact value lies above the
    half and the scaled product below it. *)
Example round_values :
  map (fun x => Printing.double_round x 5)
    [0.123455; 1.000005; 212.000004; -0.13895253946589686]%float
  = [0.12345; 1.00001; 212; -0.13895]%float
  /\ map (fun x => Printing.numpy_round x 5)
       [0.123455; 1.000005; 212.000004; -0.13895253946589686]%float
     = [0.12346; 1; 212; -0.13895]%float
  /\ Printing.double_round 2.675 2 = 2.67%float
  /\ Printing.numpy_round 2.675 2 = 2.68%float.
Proof. repeat split; vm_compute; reflexivity. Qed.

Example str_repr_values :
  map PyStr.str_repr [EmptyString; "1.2.3"; "it's"]
  = ["''"; "'1.2.3'";
     String PyStr.double_quote
       ("it's" ++ String PyStr.double_quote EmptyString)].
Proof. vm_compute. reflexivity. Qed.

(** * Properties of the bending pass *)

Section BendingPass.
Import PyStr PyFloat Bend.
Variable L : library.
Variable spline : spline_obj.
Variable P : params.
Variable table : list float.

Lemma set_relative_same (st : state) : set_relative st (relative_mode st) = st.
Proof. destruct st; reflexivity. Qed.

Lemma startswith_semicolon (c0 : ascii) (rest : string) :
  startswith (String c0 rest) ";" = Ascii.eqb c0 ";".
Proof.
  unfold startswith; cbn [String.prefix].
  destruct (ascii_dec ";" c0) as [<- | Hne].
  - destruct rest; reflexivity.
  - symmetry. apply Ascii.eqb_neq. congruence.
Qed.

(** C7. A comment line (first character [;]) and any line read while the
    cursor is in relative mode is written to the output as it is, nothing
    is logged, and the cursor keeps every field but the mode flag, which
    changes only when the line holds one of the two toggle texts (and
    never on a comment line). *)
Theorem comment_and_relative_lines_pass_through (st : state) (line : string) :
  line <> EmptyString ->
  startswith line ";" = true \/ relative_mode st = true ->
  exists b : bool,
    bend_line L spline P table st line = ([Write line], Ok (set_relative st b))
    /\ (startswith line ";" = true -> b = relative_mode st)
    /\ (contains "G91 " line = false -> contains "G90 " line = false ->
        b = relative_mode st)
    /\ (b <> relative_mode st ->
        if contains "G91 " line then b = true else b = false).
Proof.
  intros Hne Hcase.
  destruct line as [| c0 rest]; [congruence |].
  rewrite startswith_semicolon in *.
  unfold bend_line.
  destruct (Ascii.eqb c0 ";") eqn:Hc.
  - exists (relative_mode st). rewrite set_relative_same. tauto.
  - destruct Hcase as [Hcase | Hrel]; [discriminate |].
    destruct (contains "G91 " (String c0 rest)) eqn:H91.
    + exists true. repeat split; congruence.
    + destruct (contains "G90 " (String c0 rest)) eqn:H90.
      * exists false. repeat split; congruence.
      * exists (relative_mode st). rewrite set_relative_same, Hrel.
        repeat split; congruence.
Qed.

Lemma bend_line_parsed (st : state) (line : string) :
  reaches_parser st line ->
  bend_line L spline P table st line =
    match parse_gcode line with
    | None => ([Write line], Ok st)
    | Some cmds =>
        match
          match gz cmds with
          | Some zs => py_float zs
          | None => Ok (current_z st)
          end
        with
        | Raise e => ([], Raise e)
        | Ok cz =>
            let st1 := set_current_z st cz in
            match gx cmds, gy cmds with
            | Some xs, Some ys => bend_move L spline P table st1 cmds xs ys line
            | _, _ =>
                match gz cmds with
                | Some _ =>
                    (([Write ("G91" ++ nl ++ "G1 Z"
                                ++ float_str L (cz - last_z st)%float)%string]
                        ++ match gf cmds with
                           | Some f => [Write (" F" ++ f)%string]
                           | None => []
                           end
                        ++ [Write (nl ++ "G90" ++ nl ++ "M83" ++ nl)%string])%list,
                     Ok (mk_state (last_position st1) cz cz (relative_mode st1)))
                | None => ([Write line], Ok st1)
                end
            end
        end
    end.
Proof.
  intros (Hne & Hc & H91 & H90 & Hrel).
  destruct line as [| c0 rest]; [congruence |].
  rewrite startswith_semicolon in Hc.
  unfold bend_line. rewrite Hc, H91, H90, Hrel. reflexivity.
Qed.

Lemma append_assoc (a b c : string) : ((a ++ b) ++ c = a ++ (b ++ c))%string.
Proof. induction a; cbn; congruence. Qed.

Lemma append_empty_r (a : string) : (a ++ EmptyString = a)%string.
Proof. induction a; cbn; congruence. Qed.

(** C10. In absolute mode, a parsed motion line with a Z field that lacks
    the X field or the Y field takes the layer-change branch: the text
    written is G91, G1 Z with the difference of the new and the last
    height (and the F field of the line when it has one), G90, M83;
    nothing is logged; the position of the cursor is kept (an X or Y
    value of the line is not used) and both heights become the new
    height. *)
Theorem layer_change_branch (st : state) (line : string) (cmds : GCodeLine)
    (zs : string) (cz : float) :
  reaches_parser st line ->
  parse_gcode line = Some cmds ->
  gz cmds = Some zs ->
  gx cmds = None \/ gy cmds = None ->
  py_float zs = Ok cz ->
  exists evs,
    bend_line L spline P table st line =
      (evs, Ok (mk_state (last_position st) cz cz false))
    /\ written evs = layer_change_text L (cz - last_z st)%float (gf cmds)
    /\ logged evs = [].
Proof.
  intros Hreach Hparse Hz Hxy Hcz.
  rewrite (bend_line_parsed st line Hreach), Hparse, Hz, Hcz.
  destruct Hreach as (_ & _ & _ & _ & Hrel).
  cbn [set_current_z last_position relative_mode].
  rewrite Hrel.
  replace (match gx cmds with
           | Some xs =>
               match gy cmds with
               | Some ys => _
               | None => _
               end
           | None => _
           end)
    with (([Write ("G91" ++ nl ++ "G1 Z" ++ float_str L (cz - last_z st)%float)%string]
            ++ match gf cmds with
               | Some f => [Write (" F" ++ f)%string]
               | None => []
               end
            ++ [Write (nl ++ "G90" ++ nl ++ "M83" ++ nl)%string])%list,
          Ok (mk_state (last_position st) cz cz false)).
  2:{ destruct Hxy as [-> | ->]; [| destruct (gx cmds)]; reflexivity. }
  eexists; split; [reflexivity |].
  unfold layer_change_text.
  destruct (gf cmds); cbn [written logged app];
    rewrite ?append_assoc, ?append_empty_r; cbn; auto.
Qed.

End BendingPass.

Lemma comment_and_relative_lines_witness :
  exists b : bool,
    Bend.bend_line Reference.lib Reference.spline Reference.P Reference.table
      (Bend.mk_state (120, 100)%float 50%float 50%float true)
      (file_line "G1 X121 Y100 E0.5")
    = ([Bend.Write (file_line "G1 X121 Y100 E0.5")],
       Ok (Bend.set_relative
             (Bend.mk_state (120, 100)%float 50%float 50%float true) b))
    /\ (PyStr.startswith (file_line "G1 X121 Y100 E0.5") ";" = true -> b = true)
    /\ (PyStr.contains "G91 " (file_line "G1 X121 Y100 E0.5") = false ->
        PyStr.contains "G90 " (file_line "G1 X121 Y100 E0.5") = false ->
        b = true)
    /\ (b <> true ->
        if PyStr.contains "G91 " (file_line "G1 X121 Y100 E0.5")
        then b = true else b = false).
Proof.
  apply (comment_and_relative_lines_pass_through Reference.lib Reference.spline
           Reference.P Reference.table
           (Bend.mk_state (120, 100)%float 50%float 50%float true)
           (file_line "G1 X121 Y100 E0.5")).
  - discriminate.
  - right; reflexivity.
Defined.

Lemma layer_change_witness :
  exists evs,
    Bend.bend_line Reference.lib Reference.spline Reference.P Reference.table
      Bend.initial_state (file_line "G1 X5 Z0.4 F1200")
    = (evs, Ok (Bend.mk_state (0, 0)%float 0.4%float 0.4%float false))
    /\ Bend.written evs
       = layer_change_text Reference.lib (0.4 - 0)%float (Some "1200")
    /\ Bend.logged evs = [].
Proof.
  apply (layer_change_branch Reference.lib Reference.spline Reference.P
           Reference.table Bend.initial_state (file_line "G1 X5 Z0.4 F1200")
           (Bend.mk_GCodeLine (Some "5") None (Some "0.4") None (Some "1200"))
           "0.4" 0.4%float).
  - repeat split; try reflexivity; discriminate.
  - reflexivity.
  - reflexivity.
  - right; reflexivity.
  - vm_compute; reflexivity.
Defined.

(** The text of that block. *)
Example layer_change_output :
  Bend.written
    (fst (Bend.bend_line Reference.lib Reference.spline Reference.P
            Reference.table Bend.initial_state
            (file_line "G1 X5 Z0.4 F1200")))
  = PyStr.join Bend.nl ["G91"; "G1 Z0.4 F1200"; "G90"; "M83"; EmptyString].
Proof. vm_compute. reflexivity. Qed.

(** ** Moves with an X and a Y field *)

Section BendMoves.
Import PyStr PyFloat Bend.
Variable L : library.
Variable spline : spline_obj.
Variable P : params.
Variable table : list float.

Lemma bend_line_xy_move (st : state) (line : string) (cmds : GCodeLine)
    (px py cz : float) :
  xy_move st line cmds px py cz ->
  let g := bend_geometry L spline P table (at_height st cz) px in
  bend_line L spline P table st line =
    if unplausible (at_height st cz) g
    then
      ((spline_warning g ++ platform_check g
          ++ [Log (UnplausibleMove cz); Write line])%list,
       Ok (at_height st cz))
    else
      match extrusion_amount P cmds g with
      | Raise e =>
          ((spline_warning g ++ platform_check g
              ++ intersection_check P (at_height st cz) g
              ++ angle_check P (at_height st cz) g)%list,
           Raise e)
      | Ok e =>
          ((spline_warning g ++ platform_check g
              ++ intersection_check P (at_height st cz) g
              ++ angle_check P (at_height st cz) g
              ++ [Write (rewritten_move L g py e)])%list,
           Ok (after_move st px py cz))
      end.
Proof.
  intros (Hreach & Hparse & Hz & Hx & Hy) g.
  rewrite (bend_line_parsed L spline P table st line Hreach), Hparse, Hz.
  destruct (gx cmds) as [xs |]; [| discriminate].
  destruct (gy cmds) as [ys |]; [| discriminate].
  cbn in Hx, Hy. injection Hx as Hx. injection Hy as Hy.
  cbv zeta. unfold bend_move. rewrite Hx, Hy. reflexivity.
Qed.

Lemma written_app (a b : list event) :
  written (a ++ b) = (written a ++ written b)%string.
Proof.
  induction a as [| [t | d] a IH]; cbn; [reflexivity | | assumption].
  rewrite IH. symmetry. apply append_assoc.
Qed.


Lemma spline_warning_shape (i : nat) (t : list float) (z : float) :
  written (snd (lookup_from P i t z)) = EmptyString
  /\ forall d, In d (logged (snd (lookup_from P i t z))) -> severity_of d = Warning.
Proof.
  revert i. induction t as [| h t IH]; intros i; cbn.
  - split; [reflexivity |]. intros d [<- | []]. reflexivity.
  - destruct (PrimFloat.leb z h); [| apply IH].
    split; [reflexivity |]. intros d [].
Qed.

Lemma geometry_warning (st : state) (px : float) :
  spline_warning (bend_geometry L spline P table st px)
  = snd (on_spline_length P table (current_z st)).
Proof.
  unfold bend_geometry. destruct (on_spline_length P table (current_z st)).
  reflexivity.
Qed.

Lemma platform_check_shape (g : geometry) :
  written (platform_check g) = EmptyString
  /\ forall d, In d (logged (platform_check g)) -> severity_of d = Warning.
Proof.
  unfold platform_check. destruct (PrimFloat.leb (depth g) 0); cbn.
  - split; [reflexivity |]. intros d [<- | []]. reflexivity.
  - split; [reflexivity |]. intros d [].
Qed.


(** C4, as the code has it. An X/Y move that passes the plausibility test
    and whose layer height plus height difference is negative is reported
    with the self-intersection error and is still rewritten: the events are
    the spline warning (if any), the platform warning (if the depth is
    zero), the error, the angle warning (if the angle exceeds the limit)
    and the rewritten line, whose E value is the scaled one, not a clamped
    one; the cursor moves to the new position. An unplausible move is not
    tested for self-intersection. *)
Theorem self_intersection_is_reported_not_corrected (st : state)
    (line : string) (cmds : GCodeLine) (px py cz : float) (e : option float) :
  xy_move st line cmds px py cz ->
  unplausible (at_height st cz)
    (bend_geometry L spline P table (at_height st cz) px) = false ->
  self_intersects P (bend_geometry L spline P table (at_height st cz) px)
    = true ->
  extrusion_amount P cmds (bend_geometry L spline P table (at_height st cz) px)
    = Ok e ->
  bend_line L spline P table st line =
    ((spline_warning (bend_geometry L spline P table (at_height st cz) px)
        ++ platform_check (bend_geometry L spline P table (at_height st cz) px)
        ++ [Log (SelfIntersection cz)]
        ++ angle_check P (at_height st cz)
             (bend_geometry L spline P table (at_height st cz) px)
        ++ [Write (rewritten_move L
                     (bend_geometry L spline P table (at_height st cz) px)
                     py e)])%list,
     Ok (after_move st px py cz))
  /\ severity_of (SelfIntersection cz) = Error.
Proof.
  intros Hmove Hplaus Hself Hext.
  pose proof (bend_line_xy_move st line cmds px py cz Hmove) as Hstep.
  cbv zeta in Hstep.
  rewrite Hplaus, Hext in Hstep.
  split; [| reflexivity].
  rewrite Hstep. unfold intersection_check. rewrite Hself. reflexivity.
Qed.

End BendMoves.

(** *** The two moves at height 50 *)

Lemma far_move_is_xy_move :
  xy_move far_state far_line far_fields 212%float 100%float 50%float.
Proof. repeat split; try discriminate; vm_compute; reflexivity. Qed.

Lemma near_move_is_xy_move :
  xy_move near_state near_line near_fields 195%float 100%float 50%float.
Proof. repeat split; try discriminate; vm_compute; reflexivity. Qed.


(** C4 as stated fails on the far move: its layer height plus height
    difference is negative, yet the only messages are the two warnings of
    the plausibility tests, and the line written is the input line. *)
Lemma self_intersection_unreported_on_unplausible_move :
  xy_move far_state far_line far_fields 212%float 100%float 50%float
  /\ Bend.self_intersects Reference.P
       (Bend.bend_geometry Reference.lib Reference.spline Reference.P
          Reference.table (at_height far_state 50%float) 212%float) = true
  /\ Bend.logged
       (fst (Bend.bend_line Reference.lib Reference.spline Reference.P
               Reference.table far_state far_line))
     = [Bend.BelowPlatform; Bend.UnplausibleMove 50%float]
  /\ Bend.written
       (fst (Bend.bend_line Reference.lib Reference.spline Reference.P
               Reference.table far_state far_line))
     = far_line.
Proof.
  split; [exact far_move_is_xy_move |].
  repeat split; vm_compute; reflexivity.
Qed.

Lemma self_intersection_witness :
  Bend.bend_line Reference.lib Reference.spline Reference.P Reference.table
    near_state near_line
  = ((Bend.spline_warning
        (Bend.bend_geometry Reference.lib Reference.spline Reference.P
           Reference.table (at_height near_state 50%float) 195%float)
        ++ Bend.platform_check
             (Bend.bend_geometry Reference.lib Reference.spline Reference.P
                Reference.table (at_height near_state 50%float) 195%float)
        ++ [Bend.Log (Bend.SelfIntersection 50%float)]
        ++ Bend.angle_check Reference.P (at_height near_state 50%float)
             (Bend.bend_geometry Reference.lib Reference.spline Reference.P
                Reference.table (at_height near_state 50%float) 195%float)
        ++ [Bend.Write
              (Bend.rewritten_move Reference.lib
                 (Bend.bend_geometry Reference.lib Reference.spline
                    Reference.P Reference.table
                    (at_height near_state 50%float) 195%float)
                 100%float (Some (-0.13895253946589686)%float))])%list,
     Ok (after_move near_state 195%float 100%float 50%float))
  /\ Bend.severity_of (Bend.SelfIntersection 50%float) = Bend.Error.
Proof.
  apply (self_intersection_is_reported_not_corrected Reference.lib
           Reference.spline Reference.P Reference.table near_state near_line
           near_fields 195%float 100%float 50%float
           (Some (-0.13895253946589686)%float)).
  - repeat split; try discriminate; vm_compute; reflexivity.
  - vm_compute. reflexivity.
  - vm_compute. reflexivity.
  - vm_compute. reflexivity.
Defined.

(** What the two moves write to the file and send to the log. *)
Example far_and_near_move_output :
  (let evs := fst (Bend.bend_line Reference.lib Reference.spline Reference.P
                     Reference.table far_state far_line) in
   Bend.written evs = far_line
   /\ Bend.log_text Reference.lib evs
      = ["Warning! Movement below build platform. Check your spline!";
         "Warning! Possibly unplausible move detected on height 50.0 mm!"])
  /\ (let evs := fst (Bend.bend_line Reference.lib Reference.spline
                        Reference.P Reference.table near_state near_line) in
      Bend.written evs
      = file_line "G1 X193.71724 Y100.0 Z3.484 A0 B34.052 E-0.13895"
      /\ Bend.log_text Reference.lib evs
         = ["ERROR! Self intersection on height 50.0 mm! Check your spline!"]).
Proof. repeat split; vm_compute; reflexivity. Qed.

(** The severity of a diagnostic is the word its text starts with. *)
Lemma message_first_word (L : library) (d : Bend.diagnostic) :
  PyStr.startswith (Bend.message L d)
    match Bend.severity_of d with
    | Bend.Warning => "Warning!"
    | Bend.Error => "ERROR!"
    end = true.
Proof. destruct d; reflexivity. Qed.

(** ** Extrusion and the lookup of the corrected height *)

Section BendQuantities.
Import PyStr PyFloat Bend.
Variable L : library.
Variable spline : spline_obj.
Variable P : params.
Variable table : list float.

Lemma geometry_fields (st : state) (px : float) :
  let g := bend_geometry L spline P table st px in
  angle_spline_this_layer g = c_atan L (slope spline (corrected_z_height g))
  /\ angle_last_layer g
     = c_atan L (slope spline (corrected_z_height g - layer_height P)%float)
  /\ height_difference g
     = (c_sin L (angle_spline_this_layer g - angle_last_layer g)
        * dist_to_spline g * (-1))%float.
Proof.
  unfold bend_geometry.
  destruct (on_spline_length P table (current_z st)); cbn. auto.
Qed.

Lemma checks_write_nothing (st : state) (g : geometry) :
  written (intersection_check P st g) = EmptyString
  /\ written (angle_check P st g) = EmptyString.
Proof.
  unfold intersection_check, angle_check.
  destruct (self_intersects P g), (PrimFloat.ltb _ _); auto.
Qed.

Lemma write_line_shape (x y z a : float) :
  write_line L x y z a None = (move_stem L x y z a ++ nl)%string
  /\ forall ev,
       write_line L x y z a (Some ev)
       = (move_stem L x y z a ++ " E" ++ float_str L (py_round L ev 5) ++ nl)%string.
Proof.
  unfold write_line, move_stem.
  split; [| intros ev]; rewrite !append_assoc; reflexivity.
Qed.

Lemma height_difference_is_height_delta (st : state) (px : float) :
  height_difference (bend_geometry L spline P table st px)
  = height_delta L spline P table st px.
Proof.
  unfold bend_geometry, height_delta.
  destruct (on_spline_length P table (current_z st)); reflexivity.
Qed.

(** C5. On an X/Y move that passes the plausibility test, the line
    written ends with the E field of the source line times
    (layer height + height delta) / layer height, rounded to 5 decimals,
    the height delta being -sin(angle of this layer - angle of the layer
    below) times the distance of the midpoint of the move from the base of
    the spline; a line without an E field is rewritten without one: the
    rewritten line ends after the B field. Nothing else is written for
    the move. *)
Theorem extrusion_is_scaled_by_layer_thickness (st : state) (line : string)
    (cmds : GCodeLine) (px py cz : float) :
  xy_move st line cmds px py cz ->
  unplausible (at_height st cz)
    (bend_geometry L spline P table (at_height st cz) px) = false ->
  (forall es e,
      ge cmds = Some es -> py_float es = Ok e ->
      exists evs,
        bend_line L spline P table st line
        = ((evs
              ++ [Write
                    (move_stem L
                       (snd (transformed_gcode
                               (bend_geometry L spline P table
                                  (at_height st cz) px)))
                       py
                       (depth (bend_geometry L spline P table
                                 (at_height st cz) px))
                       (angle_spline_this_layer
                          (bend_geometry L spline P table (at_height st cz) px)
                        * 57.2958)%float
                       ++ " E"
                       ++ float_str L
                            (py_round L
                               (e * ((layer_height P
                                      + height_delta L spline P table
                                          (at_height st cz) px)
                                     / layer_height P))%float 5)
                       ++ nl)%string])%list,
           Ok (after_move st px py cz))
        /\ written evs = EmptyString)
  /\ (ge cmds = None ->
      exists evs,
        bend_line L spline P table st line
        = ((evs
              ++ [Write
                    (move_stem L
                       (snd (transformed_gcode
                               (bend_geometry L spline P table
                                  (at_height st cz) px)))
                       py
                       (depth (bend_geometry L spline P table
                                 (at_height st cz) px))
                       (angle_spline_this_layer
                          (bend_geometry L spline P table (at_height st cz) px)
                        * 57.2958)%float
                       ++ nl)%string])%list,
           Ok (after_move st px py cz))
        /\ written evs = EmptyString).
Proof.
  intros Hmove Hplaus.
  pose proof (bend_line_xy_move L spline P table st line cmds px py cz Hmove)
    as Hstep.
  cbv zeta in Hstep. rewrite Hplaus in Hstep.
  rewrite <- (height_difference_is_height_delta (at_height st cz) px).
  set (g := bend_geometry L spline P table (at_height st cz) px) in *.
  assert (Hquiet :
    written (spline_warning g ++ platform_check g
               ++ intersection_check P (at_height st cz) g
               ++ angle_check P (at_height st cz) g) = EmptyString).
  { rewrite !written_app.
    destruct (checks_write_nothing (at_height st cz) g) as [-> ->].
    destruct (platform_check_shape g) as [-> _].
    unfold g. rewrite geometry_warning.
    destruct (spline_warning_shape P 0 table (current_z (at_height st cz)))
      as [Hw _].
    unfold on_spline_length. rewrite Hw. reflexivity. }
  destruct (write_line_shape (snd (transformed_gcode g)) py (depth g)
              (angle_spline_this_layer g * 57.2958)%float) as [Hnone Hsome].
  split.
  - intros es e Hes He.
    unfold extrusion_amount in Hstep. rewrite Hes, He in Hstep.
    cbn [rbind] in Hstep. rewrite Hstep.
    unfold rewritten_move, extrusion_scale. rewrite Hsome.
    eexists. split; [| exact Hquiet].
    rewrite <- !app_assoc. reflexivity.
  - intros Hnone'.
    unfold extrusion_amount in Hstep. rewrite Hnone' in Hstep. rewrite Hstep.
    unfold rewritten_move. rewrite Hnone.
    eexists. split; [| exact Hquiet].
    rewrite <- !app_assoc. reflexivity.
Qed.

Lemma lookup_from_first (i0 i : nat) (t : list float) (z h : float) :
  nth_error t i = Some h ->
  PrimFloat.leb z h = true ->
  (forall j hj, (j < i)%nat -> nth_error t j = Some hj ->
                PrimFloat.leb z hj = false) ->
  lookup_from P i0 t z
  = ((float_of_int (Z.of_nat (i0 + i)) * discretization_length P)%float, []).
Proof.
  revert i0 i. induction t as [| h0 t IH]; intros i0 i Hnth Hle Hbefore.
  - destruct i; discriminate.
  - destruct i as [| i]; cbn in Hnth |- *.
    + injection Hnth as ->. rewrite Hle, Nat.add_0_r. reflexivity.
    + rewrite (Hbefore 0%nat h0 (Nat.lt_0_succ i) eq_refl).
      rewrite (IH (S i0) i Hnth Hle).
      * now rewrite Nat.add_succ_r.
      * intros j hj Hj Hnj. apply (Hbefore (S j) hj); [lia | exact Hnj].
Qed.

Lemma lookup_from_none (i0 : nat) (t : list float) (z : float) :
  (forall h, In h t -> PrimFloat.leb z h = false) ->
  lookup_from P i0 t z = (z, [Log (SplineTooShort z)]).
Proof.
  revert i0. induction t as [| h0 t IH]; intros i0 Hall; cbn.
  - reflexivity.
  - rewrite (Hall h0 (or_introl eq_refl)). apply IH.
    intros h Hh. apply Hall. now right.
Qed.

(** C3. [on_spline_length t] is [i * discretization_length] for the first
    index [i] of the table whose sample is at least [t]; when no sample is,
    it sends the warning and returns [t]; and on a table built by the pass,
    whose first sample is 0, the corrected height of 0 is 0, without a
    warning (for a finite discretization length). *)
Theorem corrected_height_is_first_sample_at_or_above (t : float) :
  (forall i h,
      nth_error table i = Some h ->
      PrimFloat.leb t h = true ->
      (forall j hj, (j < i)%nat -> nth_error table j = Some hj ->
                    PrimFloat.leb t hj = false) ->
      on_spline_length P table t
      = ((float_of_int (Z.of_nat i) * discretization_length P)%float, []))
  /\ ((forall h, In h table -> PrimFloat.leb t h = false) ->
      on_spline_length P table t = (t, [Log (SplineTooShort t)])
      /\ severity_of (SplineTooShort t) = Warning)
  /\ (forall (sp : spline_obj) (height_steps : list float),
        is_finite (discretization_length P) = true ->
        exists r,
          on_spline_length P
            (build_table L sp (discretization_length P) height_steps) 0%float
          = (r, [])
          /\ PrimFloat.eqb r 0 = true).
Proof.
  repeat apply conj.
  - intros i h Hnth Hle Hbefore.
    exact (lookup_from_first 0 i table t h Hnth Hle Hbefore).
  - intros Hall. split; [| reflexivity].
    exact (lookup_from_none 0 table t Hall).
  - intros sp steps Hfin. eexists. split; [reflexivity |].
    exact (FloatFacts.mul_zero_eqb _ Hfin).
Qed.

End BendQuantities.

(** *** The move under the control points of the specification *)

Lemma curved_move_is_xy_move :
  xy_move curved_state curved_line curved_fields 2%float 5%float 5%float.
Proof. repeat split; try discriminate; vm_compute; reflexivity. Qed.

Lemma extrusion_witness :
  exists evs,
    Bend.bend_line Reference.lib curved_spline curved_P curved_table
      curved_state curved_line
    = ((evs
          ++ [Bend.Write
                (move_stem Reference.lib
                   (snd (Bend.transformed_gcode curved_geometry)) 5%float
                   (Bend.depth curved_geometry)
                   (Bend.angle_spline_this_layer curved_geometry
                    * 57.2958)%float
                   ++ " E"
                   ++ float_str Reference.lib
                        (py_round Reference.lib
                           (1 * ((Bend.layer_height curved_P
                                  + height_delta Reference.lib curved_spline
                                      curved_P curved_table
                                      (at_height curved_state 5%float) 2%float)
                                 / Bend.layer_height curved_P))%float 5)
                   ++ Bend.nl)%string])%list,
       Ok (after_move curved_state 2%float 5%float 5%float))
    /\ Bend.written evs = EmptyString.
Proof.
  destruct (extrusion_is_scaled_by_layer_thickness Reference.lib
              curved_spline curved_P curved_table curved_state
              curved_line curved_fields 2%float 5%float 5%float)
    as (Hscaled & _).
  - repeat split; try discriminate; vm_compute; reflexivity.
  - vm_compute. reflexivity.
  - apply (Hscaled "1" 1%float); vm_compute; reflexivity.
Defined.

(** C5 as stated fails in its last part. The spline that the pass builds
    through the offsets 0 and 10 at the heights 0 and 10 starts with slope
    0 and ends with slope 2.5: its slope differs between any two layers one
    apart, so it has no straight region. With layer height 1, at height 5,
    the move whose midpoint is 1 away from the base of the spline has the
    height delta -0.149 and the factor 0.851: the E field 1 is written as
    0.85104. *)
Lemma extrusion_factor_on_the_example_spline_is_not_one :
  CubicSpline.make 0 10 0 10 = Ok (CubicSpline.mk_ppoly 0.005 0.05 0 0 0)
  /\ map (Bend.slope curved_spline) [0; 1; 2; 3; 4; 5; 6; 7; 8; 9; 10]%float
     = [0; 0.115; 0.26; 0.43500000000000005; 0.64; 0.875;
        1.1400000000000001; 1.435; 1.76; 2.115; 2.5]%float
  /\ xy_move curved_state curved_line curved_fields 2%float 5%float 5%float
  /\ Bend.unplausible (at_height curved_state 5%float) curved_geometry = false
  /\ height_delta Reference.lib curved_spline curved_P curved_table
       (at_height curved_state 5%float) 2%float
     = (-0.14896034928765356)%float
  /\ Bend.extrusion_scale curved_P curved_geometry = 0.8510396507123464%float
  /\ PrimFloat.ltb (Bend.extrusion_scale curved_P curved_geometry) 0.9 = true
  /\ Bend.written
       (fst (Bend.bend_line Reference.lib curved_spline curved_P curved_table
               curved_state curved_line))
     = file_line "G1 X3.38015 Y5.0 Z3.683 A0 B41.186 E0.85104".
Proof.
  split; [vm_compute; reflexivity |].
  split; [vm_compute; reflexivity |].
  split; [exact curved_move_is_xy_move |].
  repeat split; vm_compute; reflexivity.
Qed.

(** The lookup on the reference table: the sample of index 48 is the first
    one at or above 50, and no sample reaches 200. *)
Example corrected_height_reference :
  Bend.on_spline_length Reference.P Reference.table 50%float = (48%float, [])
  /\ Bend.on_spline_length Reference.P Reference.table 200%float
     = (200%float, [Bend.Log (Bend.SplineTooShort 200%float)]).
Proof. split; vm_compute; reflexivity. Qed.

(** * Properties of the Klipper conversion *)

Section KlipperPass.
Import PyStr PyFloat Klipper.

Lemma number_char_plain (c : ascii) :
  number_char c = true -> is_space c = false /\ Ascii.eqb c "_" = false.
Proof.
  destruct c as [[] [] [] [] [] [] [] []]; vm_compute; intros H;
    try discriminate H; split; reflexivity.
Qed.

Lemma digit_facts (c : ascii) :
  is_digit c = true ->
  number_char c = true /\ Ascii.eqb c "-" = false /\ Ascii.eqb c "+" = false
  /\ Ascii.eqb c "." = false /\ Ascii.eqb (lower c) "i" = false
  /\ Ascii.eqb (lower c) "n" = false.
Proof.
  destruct c as [[] [] [] [] [] [] [] []]; vm_compute; intros H;
    try discriminate H; repeat split; reflexivity.
Qed.

Lemma span_digits_spec (s : string) :
  s = (fst (span_digits s) ++ snd (span_digits s))%string
  /\ all_digits (fst (span_digits s)) = true
  /\ starts_nondigit (snd (span_digits s)).
Proof.
  induction s as [| c r IH]; cbn.
  - auto.
  - destruct (is_digit c) eqn:Hc.
    + destruct (span_digits r) as [d rest]; cbn in *.
      destruct IH as (-> & Hd & Hr). rewrite Hc, Hd. auto.
    + cbn. auto.
Qed.

Lemma span_digits_app (d r : string) :
  all_digits d = true -> starts_nondigit r -> span_digits (d ++ r) = (d, r).
Proof.
  induction d as [| c d IH]; cbn; intros Hd Hr.
  - destruct r as [| c r]; [reflexivity |]. cbn in Hr |- *. now rewrite Hr.
  - apply andb_prop in Hd as [Hc Hd]. rewrite Hc, (IH Hd Hr). reflexivity.
Qed.

Lemma all_number_chars_app (a b : string) :
  all_number_chars (a ++ b) = (all_number_chars a && all_number_chars b)%bool.
Proof.
  induction a as [| c a IH]; cbn; [reflexivity |].
  now rewrite IH, Bool.andb_assoc.
Qed.

Lemma all_digits_number_chars (d : string) :
  all_digits d = true -> all_number_chars d = true.
Proof.
  induction d as [| c d IH]; cbn; [reflexivity |].
  intros H. apply andb_prop in H as [Hc Hd].
  destruct (digit_facts c Hc) as [-> _]. now rewrite IH.
Qed.

Lemma lstrip_plain (s : string) : all_number_chars s = true -> lstrip s = s.
Proof.
  destruct s as [| c r]; cbn; [reflexivity |].
  intros H. apply andb_prop in H as [Hc _].
  destruct (number_char_plain c Hc) as [-> _]. reflexivity.
Qed.

Lemma rstrip_plain (s : string) : all_number_chars s = true -> rstrip s = s.
Proof.
  induction s as [| c r IH]; cbn; [reflexivity |].
  intros H. apply andb_prop in H as [Hc Hr].
  rewrite (IH Hr). destruct (number_char_plain c Hc) as [-> _].
  destruct r; reflexivity.
Qed.

Lemma drop_underscores_plain (b : bool) (s : string) :
  all_number_chars s = true -> drop_underscores b s = Some s.
Proof.
  revert b. induction s as [| c r IH]; intros b; cbn; [reflexivity |].
  intros H. apply andb_prop in H as [Hc Hr].
  destruct (number_char_plain c Hc) as [_ ->]. now rewrite (IH _ Hr).
Qed.

Lemma parse_body_unsigned (neg : bool) (body : string) :
  unsigned_text body -> exists v, parse_body neg body = Some v.
Proof.
  intros (d1 & tail & -> & Hd1 & Hne & Htail).
  destruct d1 as [| c d1]; [congruence |].
  cbn in Hd1. apply andb_prop in Hd1 as [Hc Hd1].
  destruct (digit_facts c Hc) as (_ & _ & _ & _ & Hi & Hn).
  unfold parse_body. cbn [append lower_str String.eqb].
  rewrite Hi, Hn. cbn [orb].
  assert (Hstart : starts_nondigit tail).
  { destruct Htail as [-> | (d2 & -> & _)]; cbn; auto. }
  unfold parse_decimal.
  change (String c d1 ++ tail)%string with (String c (d1 ++ tail))%string.
  cbn [span_digits]. rewrite Hc, (span_digits_app d1 tail Hd1 Hstart).
  destruct Htail as [-> | (d2 & -> & Hd2)].
  - cbn. eauto.
  - cbn [append]. pose proof (span_digits_app d2 EmptyString Hd2 I) as Hs.
    rewrite append_empty_r in Hs. rewrite Hs. cbn. eauto.
Qed.

Lemma match_number_text (s g r : string) :
  match_number s = Some (g, r) ->
  all_number_chars g = true
  /\ ((exists body, g = String "-" body /\ unsigned_text body)
      \/ (unsigned_text g /\ exists c t, g = String c t /\ is_digit c = true)).
Proof.
  unfold match_number.
  set (sg := match s with String "-" r0 => ("-"%string, r0) | _ => (EmptyString, s) end).
  assert (Hsg : fst sg = EmptyString \/ fst sg = "-"%string).
  { subst sg. destruct s as [| c s0]; [auto |].
    destruct (ascii_dec c "-") as [-> | Hne]; [auto |].
    left. destruct c as [[] [] [] [] [] [] [] []]; try reflexivity; congruence. }
  destruct sg as [sign r0]. cbn in Hsg.
  destruct (span_digits_spec r0) as (_ & Hd1 & Hr1).
  destruct (span_digits r0) as [d1 r1]; cbn in Hd1, Hr1.
  destruct (is_empty d1) eqn:Hempty; [discriminate |].
  assert (Hne : d1 <> EmptyString) by (destruct d1; [discriminate | congruence]).
  assert (Hbody : forall tail,
             (tail = EmptyString
              \/ exists d2, tail = ("." ++ d2)%string /\ all_digits d2 = true) ->
             all_number_chars (sign ++ d1 ++ tail) = true
             /\ ((exists body, (sign ++ d1 ++ tail)%string = String "-" body
                               /\ unsigned_text body)
                 \/ (unsigned_text (sign ++ d1 ++ tail)
                     /\ exists c t, (sign ++ d1 ++ tail)%string = String c t
                                    /\ is_digit c = true))).
  { intros tail Htail. split.
    - rewrite !all_number_chars_app, (all_digits_number_chars d1 Hd1).
      destruct Hsg as [-> | ->];
        destruct Htail as [-> | (d2 & -> & Hd2)]; cbn;
        rewrite ?(all_digits_number_chars _ Hd2); reflexivity.
    - destruct Hsg as [-> | ->].
      + right. split; [exists d1, tail; auto |].
        destruct d1 as [| c d1]; [congruence |].
        cbn in Hd1. apply andb_prop in Hd1 as [Hc _]. cbn. eauto.
      + left. exists (d1 ++ tail)%string. split; [reflexivity |].
        exists d1, tail; auto. }
  destruct r1 as [| c1 r2].
  - intros H. injection H as <- _.
    replace (sign ++ d1)%string with (sign ++ d1 ++ EmptyString)%string
      by (now rewrite append_empty_r).
    apply Hbody. auto.
  - destruct (ascii_dec c1 ".") as [-> | Hdot].
    + destruct (span_digits_spec r2) as (_ & Hd2 & _).
      destruct (span_digits r2) as [d2 r3]; cbn in Hd2.
      intros H. injection H as <- _. apply Hbody.
      right. exists d2. split; [reflexivity | exact Hd2].
    + assert (Hcase :
        match c1 with
        | "."%char =>
            let (d2, r3) := span_digits r2 in
            Some ((sign ++ d1 ++ "." ++ d2)%string, r3)
        | _ => Some ((sign ++ d1)%string, String c1 r2)
        end = Some ((sign ++ d1)%string, String c1 r2)).
      { destruct c1 as [[] [] [] [] [] [] [] []]; try reflexivity; congruence. }
      rewrite Hcase. intros H. injection H as <- _.
      replace (sign ++ d1)%string with (sign ++ d1 ++ EmptyString)%string
      by (now rewrite append_empty_r).
    apply Hbody. auto.
Qed.

(** [float] accepts every text that the number pattern matches. *)
Lemma py_float_of_match (s g r : string) :
  match_number s = Some (g, r) -> exists v, py_float g = Ok v.
Proof.
  intros Hm. destruct (match_number_text s g r Hm) as [Hplain Hshape].
  unfold py_float, strip.
  rewrite (lstrip_plain g Hplain), (rstrip_plain g Hplain),
    (drop_underscores_plain false g Hplain).
  destruct Hshape as [(body & -> & Hbody) | (Hbody & c & t & -> & Hc)].
  - cbn [split_sign]. destruct (parse_body_unsigned true body Hbody) as [v ->].
    eauto.
  - destruct (digit_facts c Hc) as (_ & Hminus & Hplus & _).
    assert (Hsign : split_sign (String c t) = (false, String c t)).
    { unfold split_sign.
      destruct c as [[] [] [] [] [] [] [] []]; try reflexivity; discriminate. }
    rewrite Hsign. destruct (parse_body_unsigned false _ Hbody) as [v ->].
    eauto.
Qed.

Lemma search_B_matches (b : bool) (s g : string) :
  search_B b s = Some g -> exists t r, match_number t = Some (g, r).
Proof.
  revert b. induction s as [| c s IH]; intros b; cbn; [discriminate |].
  destruct (Ascii.eqb c "B" && negb b)%bool.
  - destruct (match_number s) as [[g0 r0] |] eqn:Hm.
    + intros H. injection H as <-. eauto.
    + apply IH.
  - apply IH.
Qed.

(** One iteration never raises; it appends [line_output] and keeps as the
    last value the last stepper value sent. *)
Lemma convert_line_spec (last_sent : option float) (line : string) :
  convert_line last_sent line
  = Ok (last_stepper_from last_sent (line_output last_sent line),
        line_output last_sent line).
Proof.
  unfold convert_line, line_output, rotation_B, cleaned_line.
  destruct (startswith (strip line) "G1"); [| reflexivity].
  destruct (re_search_B (strip line)) as [g |] eqn:Hg; [| reflexivity].
  destruct (search_B_matches false _ g Hg) as (t & r & Hm).
  destruct (py_float_of_match t g r Hm) as [v ->].
  cbn [rbind]. destruct (changed last_sent v); reflexivity.
Qed.


Lemma convert_loop_spec (last_sent : option float) (lines : list string) :
  convert_loop last_sent lines = Ok (loop_output last_sent lines).
Proof.
  revert last_sent. induction lines as [| line rest IH]; intros last_sent.
  - reflexivity.
  - cbn [convert_loop loop_output]. rewrite convert_line_spec. cbn [rbind fst snd].
    rewrite IH. reflexivity.
Qed.


Lemma stepper_values_app (a b : list out_line) :
  stepper_values (a ++ b) = (stepper_values a ++ stepper_values b)%list.
Proof.
  induction a as [| [v | t] a IH]; cbn; [reflexivity | now rewrite IH | assumption].
Qed.

Lemma loop_output_values (last_sent : option float) (lines : list string) :
  stepper_values (loop_output last_sent lines)
  = runs last_sent (rotations lines).
Proof.
  revert last_sent. induction lines as [| line rest IH]; intros last_sent.
  - reflexivity.
  - cbn [loop_output rotations]. rewrite stepper_values_app, IH.
    unfold line_output. destruct (rotation_B line) as [v |]; [| reflexivity].
    cbn [runs]. destruct (changed last_sent v); reflexivity.
Qed.


End KlipperPass.


(** The file written for the six lines. *)
Example six_rotations_output :
  option_map (Klipper.output_text Reference.lib)
    (match Klipper.convert six_rotations with
     | Ok out => Some out
     | Raise _ => None
     end)
  = Some (PyStr.join Klipper.newline
            [ "MANUAL_STEPPER STEPPER=b_stepper MOVE=5.0";
              "G1 X1.0 Y1.0 Z0.2 E0.1"; "G1 X2.0 Y1.0 Z0.2 E0.2";
              "G1 X3.0 Y1.0 Z0.2 E0.3";
              "MANUAL_STEPPER STEPPER=b_stepper MOVE=10.0";
              "G1 X4.0 Y1.0 Z0.2 E0.4"; "G1 X5.0 Y1.0 Z0.2 E0.5";
              "MANUAL_STEPPER STEPPER=b_stepper MOVE=5.0";
              "G1 X6.0 Y1.0 Z0.2 E0.6" ]).
Proof. vm_compute. reflexivity. Qed.

(** * Properties of the kinematics translation *)

Section KinematicsPass.
Import PyStr PyFloat IK.
Variable L : library.
Local Open Scope float_scope.

Lemma startswith_letter (p : string) (a : ascii) :
  startswith p (String a EmptyString) = true <-> exists r, p = String a r.
Proof.
  unfold startswith. destruct p as [| c r]; cbn.
  - split; [discriminate | intros [r H]; discriminate].
  - destruct (ascii_dec a c) as [<- | Hne].
    + split; [eauto |]. intros _. destruct r; reflexivity.
    + split; [discriminate |]. intros [r' H]. congruence.
Qed.

Lemma startswith_other (p : string) (a b : ascii) :
  a <> b ->
  startswith p (String a EmptyString) = true ->
  startswith p (String b EmptyString) = false.
Proof.
  intros Hab Ha. apply startswith_letter in Ha as [r ->].
  destruct (startswith (String a r) (String b EmptyString)) eqn:Hb; [| reflexivity].
  apply startswith_letter in Hb as [r' Hb]. congruence.
Qed.

Lemma startswith_cons (a : ascii) (r : string) (b : ascii) :
  startswith (String a r) (String b EmptyString) = Ascii.eqb a b.
Proof.
  destruct (Ascii.eqb_spec a b) as [<- | Hne].
  - apply startswith_letter. eauto.
  - destruct (startswith (String a r) (String b EmptyString)) eqn:Hb; [| reflexivity].
    apply startswith_letter in Hb as [r' Hb]. congruence.
Qed.

Lemma startswith_cons_ne (a b : ascii) (r : string) :
  b <> a -> startswith (String a r) (String b EmptyString) = false.
Proof.
  intros Hne. rewrite startswith_cons. apply Ascii.eqb_neq. congruence.
Qed.

Lemma list_set_middle {A : Type} (pre : list A) (p x : A) (rest : list A) :
  list_set (pre ++ p :: rest) (List.length pre) x = (pre ++ x :: rest)%list.
Proof. induction pre as [| q pre IH]; cbn; [reflexivity | now rewrite IH]. Qed.

Lemma rewrite_axis_map (letter : string)
    (func : float -> float -> float -> float -> float -> result num)
    (f : fields) (v : num) (pre rest : list string) :
  func (x_val f) (y_val f) (z_val f) (a_val f) (b_val f) = Ok v ->
  rewrite_axis L letter func f (axis_positions letter (List.length pre) rest)
    (pre ++ rest)
  = Ok (pre ++ map (fun p => if startswith p letter
                             then (letter ++ num_str L v)%string else p)
                 rest)%list.
Proof.
  intros Hv. revert pre. induction rest as [| p rest IH]; intros pre.
  - reflexivity.
  - cbn [axis_positions map].
    destruct (startswith p letter).
    + cbn [rewrite_axis]. rewrite Hv. cbn [rbind].
      rewrite list_set_middle.
      specialize (IH (pre ++ [(letter ++ num_str L v)%string])%list).
      rewrite length_app, Nat.add_1_r, <- app_assoc in IH. cbn in IH.
      rewrite IH, <- app_assoc. reflexivity.
    + specialize (IH (pre ++ [p])%list).
      rewrite length_app, Nat.add_1_r, <- app_assoc in IH. cbn in IH.
      rewrite IH, <- app_assoc. reflexivity.
Qed.

Lemma axis_positions_map (letter : string) (g : string -> string) (i : nat)
    (parts : list string) :
  (forall p, startswith (g p) letter = startswith p letter) ->
  axis_positions letter i (map g parts) = axis_positions letter i parts.
Proof.
  intros Hg. revert i. induction parts as [| p parts IH]; intros i; cbn.
  - reflexivity.
  - now rewrite Hg, IH.
Qed.

(** The first loop records, for each of X, Y and Z, the indices of the
    parts that start with the letter. *)
Lemma scan_indices (i : nat) (parts : list string) (f0 f : fields) :
  scan i parts f0 = Ok f ->
  x_indices f = (x_indices f0 ++ axis_positions "X" i parts)%list
  /\ y_indices f = (y_indices f0 ++ axis_positions "Y" i parts)%list
  /\ z_indices f = (z_indices f0 ++ axis_positions "Z" i parts)%list.
Proof.
  revert i f0. induction parts as [| p parts IH]; intros i f0; cbn [scan].
  - intros H. injection H as <-. cbn. rewrite !app_nil_r. auto.
  - destruct p as [| c r].
    + cbn. apply IH.
    + cbn [axis_positions]. rewrite !startswith_cons.
      destruct (Ascii.eqb_spec c "X") as [-> | HX];
        [| destruct (Ascii.eqb_spec c "Y") as [-> | HY];
           [| destruct (Ascii.eqb_spec c "Z") as [-> | HZ];
              [| destruct (Ascii.eqb_spec c "A") as [-> | HA];
                 [| destruct (Ascii.eqb_spec c "B") as [-> | HB]]]]];
        cbn [Ascii.eqb Bool.eqb andb];
        try (destruct (py_float (tail_str _)) as [v |]; [| discriminate];
             cbn [rbind]);
        intros H; apply IH in H; cbn in H;
        rewrite <- ?app_assoc in H; exact H.
Qed.

(** A field that no part carries keeps its initial value. *)
Lemma scan_defaults (i : nat) (parts : list string) (f0 f : fields) :
  scan i parts f0 = Ok f ->
  ((forall p, In p parts -> startswith p "X" = false) -> x_val f = x_val f0)
  /\ ((forall p, In p parts -> startswith p "Y" = false) -> y_val f = y_val f0)
  /\ ((forall p, In p parts -> startswith p "Z" = false) -> z_val f = z_val f0)
  /\ ((forall p, In p parts -> startswith p "A" = false) -> a_val f = a_val f0)
  /\ ((forall p, In p parts -> startswith p "B" = false) -> b_val f = b_val f0).
Proof.
  revert i f0. induction parts as [| p parts IH]; intros i f0; cbn [scan].
  - intros H. injection H as <-. auto.
  - assert (Hrest : forall l : string,
               (forall q, In q (p :: parts) -> startswith q l = false) ->
               startswith p l = false
               /\ forall q, In q parts -> startswith q l = false).
    { intros l H. split; [apply H; now left | intros q Hq; apply H; now right]. }
    destruct (startswith p "X") eqn:HX;
      [| destruct (startswith p "Y") eqn:HY;
         [| destruct (startswith p "Z") eqn:HZ;
            [| destruct (startswith p "A") eqn:HA;
               [| destruct (startswith p "B") eqn:HB]]]];
      try (destruct (py_float (tail_str p)) as [v |]; [| discriminate];
           cbn [rbind]);
      intros H; apply IH in H; cbn in H;
      destruct H as (H1 & H2 & H3 & H4 & H5);
      repeat apply conj; intros Hall; apply Hrest in Hall as [Hp Hall];
      try congruence; auto.
Qed.

End KinematicsPass.

Section KinematicsClaim.
Import PyStr PyFloat IK.
Variable L : library.
Local Open Scope float_scope.

Lemma recalculate_parts (line head : string) (rest : list string) (f : fields)
    (sa ca sb cb : float) :
  (startswith line "G" || startswith line "M")%bool = true ->
  split line = head :: rest ->
  scan 1 rest no_fields = Ok f ->
  math_sin L (radians (a_val f)) = Ok sa ->
  math_cos L (radians (a_val f)) = Ok ca ->
  math_sin L (radians (b_val f)) = Ok sb ->
  math_cos L (radians (b_val f)) = Ok cb ->
  recalculate L line
  = Ok (join " "
          (head :: map (rewrite_part (num_str L (new_x f sa ca sb))
                          (num_str L (new_y f sa ca sb))
                          (num_str L (new_z f cb)))
                     rest)).
Proof.
  intros Hgm Hsplit Hscan Hsa Hca Hsb Hcb.
  unfold recalculate.
  apply Bool.orb_true_iff in Hgm.
  replace (negb (startswith line "G") && negb (startswith line "M"))%bool
    with false by (destruct Hgm as [-> | ->]; cbn;
                   rewrite ?Bool.andb_false_r; reflexivity).
  rewrite Hsplit. cbn [tl]. rewrite Hscan. cbn [rbind].
  destruct (scan_indices 1 rest no_fields f Hscan) as (Hx & Hy & Hz).
  cbn [no_fields x_indices y_indices z_indices app] in Hx, Hy, Hz.
  assert (Hfx : func_x L (x_val f) (y_val f) (z_val f) (a_val f) (b_val f)
                = Ok (new_x f sa ca sb)).
  { unfold func_x. rewrite Hsa, Hca, Hsb. reflexivity. }
  assert (Hfy : func_y L (x_val f) (y_val f) (z_val f) (a_val f) (b_val f)
                = Ok (new_y f sa ca sb)).
  { unfold func_y. rewrite Hsa, Hca, Hsb. reflexivity. }
  assert (Hfz : func_z L (x_val f) (y_val f) (z_val f) (a_val f) (b_val f)
                = Ok (new_z f cb)).
  { unfold func_z. rewrite Hcb. reflexivity. }
  rewrite Hx.
  pose proof (rewrite_axis_map L "X" (func_x L) f _ [head] rest Hfx) as HX.
  cbn [List.length app] in HX. rewrite HX. clear HX.
  cbn [rbind].
  set (gx := fun p : string =>
               if startswith p "X"
               then ("X" ++ num_str L (new_x f sa ca sb))%string else p).
  assert (Hgx : forall (b : ascii) p, b <> "X"%char ->
             startswith (gx p) (String b EmptyString)
             = startswith p (String b EmptyString)).
  { intros b p Hb. unfold gx. destruct (startswith p "X") eqn:HpX; [| reflexivity].
    rewrite (startswith_other p "X" b (not_eq_sym Hb) HpX).
    cbn. apply startswith_cons_ne. exact Hb. }
  rewrite Hy, <- (axis_positions_map "Y" gx 1 rest (fun p => Hgx "Y"%char p ltac:(discriminate))).
  pose proof (rewrite_axis_map L "Y" (func_y L) f _ [head] (map gx rest) Hfy)
    as HY.
  cbn [List.length app] in HY. rewrite HY. clear HY.
  cbn [rbind].
  set (gy := fun p : string =>
               if startswith p "Y"
               then ("Y" ++ num_str L (new_y f sa ca sb))%string else p).
  assert (Hgy : forall p,
             startswith (gy (gx p)) "Z" = startswith p "Z").
  { intros p. rewrite <- (Hgx "Z"%char p ltac:(discriminate)).
    unfold gy. destruct (startswith (gx p) "Y") eqn:HpY; [| reflexivity].
    rewrite (startswith_other (gx p) "Y" "Z" ltac:(discriminate) HpY).
    reflexivity. }
  rewrite Hz, <- (axis_positions_map "Z" (fun p => gy (gx p)) 1 rest Hgy).
  rewrite <- (map_map gx gy rest).
  pose proof (rewrite_axis_map L "Z" (func_z L) f _ [head]
                (map gy (map gx rest)) Hfz) as HZ.
  cbn [List.length app] in HZ. rewrite HZ. clear HZ.
  cbn [rbind]. rewrite !map_map.
  do 3 f_equal. apply map_ext. intros p.
  unfold rewrite_part, gy, gx.
  destruct (startswith p "X") eqn:HpX; [reflexivity |].
  destruct (startswith p "Y") eqn:HpY; reflexivity.
Qed.

End KinematicsClaim.

Lemma max_0_never_negative (v : float) :
  PrimFloat.ltb (PyFloat.num_value (PyFloat.max_0 v)) 0 = false
  /\ (PrimFloat.is_nan v = false ->
      PrimFloat.leb 0 (PyFloat.num_value (PyFloat.max_0 v)) = true)
  /\ (PrimFloat.ltb v 0 = true -> PyFloat.max_0 v = PyFloat.PyInt 0)
  /\ (PrimFloat.ltb v 0 = false -> PyFloat.max_0 v = PyFloat.PyFloat v).
Proof.
  unfold PyFloat.max_0.
  destruct (PrimFloat.ltb v 0) eqn:Hv; cbn [PyFloat.num_value].
  - repeat split; try reflexivity. discriminate.
  - repeat split; try assumption; try discriminate.
    intros Hnan. exact (FloatFacts.not_lt_zero v Hnan Hv).
Qed.

Lemma math_call_at (f : float -> float) (x r : float) :
  f x = r -> PyFloat.is_finite r = true -> IK.math_call f x = Ok r.
Proof.
  intros Hf Hr. unfold IK.math_call. rewrite Hf.
  unfold PyFloat.is_finite in Hr.
  destruct (PrimFloat.is_nan r); [discriminate |].
  destruct (PrimFloat.is_infinity r); [discriminate |]. reflexivity.
Qed.

(** The first loop reads, for each axis, the number of the last part that
    starts with its letter. *)
Lemma scan_values (i : nat) (parts : list string) (f0 : IK.fields) :
  Forall (fun q => axis_word q = true ->
                   exists v, PyFloat.py_float (IK.tail_str q) = Ok v) parts ->
  exists f,
    IK.scan i parts f0 = Ok f
    /\ IK.x_val f = axis_value "X" (IK.x_val f0) parts
    /\ IK.y_val f = axis_value "Y" (IK.y_val f0) parts
    /\ IK.z_val f = axis_value "Z" (IK.z_val f0) parts
    /\ IK.a_val f = axis_value "A" (IK.a_val f0) parts
    /\ IK.b_val f = axis_value "B" (IK.b_val f0) parts.
Proof.
  intros Hall. revert i f0.
  induction Hall as [| p parts Hp _ IH]; intros i f0.
  - exists f0. cbn. repeat split; reflexivity.
  - cbn [IK.scan axis_value]. unfold axis_word in Hp.
    destruct p as [| c r].
    + cbn. apply IH.
    + rewrite !startswith_cons in Hp |- *.
      destruct (Ascii.eqb_spec c "X") as [-> | HX];
        [| destruct (Ascii.eqb_spec c "Y") as [-> | HY];
           [| destruct (Ascii.eqb_spec c "Z") as [-> | HZ];
              [| destruct (Ascii.eqb_spec c "A") as [-> | HA];
                 [| destruct (Ascii.eqb_spec c "B") as [-> | HB]]]]];
        cbn [Ascii.eqb Bool.eqb andb orb] in Hp |- *;
        try (destruct (Hp eq_refl) as [v Hv]; rewrite Hv; cbn [rbind]);
        match goal with
        | |- exists f, IK.scan _ _ ?f1 = _ /\ _ =>
            destruct (IH (S i) f1) as (f & Hf & Hvals);
            exists f; split; [exact Hf | exact Hvals]
        end.
Qed.

(** C6. On a line that starts with G or M, whose words that start with an
    axis letter are numbers and whose angles have a sine and a cosine, the
    pass replaces every part that starts with X, Y or Z by the letter and
    the value of max(X + sin(A) La + cos(A) sin(B) Lb, 0),
    max(Y - La + cos(A) La - sin(A) sin(B) Lb, 0) and
    max(Z + cos(B) Lb - Lb, 0), with La = 28.4 and Lb = 47.7, where X, Y,
    Z, A, B are the numbers that the line carries (the last part of each
    letter; 0 without one) and the angles are converted from degrees to
    radians; the other parts stay as they are. The value of max(v, 0) is
    never below 0, and it is at least 0 unless v is NaN; when the clamp
    triggers the part is the letter and the integer 0. A pass that finishes
    sends its starting and finishing lines only: a clamp sends nothing.
    With sin 0 = 0 and cos 0 = 1 the home line X0 Y0 Z0 A0 B0 is rewritten
    with the three values 0. *)
Theorem kinematics_rewrites_the_axes_present (L : library)
    (line head : string) (rest : list string) :
  (PyStr.startswith line "G" || PyStr.startswith line "M")%bool = true ->
  PyStr.split line = head :: rest ->
  Forall (fun q => axis_word q = true ->
                   exists v, PyFloat.py_float (IK.tail_str q) = Ok v) rest ->
  PyFloat.is_finite (c_sin L (to_radians (axis_value "A" 0 rest))) = true ->
  PyFloat.is_finite (c_cos L (to_radians (axis_value "A" 0 rest))) = true ->
  PyFloat.is_finite (c_sin L (to_radians (axis_value "B" 0 rest))) = true ->
  PyFloat.is_finite (c_cos L (to_radians (axis_value "B" 0 rest))) = true ->
  IK.recalculate L line
  = Ok (PyStr.join " "
          (head
             :: map (rewrite_part
                       (IK.num_str L
                          (spec_x L (axis_value "X" 0 rest)
                             (axis_value "A" 0 rest) (axis_value "B" 0 rest)))
                       (IK.num_str L
                          (spec_y L (axis_value "Y" 0 rest)
                             (axis_value "A" 0 rest) (axis_value "B" 0 rest)))
                       (IK.num_str L
                          (spec_z L (axis_value "Z" 0 rest)
                             (axis_value "B" 0 rest))))
                  rest))
  /\ (forall v : float,
        PrimFloat.ltb (PyFloat.num_value (PyFloat.max_0 v)) 0 = false
        /\ (PrimFloat.is_nan v = false ->
            PrimFloat.leb 0 (PyFloat.num_value (PyFloat.max_0 v)) = true)
        /\ (PrimFloat.ltb v 0 = true ->
            IK.num_str L (PyFloat.max_0 v) = "0"%string)
        /\ (PrimFloat.ltb v 0 = false ->
            IK.num_str L (PyFloat.max_0 v) = float_str L v))
  /\ (forall lines written,
        IK.run_ik_translation L lines = (written, Finished) ->
        Worker.run L "ik" None
          (Worker.mk_files (Worker.Opens lines None) None)
        = ([Worker.log_signal "Starting IK translation process...";
            Worker.log_signal "IK translation finished!";
            Worker.finished_signal "ik"],
           Some (String.concat EmptyString written)))
  /\ (c_sin L 0%float = 0%float -> c_cos L 0%float = 1%float ->
      IK.recalculate L home_line
      = Ok ("G1 X" ++ float_str L 0%float ++ " Y" ++ float_str L 0%float
              ++ " Z" ++ float_str L 0%float ++ " A0 B0")%string).
Proof.
  intros Hgm Hsplit Hall Hsa Hca Hsb Hcb.
  destruct (scan_values 1 rest IK.no_fields Hall)
    as (f & Hscan & Hx & Hy & Hz & Ha & Hb).
  cbn [IK.no_fields IK.x_val IK.y_val IK.z_val IK.a_val IK.b_val]
    in Hx, Hy, Hz, Ha, Hb.
  split; [| split; [| split]].
  - rewrite (recalculate_parts L line head rest f
               (c_sin L (to_radians (axis_value "A" 0 rest)))
               (c_cos L (to_radians (axis_value "A" 0 rest)))
               (c_sin L (to_radians (axis_value "B" 0 rest)))
               (c_cos L (to_radians (axis_value "B" 0 rest)))
               Hgm Hsplit Hscan);
      try (rewrite ?Ha, ?Hb; apply math_call_at; [reflexivity | assumption]).
    unfold new_x, new_y, new_z, spec_x, spec_y, spec_z.
    rewrite Hx, Hy, Hz. reflexivity.
  - intros v. destruct (max_0_never_negative v) as (H1 & H2 & H3 & H4).
    split; [exact H1 |]. split; [exact H2 |].
    split; intros Hv; [rewrite (H3 Hv) | rewrite (H4 Hv)]; reflexivity.
  - intros lines written Hrun. unfold Worker.run.
    cbn [String.eqb Ascii.eqb Bool.eqb].
    unfold Worker.run_ik_translation. cbn [Worker.input Worker.output_fails].
    rewrite Hrun. reflexivity.
  - intros Hsin Hcos.
    assert (Hs : IK.math_sin L (IK.radians 0) = Ok 0%float)
      by (apply math_call_at; [exact Hsin | reflexivity]).
    assert (Hc : IK.math_cos L (IK.radians 0) = Ok 1%float)
      by (apply math_call_at; [exact Hcos | reflexivity]).
    rewrite (recalculate_parts L home_line "G1" ["X0"; "Y0"; "Z0"; "A0"; "B0"]
               home_fields 0 1 0 1); try reflexivity; assumption.
Qed.

Lemma kinematics_tilted_witness :
  IK.recalculate Reference.lib tilted_line
  = Ok (PyStr.join " "
          ("G1"
             :: map (rewrite_part
                       (IK.num_str Reference.lib
                          (spec_x Reference.lib 10 90 30))
                       (IK.num_str Reference.lib
                          (spec_y Reference.lib 20 90 30))
                       (IK.num_str Reference.lib (spec_z Reference.lib 50 30)))
                  ["X10"; "Y20"; "Z50"; "A90"; "B30"; "E1"])).
Proof.
  refine (proj1 (kinematics_rewrites_the_axes_present Reference.lib
                   tilted_line "G1" ["X10"; "Y20"; "Z50"; "A90"; "B30"; "E1"]
                   _ _ _ _ _ _ _));
    try (vm_compute; reflexivity).
  repeat (apply Forall_cons; [intros _; eexists; vm_compute; reflexivity |]).
  apply Forall_nil.
Defined.

(** C6 as stated fails in its last part. [float] accepts the text nan, and
    max(nan, 0) is nan: the X part of the line is rewritten with a value
    that is not at least 0, and the pass finishes. *)
Lemma nan_field_is_rewritten_as_nan :
  PyFloat.py_float "nan" = Ok nan
  /\ IK.recalculate Reference.lib nan_line = Ok "G1 Xnan Y1.0 Z1.0 A0 B0"
  /\ spec_x Reference.lib nan 0 0 = PyFloat.PyFloat nan
  /\ PrimFloat.leb 0 (PyFloat.num_value (spec_x Reference.lib nan 0 0)) = false
  /\ IK.run_ik_translation Reference.lib [file_line nan_line]
     = ([file_line "G1 Xnan Y1.0 Z1.0 A0 B0"], Finished).
Proof. repeat split; vm_compute; reflexivity. Qed.

(** The tilted line as written: X is moved by the arm, Y is clamped to the
    integer 0, Z is lowered by the tilt of the head. *)
Example kinematics_tilted_output :
  IK.recalculate Reference.lib tilted_line
  = Ok "G1 X38.4 Y0 Z43.609411760517716 A90 B30 E1".
Proof. vm_compute. reflexivity. Qed.

(** The home line as written, and a file of three lines: a comment and a
    command without axes pass through, and the Z of the move shows the
    rounding of adding and subtracting the arm length. *)
Example kinematics_output :
  IK.recalculate Reference.lib home_line = Ok "G1 X0.0 Y0.0 Z0.0 A0 B0"
  /\ IK.run_ik_translation Reference.lib
       (map file_line ["; start"; "G1 X10 Y20 Z0.28 A0 B0 E1"; "M104 S0"])
     = (map file_line
          ["; start"; "G1 X10.0 Y20.0 Z0.28000000000000114 A0 B0 E1";
           "M104 S0"],
        Finished).
Proof. split; vm_compute; reflexivity. Qed.

(** A clamped coordinate: X -5 on a line without angles gives the part X0. *)
Example kinematics_clamp :
  IK.run_ik_translation Reference.lib [file_line "G1 X-5 A0 B0"]
  = ([file_line "G1 X0 A0 B0"], Finished).
Proof. vm_compute. reflexivity. Qed.

(** * Exceptions and queries outside the spline's range *)

Section Aborts.
Import PyStr PyFloat.
Variable L : library.

Lemma bend_lines_abort (spline : Bend.spline_obj) (P : Bend.params)
    (table : list float) (st st' : Bend.state) (pre post : list string)
    (line : string) (evs evl : list Bend.event) (e : exn) :
  Bend.bend_lines L spline P table st pre = (evs, Ok st') ->
  Bend.bend_line L spline P table st' line = (evl, Raise e) ->
  Bend.bend_lines L spline P table st (pre ++ line :: post)
  = ((evs ++ evl)%list, Raise e).
Proof.
  revert st evs. induction pre as [| l pre IH]; intros st evs Hpre Hline.
  - cbn in Hpre. injection Hpre as <- <-. cbn. rewrite Hline. reflexivity.
  - cbn in Hpre |- *.
    destruct (Bend.bend_line L spline P table st l) as [ev1 [st1 | e1]];
      [| discriminate].
    destruct (Bend.bend_lines L spline P table st1 pre) as [ev2 r2] eqn:Hrest.
    injection Hpre as <- ->.
    rewrite (IH st1 ev2 Hrest Hline), app_assoc. reflexivity.
Qed.

Lemma translate_lines_abort (pre post : list string) (line : string)
    (w : list string) (e : exn) :
  IK.translate_lines L pre = (w, Finished) ->
  IK.recalculate L (strip line) = Raise e ->
  IK.translate_lines L (pre ++ line :: post) = (w, Aborted e).
Proof.
  revert w. induction pre as [| l pre IH]; intros w Hpre Hline.
  - cbn in Hpre. injection Hpre as <-. cbn. rewrite Hline. reflexivity.
  - cbn in Hpre |- *.
    destruct (IK.recalculate L (strip l)) as [new_line | e1].
    + destruct (IK.translate_lines L pre) as [w1 o1] eqn:Hrest.
      injection Hpre as <- ->. rewrite (IH w1 eq_refl Hline). reflexivity.
    + discriminate.
Qed.

End Aborts.

(** C9, as the code has it. A line outside the motion grammar is passed
    through by each pass (bending: the pattern does not match; kinematics:
    no leading G or M; Klipper: no leading G1), and the Klipper pass never
    raises. But an exception raised on a line ends the pass there: the
    effects of the lines before it stay, the lines after it are not
    processed, and the pass ends as aborted with that exception (as it does
    when the spline cannot be built from the parameters). *)
Theorem exceptions_abort_parse_misses_pass_through :
  (forall L spline P table st line,
      reaches_parser st line ->
      Bend.parse_gcode line = None ->
      Bend.bend_line L spline P table st line = ([Bend.Write line], Ok st))
  /\ (forall L line,
        PyStr.startswith line "G" = false ->
        PyStr.startswith line "M" = false ->
        IK.recalculate L line = Ok line)
  /\ (forall last_sent line,
        PyStr.startswith (PyStr.strip line) "G1" = false ->
        Klipper.convert_line last_sent line
        = Ok (last_sent, [Klipper.Gcode (PyStr.strip line)]))
  /\ (forall lines, exists out, Klipper.convert lines = Ok out)
  /\ (forall L spline P table st st' pre line post evs evl e,
        Bend.bend_lines L spline P table st pre = (evs, Ok st') ->
        Bend.bend_line L spline P table st' line = (evl, Raise e) ->
        Bend.bend_lines L spline P table st (pre ++ line :: post)
        = ((evs ++ evl)%list, Raise e))
  /\ (forall L pre line post w e,
        IK.translate_lines L pre = (w, Finished) ->
        IK.recalculate L (PyStr.strip line) = Raise e ->
        IK.run_ik_translation L (pre ++ line :: post) = (w, Aborted e))
  /\ (forall L bp lines failure e,
        CubicSpline.make (fst (Pipeline.spline_z bp)) (snd (Pipeline.spline_z bp))
          (fst (Pipeline.spline_x bp)) (snd (Pipeline.spline_x bp)) = Raise e ->
        Pipeline.run_bending L bp lines failure = ([], Aborted e)).
Proof.
  repeat apply conj.
  - intros L spline P table st line Hreach Hparse.
    rewrite (bend_line_parsed L spline P table st line Hreach), Hparse.
    reflexivity.
  - intros L line HG HM. unfold IK.recalculate. rewrite HG, HM. reflexivity.
  - intros last_sent line HG1. unfold Klipper.convert_line. rewrite HG1.
    reflexivity.
  - intros lines. eexists. apply convert_loop_spec.
  - intros L spline P table st st' pre line post evs evl e.
    apply bend_lines_abort.
  - intros L pre line post w e. apply translate_lines_abort.
  - intros L bp lines failure e Hmake. unfold Pipeline.run_bending.
    rewrite Hmake.
    reflexivity.
Qed.

(** C9 as stated fails. A homing line with bare axis letters ends the
    kinematics pass: the line before it is written, the line after it is
    not. A field with two dots ends the bending pass. *)
Lemma malformed_field_aborts_the_pass :
  IK.run_ik_translation Reference.lib
    (map file_line ["M104 S200"; "G28 X Y"; "G1 X3 Y4"])
  = ([file_line "M104 S200"],
     Aborted (ValueError "could not convert string to float: ''"))
  /\ Pipeline.run_bending Reference.lib Reference.parameters
       (map file_line ["; start"; "G1 X1.2.3 Y4"; "G1 X5 Y6"]) None
     = ([Bend.Write (file_line "; start")],
        Aborted (ValueError "could not convert string to float: '1.2.3'")).
Proof. split; vm_compute; reflexivity. Qed.




(** * Further properties of the bending pass *)

Section Fields.
Import PyStr PyFloat Bend.

Lemma take_number_chars_spec (n : nat) (s : string) :
  digits_and_dots (fst (take_number_chars n s)) = true
  /\ (String.length (fst (take_number_chars n s)) <= n)%nat.
Proof.
  revert s. induction n as [| n IH]; intros s; cbn.
  - destruct s; cbn; auto.
  - destruct s as [| c r]; cbn; [auto with arith |].
    destruct (is_digit c || Ascii.eqb c ".")%bool eqn:Hc; cbn; [| auto with arith].
    specialize (IH r). destruct (take_number_chars n r) as [t rest]. cbn in *.
    rewrite Hc. destruct IH. split; [assumption | lia].
Qed.

Lemma digits_and_dots_no_minus (b : string) :
  digits_and_dots b = true -> unsigned_part b = b.
Proof.
  destruct b as [| c r]; [reflexivity |]. cbn.
  intros H. apply andb_prop in H as [Hc _].
  destruct c as [[] [] [] [] [] [] [] []]; try reflexivity; discriminate Hc.
Qed.

Lemma match_field_shape (s : string) (l : ascii) (t rest : string) :
  match_field s = Some (l, t, rest) -> field_shape t.
Proof.
  unfold match_field.
  destruct (Klipper.leading_spaces s) as [[| n] [| c r]]; try discriminate.
  destruct (_ || _)%bool; [| discriminate].
  assert (H : forall sg r0,
             (sg = EmptyString \/ sg = "-") ->
             (let (t0, rest0) := take_number_chars 15 r0 in
              if is_empty t0 then None
              else Some (lower c, (sg ++ t0)%string, rest0))
             = Some (l, t, rest) -> field_shape t).
  { intros sg r0 Hsg.
    pose proof (take_number_chars_spec 15 r0) as [Hd Hl].
    destruct (take_number_chars 15 r0) as [t0 rest0]. cbn in Hd, Hl.
    destruct t0 as [| c0 t0]; [discriminate |].
    intros H. injection H as _ <- _.
    unfold field_shape.
    destruct Hsg as [-> | ->]; cbn [append].
    - rewrite (digits_and_dots_no_minus _ Hd).
      repeat split; [exact Hd | discriminate | cbn in *; lia].
    - cbn [unsigned_part].
      repeat split; [exact Hd | discriminate | cbn in *; lia]. }
  destruct r as [| c1 r1]; [apply (H EmptyString); auto |].
  destruct (Ascii.ascii_dec c1 "-") as [-> | Hne].
  - apply (H "-"); auto.
  - intros Hm. apply (H EmptyString (String c1 r1)); [auto |].
    destruct c1 as [[] [] [] [] [] [] [] []]; try exact Hm. congruence.
Qed.

Lemma set_group_shaped (g : GCodeLine) (l : ascii) (t : string) :
  all_shaped g -> field_shape t -> all_shaped (set_group g l t).
Proof.
  intros Hg Ht u Hu. unfold set_group in Hu.
  unfold all_shaped, captured in Hg.
  repeat match type of Hu with
         | context [if ?b then _ else _] => destruct b
         end;
    cbn in Hu;
    repeat (destruct Hu as [Hu | Hu];
            [first [injection Hu as <-; exact Ht
                   | apply Hg; rewrite <- Hu; cbn; tauto] |]);
    contradiction.
Qed.

Lemma match_fields_shaped (fuel : nat) (g : GCodeLine) (s : string) :
  all_shaped g -> all_shaped (match_fields fuel g s).
Proof.
  revert g s. induction fuel as [| k IH]; intros g s Hg; cbn; [exact Hg |].
  destruct (match_field s) as [[[l t] rest] |] eqn:Hm; [| exact Hg].
  apply IH, set_group_shaped; [exact Hg | exact (match_field_shape _ _ _ _ Hm)].
Qed.

Lemma parse_gcode_shaped (line : string) (cmds : GCodeLine) :
  parse_gcode line = Some cmds -> all_shaped cmds.
Proof.
  unfold parse_gcode.
  destruct line as [| c0 [| c1 r]]; try discriminate.
  destruct (_ && _)%bool; [| discriminate].
  intros H. injection H as <-. apply match_fields_shaped.
  intros t Ht. cbn in Ht. repeat (destruct Ht as [Ht | Ht]; [discriminate |]).
  contradiction.
Qed.

Lemma digits_and_dots_app (a b : string) :
  digits_and_dots (a ++ b) = (digits_and_dots a && digits_and_dots b)%bool.
Proof.
  induction a as [| c a IH]; cbn; [reflexivity |].
  now rewrite IH, Bool.andb_assoc.
Qed.

Lemma has_digit_app (a b : string) :
  has_digit (a ++ b) = (has_digit a || has_digit b)%bool.
Proof.
  induction a as [| c a IH]; cbn; [reflexivity |].
  now rewrite IH, Bool.orb_assoc.
Qed.

Lemma count_dots_app (a b : string) :
  count_dots (a ++ b) = (count_dots a + count_dots b)%nat.
Proof. induction a as [| c a IH]; cbn; [reflexivity | rewrite IH; lia]. Qed.

Lemma all_digits_facts (d : string) :
  all_digits d = true ->
  count_dots d = O /\ has_digit d = negb (is_empty d).
Proof.
  induction d as [| c d IH]; cbn; [auto |].
  intros H. apply andb_prop in H as [Hc Hd].
  destruct (digit_facts c Hc) as (_ & _ & _ & -> & _).
  rewrite Hc. destruct (IH Hd) as [-> _]. auto.
Qed.

Lemma dot_char (c : ascii) :
  (is_digit c || Ascii.eqb c ".")%bool = true ->
  number_char c = true
  /\ Ascii.eqb c "-" = false /\ Ascii.eqb c "+" = false
  /\ Ascii.eqb (lower c) "i" = false /\ Ascii.eqb (lower c) "n" = false
  /\ Ascii.eqb (lower c) "e" = false.
Proof.
  destruct c as [[] [] [] [] [] [] [] []]; vm_compute; intros H;
    try discriminate H; repeat split; reflexivity.
Qed.

Lemma digits_and_dots_number_chars (b : string) :
  digits_and_dots b = true -> all_number_chars b = true.
Proof.
  induction b as [| c b IH]; cbn; [reflexivity |].
  intros H. apply andb_prop in H as [Hc Hb].
  destruct (dot_char c Hc) as [-> _]. now rewrite IH.
Qed.

(** What follows the digits of a text of digits and dots. *)
Lemma after_digits (r : string) :
  digits_and_dots r = true -> starts_nondigit r ->
  r = EmptyString \/ exists r', r = String "." r' /\ digits_and_dots r' = true.
Proof.
  destruct r as [| c r]; [auto |]. cbn. intros H Hc.
  apply andb_prop in H as [H Hr]. rewrite Hc in H. cbn in H.
  apply Ascii.eqb_eq in H. subst c. eauto.
Qed.

Lemma parse_decimal_field (body : string) :
  digits_and_dots body = true ->
  if (has_digit body && (count_dots body <=? 1)%nat)%bool
  then exists m e10, parse_decimal body = Some (m, e10)
  else parse_decimal body = None.
Proof.
  intros Hb. unfold parse_decimal.
  destruct (span_digits_spec body) as (Hsplit & Hip & Hr1).
  destruct (span_digits body) as [ip r1]. cbn [fst snd] in *.
  subst body. rewrite digits_and_dots_app in Hb.
  apply andb_prop in Hb as [_ Hb1].
  rewrite has_digit_app, count_dots_app.
  destruct (all_digits_facts ip Hip) as [-> ->]. cbn [Nat.add].
  destruct (after_digits r1 Hb1 Hr1) as [-> | (r & -> & Hr)].
  - cbn. rewrite append_empty_r, Bool.orb_false_r.
    destruct ip; cbn; eauto.
  - destruct (span_digits_spec r) as (Hsplit & Hfp & Hr2).
    destruct (span_digits r) as [fp r2]. cbn [fst snd] in *.
    subst r. rewrite digits_and_dots_app in Hr.
    apply andb_prop in Hr as [_ Hb2].
    cbn [has_digit count_dots]. change (is_digit ".") with false.
    change (Ascii.eqb "." ".") with true. cbn [orb].
    rewrite has_digit_app, count_dots_app.
    destruct (all_digits_facts fp Hfp) as [-> ->]. cbn [Nat.add].
    destruct (after_digits r2 Hb2 Hr2) as [-> | (r' & -> & Hr')].
    + cbn [has_digit count_dots Nat.leb orb]. rewrite Bool.orb_false_r.
      rewrite Bool.andb_true_r.
      assert (He : is_empty (ip ++ fp) = (is_empty ip && is_empty fp)%bool)
        by (destruct ip; reflexivity).
      rewrite He, <- Bool.negb_andb.
      destruct (is_empty ip && is_empty fp)%bool; cbn; eauto.
    + cbn [count_dots]. change (Ascii.eqb "." ".") with true.
      replace (1 + (1 + count_dots r') <=? 1)%nat with false
        by (symmetry; apply Nat.leb_gt; lia).
      rewrite Bool.andb_false_r.
      destruct (is_empty (ip ++ fp)); reflexivity.
Qed.

Lemma lower_str_head (c : ascii) (r : string) :
  (is_digit c || Ascii.eqb c ".")%bool = true ->
  (String.eqb (lower_str (String c r)) "inf"
   || String.eqb (lower_str (String c r)) "infinity")%bool = false
  /\ String.eqb (lower_str (String c r)) "nan" = false.
Proof.
  intros Hc. destruct (dot_char c Hc) as (_ & _ & _ & Hi & Hn & _).
  cbn. rewrite Hi, Hn. auto.
Qed.

(** [float] of a text of the shape that the pattern captures. *)
Lemma py_float_field (t : string) :
  field_shape t ->
  match py_float t with
  | Ok _ => field_is_number t = true
  | Raise e =>
      field_is_number t = false
      /\ e = ValueError ("could not convert string to float: " ++ str_repr t)
  end.
Proof.
  intros (Hd & Hne & _). unfold field_is_number.
  assert (Hall : all_number_chars t = true).
  { destruct t as [| c r]; [reflexivity |].
    destruct (Ascii.ascii_dec c "-") as [-> | Hc].
    - cbn in Hd |- *. now apply digits_and_dots_number_chars.
    - apply digits_and_dots_number_chars.
      replace (unsigned_part (String c r)) with (String c r) in Hd; [exact Hd |].
      destruct c as [[] [] [] [] [] [] [] []]; try reflexivity. congruence. }
  assert (Hsign : split_sign t
                  = (match t with String "-" _ => true | _ => false end,
                     unsigned_part t)).
  { destruct t as [| c r]; [reflexivity |].
    destruct (Ascii.ascii_dec c "-") as [-> | Hc]; [reflexivity |].
    assert (Hu : unsigned_part (String c r) = String c r)
      by (destruct c as [[] [] [] [] [] [] [] []]; try reflexivity; congruence).
    rewrite Hu in Hd |- *. cbn in Hd. apply andb_prop in Hd as [Hd _].
    destruct (dot_char c Hd) as (_ & Hm & Hp & _).
    apply Ascii.eqb_neq in Hp.
    destruct c as [[] [] [] [] [] [] [] []]; try reflexivity; congruence. }
  unfold py_float, strip.
  rewrite (lstrip_plain t Hall), (rstrip_plain t Hall),
    (drop_underscores_plain false t Hall), Hsign.
  set (neg := match t with String "-" _ => true | _ => false end).
  set (body := unsigned_part t) in *.
  unfold parse_body.
  destruct body as [| c r] eqn:Hbody; [congruence |].
  assert (Hc : (is_digit c || Ascii.eqb c ".")%bool = true)
    by (cbn in Hd; now apply andb_prop in Hd as [Hd _]).
  destruct (lower_str_head c r Hc) as [-> ->].
  pose proof (parse_decimal_field (String c r) Hd) as Hp.
  destruct (has_digit (String c r) && (count_dots (String c r) <=? 1)%nat)%bool.
  - destruct Hp as (m & e10 & ->). reflexivity.
  - rewrite Hp. auto.
Qed.

Lemma raised_field (cmds : GCodeLine) (line t : string) (e : exn) :
  parse_gcode line = Some cmds ->
  In (Some t) (captured cmds) ->
  py_float t = Raise e ->
  field_is_number t = false
  /\ e = ValueError ("could not convert string to float: " ++ str_repr t).
Proof.
  intros Hp Hin He.
  pose proof (py_float_field t (parse_gcode_shaped line cmds Hp t Hin)) as H.
  rewrite He in H. exact H.
Qed.

End Fields.

(** X1. A text that the pattern of [parse_gcode] captures for a field has
    at most 16 characters, and [float] converts it exactly when, after an
    optional minus sign, it holds at least one digit and at most one dot;
    otherwise [float] raises the ValueError that names the text. So a
    field such as 1.2.3 or a lone dot is captured and then rejected. *)
Theorem captured_field_converts_iff_it_is_one_number (line : string)
    (cmds : Bend.GCodeLine) (t : string) :
  Bend.parse_gcode line = Some cmds ->
  In (Some t) (captured cmds) ->
  (String.length t <= 16)%nat
  /\ match PyFloat.py_float t with
     | Ok _ => field_is_number t = true
     | Raise e =>
         field_is_number t = false
         /\ e = ValueError ("could not convert string to float: "
                            ++ PyStr.str_repr t)
     end.
Proof.
  intros Hp Hin.
  pose proof (parse_gcode_shaped line cmds Hp t Hin) as Hshape.
  split; [exact (proj2 (proj2 Hshape)) | exact (py_float_field t Hshape)].
Qed.

Lemma captured_field_witness :
  (String.length "1.2.3" <= 16)%nat
  /\ match PyFloat.py_float "1.2.3" with
     | Ok _ => field_is_number "1.2.3" = true
     | Raise e =>
         field_is_number "1.2.3" = false
         /\ e = ValueError ("could not convert string to float: "
                            ++ PyStr.str_repr "1.2.3")
     end.
Proof.
  apply (captured_field_converts_iff_it_is_one_number
           (file_line "G1 X1.2.3 Y.5")
           (Bend.mk_GCodeLine (Some "1.2.3") (Some ".5") None None None)
           "1.2.3").
  - vm_compute. reflexivity.
  - left. reflexivity.
Defined.

Section BendingLoop.
Import PyStr PyFloat Bend.
Variable L : library.
Variable spline : spline_obj.
Variable P : params.
Variable table : list float.

Lemma bend_line_raises (st : state) (line : string) (evs : list event)
    (e : exn) :
  line <> EmptyString ->
  bend_line L spline P table st line = (evs, Raise e) ->
  exists cmds t,
    parse_gcode line = Some cmds
    /\ In (Some t) (converted cmds)
    /\ field_is_number t = false
    /\ e = ValueError ("could not convert string to float: " ++ str_repr t).
Proof.
  intros Hne. destruct line as [| c0 rest]; [congruence |].
  unfold bend_line.
  destruct (Ascii.eqb c0 ";"); [discriminate |].
  destruct (contains "G91 " _); [discriminate |].
  destruct (contains "G90 " _); [discriminate |].
  destruct (relative_mode st); [discriminate |].
  destruct (parse_gcode (String c0 rest)) as [cmds |] eqn:Hp; [| discriminate].
  assert (Hfield : forall t, In (Some t) (converted cmds) ->
                             py_float t = Raise e ->
                             exists cmds' t',
                               Some cmds = Some cmds'
                               /\ In (Some t') (converted cmds')
                               /\ field_is_number t' = false
                               /\ e = ValueError
                                        ("could not convert string to float: "
                                         ++ str_repr t')).
  { intros t Hin He. exists cmds, t. split; [reflexivity |].
    split; [exact Hin |].
    apply (raised_field cmds (String c0 rest) t e Hp); [| exact He].
    unfold converted, captured in *. cbn in Hin |- *. tauto. }
  assert (Hmove : forall st1 xs ys,
             gx cmds = Some xs -> gy cmds = Some ys ->
             bend_move L spline P table st1 cmds xs ys (String c0 rest)
             = (evs, Raise e) ->
             exists cmds' t',
               Some cmds = Some cmds'
               /\ In (Some t') (converted cmds')
               /\ field_is_number t' = false
               /\ e = ValueError
                        ("could not convert string to float: "
                         ++ str_repr t')).
  { intros st1 xs ys Hx Hy. unfold bend_move.
    destruct (py_float xs) as [px | e2] eqn:Hpx.
    - destruct (py_float ys) as [py | e3] eqn:Hpy.
      + destruct (unplausible _ _); [discriminate |].
        unfold extrusion_amount.
        destruct (ge cmds) as [es |] eqn:He; [| discriminate].
        destruct (py_float es) as [ev | e4] eqn:Hev; [discriminate |].
        cbn. intros H. injection H as _ <-.
        apply (Hfield es); [| exact Hev].
        unfold converted. rewrite He. cbn. tauto.
      + intros H. injection H as _ <-.
        apply (Hfield ys); [| exact Hpy].
        unfold converted. rewrite Hy. cbn. tauto.
    - intros H. injection H as _ <-.
      apply (Hfield xs); [| exact Hpx].
      unfold converted. rewrite Hx. cbn. tauto. }
  destruct (gz cmds) as [zs |] eqn:Hz.
  - destruct (py_float zs) as [cz | e1] eqn:Hcz.
    + destruct (gx cmds) as [xs |] eqn:Hx; [| discriminate].
      destruct (gy cmds) as [ys |] eqn:Hy; [| discriminate].
      apply (Hmove _ xs ys eq_refl eq_refl).
    + intros H. injection H as _ <-.
      apply (Hfield zs); [| exact Hcz].
      unfold converted. rewrite Hz. cbn. tauto.
  - destruct (gx cmds) as [xs |] eqn:Hx; [| discriminate].
    destruct (gy cmds) as [ys |] eqn:Hy; [| discriminate].
    apply (Hmove _ xs ys eq_refl eq_refl).
Qed.

Lemma bend_lines_raises (st : state) (lines : list string)
    (evs : list event) (e : exn) :
  Forall (fun l => l <> EmptyString) lines ->
  bend_lines L spline P table st lines = (evs, Raise e) ->
  exists line cmds t,
    In line lines
    /\ parse_gcode line = Some cmds
    /\ In (Some t) (converted cmds)
    /\ field_is_number t = false
    /\ e = ValueError ("could not convert string to float: " ++ str_repr t).
Proof.
  intros Hall. revert st evs.
  induction Hall as [| l lines Hl Hall IH]; intros st evs; cbn.
  - discriminate.
  - destruct (bend_line L spline P table st l) as [ev1 [st1 | e1]] eqn:Hline.
    + destruct (bend_lines L spline P table st1 lines) as [ev2 r2] eqn:Hrest.
      intros H. injection H as _ ->.
      destruct (IH st1 ev2 Hrest) as (line & cmds & t & Hin & Hrest').
      exists line, cmds, t. split; [right; exact Hin | exact Hrest'].
    + intros H. injection H as _ <-.
      destruct (bend_line_raises st l ev1 e1 Hl Hline) as (cmds & t & Hrest').
      exists l, cmds, t. split; [left; reflexivity | exact Hrest'].
Qed.

(** X2. A bending pass over a file that yields the lines [lines] (none
    is empty) ends early in two ways only: at a line that parses with an
    X, Y, Z or E field that is not one number, with the ValueError of
    [float] that names that field text; or, every line yielded being
    processed, with the exception that the read of the file raises (bytes
    that do not decode). The loop body raises nothing else, the output
    file accepting what is written. *)
Theorem bending_aborts_on_a_bad_field_or_a_failed_read
    (lines : list string) (failure : option exn) (evs : list event)
    (e : exn) :
  Forall (fun l => l <> EmptyString) lines ->
  run_bending L spline P table lines failure = (evs, Aborted e) ->
  (exists line cmds t,
      In line lines
      /\ parse_gcode line = Some cmds
      /\ In (Some t) (converted cmds)
      /\ field_is_number t = false
      /\ e = ValueError ("could not convert string to float: " ++ str_repr t))
  \/ (failure = Some e
      /\ exists st,
           bend_lines L spline P table initial_state lines = (evs, Ok st)).
Proof.
  intros Hall. unfold run_bending.
  destruct (bend_lines L spline P table initial_state lines) as [ev [st | e1]]
    eqn:Hrun.
  - destruct failure as [e2 |]; [| discriminate].
    intros H. injection H as <- <-. right. split; [reflexivity |].
    exists st. reflexivity.
  - intros H. injection H as _ <-. left.
    exact (bend_lines_raises initial_state lines ev e1 Hall Hrun).
Qed.

Lemma bend_line_kept (st : state) (line : string) :
  kept_verbatim (relative_mode st) line ->
  bend_line L spline P table st line = ([Write line], Ok st).
Proof.
  intros (Hne & Hcase).
  destruct line as [| c0 rest]; [congruence |].
  rewrite startswith_semicolon in Hcase.
  unfold bend_line.
  destruct (Ascii.eqb c0 ";"); [reflexivity |].
  destruct Hcase as [Hc | (Hrel & Hcase)]; [discriminate |].
  destruct (contains "G91 " (String c0 rest)).
  - rewrite <- Hrel, set_relative_same. reflexivity.
  - destruct Hcase as [Hc | ->]; [discriminate |].
    rewrite Hrel. reflexivity.
Qed.

(** X3. A run of comment lines, and in relative mode of any lines that do
    not hold the text that switches back to absolute mode, is copied to
    the output in order and unchanged: nothing is logged, nothing is
    converted (so nothing can raise), and the cursor is as before. *)
Theorem verbatim_lines_are_copied (st : state) (lines : list string) :
  Forall (kept_verbatim (relative_mode st)) lines ->
  bend_lines L spline P table st lines = (map Write lines, Ok st).
Proof.
  induction 1 as [| l lines Hl _ IH]; cbn; [reflexivity |].
  rewrite (bend_line_kept st l Hl), IH. reflexivity.
Qed.

(** X4. A rewritten move depends on its line only through the X, Y, Z and
    E fields: two lines that agree on them give the same effects and the
    same cursor, whatever their command digit, the case of their letters
    and their F field. The feed rate of a bent move is not kept. *)
Theorem bent_move_keeps_no_feed_rate (st : state) (line1 line2 : string)
    (cmds1 cmds2 : GCodeLine) (px py cz : float) :
  xy_move st line1 cmds1 px py cz ->
  xy_move st line2 cmds2 px py cz ->
  ge cmds1 = ge cmds2 ->
  unplausible (at_height st cz)
    (bend_geometry L spline P table (at_height st cz) px) = false ->
  bend_line L spline P table st line1 = bend_line L spline P table st line2.
Proof.
  intros H1 H2 He Hpl.
  rewrite (bend_line_xy_move L spline P table st line1 cmds1 px py cz H1).
  rewrite (bend_line_xy_move L spline P table st line2 cmds2 px py cz H2).
  cbv zeta. rewrite Hpl. unfold extrusion_amount. rewrite He. reflexivity.
Qed.

End BendingLoop.

Lemma bending_abort_witness :
  (exists line cmds t,
      In line (map file_line ["; start"; "G1 Z0.28 F600"])
      /\ Bend.parse_gcode line = Some cmds
      /\ In (Some t) (converted cmds)
      /\ field_is_number t = false
      /\ UnicodeDecodeError
           "'utf-8' codec can't decode byte 0xff in position 8192: invalid start byte"
         = ValueError ("could not convert string to float: "
                       ++ PyStr.str_repr t))
  \/ (Some (UnicodeDecodeError
              "'utf-8' codec can't decode byte 0xff in position 8192: invalid start byte")
      = Some (UnicodeDecodeError
                "'utf-8' codec can't decode byte 0xff in position 8192: invalid start byte")
      /\ exists st,
           Bend.bend_lines Reference.lib Reference.spline Reference.P
             Reference.table Bend.initial_state
             (map file_line ["; start"; "G1 Z0.28 F600"])
           = ([Bend.Write (file_line "; start");
               Bend.Write ("G91" ++ Bend.nl ++ "G1 Z0.28");
               Bend.Write " F600";
               Bend.Write (Bend.nl ++ "G90" ++ Bend.nl ++ "M83" ++ Bend.nl)],
              Ok st)).
Proof.
  apply (bending_aborts_on_a_bad_field_or_a_failed_read Reference.lib
           Reference.spline Reference.P Reference.table
           (map file_line ["; start"; "G1 Z0.28 F600"])
           (Some (UnicodeDecodeError
                    "'utf-8' codec can't decode byte 0xff in position 8192: invalid start byte"))).
  - repeat (apply Forall_cons; [discriminate |]). apply Forall_nil.
  - vm_compute. reflexivity.
Defined.

Lemma verbatim_lines_witness :
  Bend.bend_lines Reference.lib Reference.spline Reference.P Reference.table
    (Bend.mk_state (0, 0)%float 0%float 0%float true)
    (map file_line ["G1 X10 Y10 E1"; "; note"; "G91 "; "G1 E-2"])
  = (map Bend.Write
       (map file_line ["G1 X10 Y10 E1"; "; note"; "G91 "; "G1 E-2"]),
     Ok (Bend.mk_state (0, 0)%float 0%float 0%float true)).
Proof.
  apply (verbatim_lines_are_copied Reference.lib Reference.spline Reference.P
           Reference.table (Bend.mk_state (0, 0)%float 0%float 0%float true)).
  repeat (apply Forall_cons;
          [split;
           [discriminate
           | first [left; reflexivity
                   | right; split;
                     [reflexivity
                     | first [left; reflexivity | right; reflexivity]]]] |]).
  apply Forall_nil.
Defined.

Lemma no_feed_rate_witness :
  Bend.bend_line Reference.lib Reference.spline Reference.P Reference.table
    near_state near_line
  = Bend.bend_line Reference.lib Reference.spline Reference.P Reference.table
      near_state (file_line "g0 x195 y100 e0.5 f3000").
Proof.
  apply (bent_move_keeps_no_feed_rate Reference.lib Reference.spline
           Reference.P Reference.table near_state near_line
           (file_line "g0 x195 y100 e0.5 f3000") near_fields
           (Bend.mk_GCodeLine (Some "195") (Some "100") None (Some "0.5")
              (Some "3000"))
           195%float 100%float 50%float).
  - exact near_move_is_xy_move.
  - repeat split; try discriminate; vm_compute; reflexivity.
  - reflexivity.
  - vm_compute. reflexivity.
Defined.

Section Case.
Import PyStr PyFloat Bend.

Lemma lower_facts (c : ascii) :
  lower (lower c) = lower c
  /\ is_space (lower c) = is_space c
  /\ (is_digit (lower c) || Ascii.eqb (lower c) ".")%bool
     = (is_digit c || Ascii.eqb c ".")%bool
  /\ Ascii.eqb (lower c) "-" = Ascii.eqb c "-"
  /\ in_range 48 51 (lower c) = in_range 48 51 c
  /\ ((is_digit c || Ascii.eqb c "." || Ascii.eqb c "-")%bool = true ->
      lower c = c).
Proof.
  destruct c as [[] [] [] [] [] [] [] []]; vm_compute;
    repeat split; intros; try reflexivity; discriminate.
Qed.

Lemma lower_str_length (s : string) :
  String.length (lower_str s) = String.length s.
Proof. induction s; cbn; congruence. Qed.

Lemma leading_spaces_lower (s : string) :
  Klipper.leading_spaces (lower_str s)
  = (fst (Klipper.leading_spaces s), lower_str (snd (Klipper.leading_spaces s))).
Proof.
  induction s as [| c r IH]; cbn [Klipper.leading_spaces lower_str fst snd];
    [reflexivity |].
  destruct (lower_facts c) as (_ & -> & _).
  destruct (is_space c); [| reflexivity].
  rewrite IH. destruct (Klipper.leading_spaces r). reflexivity.
Qed.

Lemma take_number_chars_lower (n : nat) (s : string) :
  take_number_chars n (lower_str s)
  = (fst (take_number_chars n s), lower_str (snd (take_number_chars n s))).
Proof.
  revert s. induction n as [| n IH]; intros [| c r];
    cbn [take_number_chars lower_str fst snd]; try reflexivity.
  destruct (lower_facts c) as (_ & _ & Hd & _ & _ & Hsame). rewrite Hd.
  destruct (is_digit c || Ascii.eqb c ".")%bool eqn:Hc; [| reflexivity].
  rewrite IH. destruct (take_number_chars n r). cbn [fst snd].
  rewrite Hsame; reflexivity.
Qed.

Lemma match_field_lower (s : string) :
  match_field (lower_str s)
  = match match_field s with
    | Some (l, t, rest) => Some (l, t, lower_str rest)
    | None => None
    end.
Proof.
  unfold match_field. rewrite leading_spaces_lower.
  destruct (Klipper.leading_spaces s) as [[| n] [| c r]]; cbn [fst snd lower_str];
    try reflexivity.
  destruct (lower_facts c) as (-> & _).
  destruct (_ || _)%bool; [| reflexivity].
  assert (H : forall sg r0,
             (let (t, rest) := take_number_chars 15 (lower_str r0) in
              if is_empty t then None
              else Some (lower c, (sg ++ t)%string, rest))
             = match (let (t, rest) := take_number_chars 15 r0 in
                      if is_empty t then None
                      else Some (lower c, (sg ++ t)%string, rest)) with
               | Some (l, t, rest) => Some (l, t, lower_str rest)
               | None => None
               end).
  { intros sg r0. rewrite take_number_chars_lower.
    destruct (take_number_chars 15 r0) as [t rest]. cbn [fst snd].
    destruct (is_empty t); reflexivity. }
  destruct r as [| c1 r1]; [apply (H EmptyString EmptyString) |].
  cbn [lower_str].
  destruct (Ascii.ascii_dec c1 "-") as [-> | Hne].
  - change (lower "-") with "-"%char. apply (H "-").
  - assert (Hl : lower c1 <> "-"%char).
    { destruct (lower_facts c1) as (_ & _ & _ & He & _).
      intros Hc. apply Ascii.eqb_neq in Hne. rewrite <- He in Hne.
      apply Ascii.eqb_neq in Hne. contradiction. }
    replace (match lower c1 with
             | "-"%char => ("-", lower_str r1)
             | _ => (EmptyString, String (lower c1) (lower_str r1))
             end)
      with (EmptyString, String (lower c1) (lower_str r1)).
    2:{ destruct (lower c1) as [[] [] [] [] [] [] [] []]; try reflexivity.
        congruence. }
    replace (match c1 with
             | "-"%char => ("-", r1)
             | _ => (EmptyString, String c1 r1)
             end)
      with (EmptyString, String c1 r1).
    2:{ destruct c1 as [[] [] [] [] [] [] [] []]; try reflexivity.
        congruence. }
    apply (H EmptyString (String c1 r1)).
Qed.

Lemma match_fields_lower (fuel : nat) (g : GCodeLine) (s : string) :
  match_fields fuel g (lower_str s) = match_fields fuel g s.
Proof.
  revert g s. induction fuel as [| k IH]; intros g s; cbn; [reflexivity |].
  rewrite match_field_lower.
  destruct (match_field s) as [[[l t] rest] |]; [apply IH | reflexivity].
Qed.

(** X5. The parser of the bending pass ignores the case of the letters of
    a line: a line and its lower-case form parse to the same fields. *)
Theorem parse_gcode_ignores_case (line : string) :
  parse_gcode (lower_str line) = parse_gcode line.
Proof.
  destruct line as [| c0 [| c1 r]]; try reflexivity.
  cbn [lower_str parse_gcode].
  destruct (lower_facts c0) as (-> & _).
  destruct (lower_facts c1) as (_ & _ & _ & _ & -> & _).
  rewrite lower_str_length, match_fields_lower. reflexivity.
Qed.

End Case.

Section Signs.

Lemma round_aux_sign (s : bool) (m e : Z) (l : location) :
  match binary_round_aux prec emax s m e l with
  | S754_zero s' | S754_infinity s' | S754_finite s' _ _ => s' = s
  | S754_nan => True
  end.
Proof.
  unfold binary_round_aux.
  destruct (shr_fexp prec emax m e l) as [mrs' e'].
  destruct (shr_fexp prec emax _ e' loc_Exact) as [mrs'' e''].
  destruct (shr_m mrs''); [reflexivity | | exact I].
  destruct (e'' <=? emax - prec)%Z; reflexivity.
Qed.

Lemma ltb_zero_below (x : float) :
  PrimFloat.ltb x 0 = true -> below_zero (Prim2SF x).
Proof.
  rewrite ltb_spec. change (Prim2SF 0) with (S754_zero false).
  destruct (Prim2SF x) as [s | s | | s m e]; cbn; try discriminate;
    destruct s; try discriminate; reflexivity.
Qed.

Lemma zero_ltb_above (x : float) :
  PrimFloat.ltb 0 x = true -> above_zero (Prim2SF x).
Proof.
  rewrite ltb_spec. change (Prim2SF 0) with (S754_zero false).
  destruct (Prim2SF x) as [s | s | | s m e]; cbn; try discriminate;
    destruct s; try discriminate; reflexivity.
Qed.

Lemma not_above_zero_ltb (x : float) :
  not_above_zero (Prim2SF x) -> PrimFloat.ltb 0 x = false.
Proof.
  rewrite ltb_spec. change (Prim2SF 0) with (S754_zero false).
  destruct (Prim2SF x) as [s | s | | s m e]; cbn; try reflexivity;
    intros ->; reflexivity.
Qed.

(** A negative number divided by a positive one is not above zero. *)
Lemma div_below_by_above (a b : float) :
  below_zero (Prim2SF a) -> above_zero (Prim2SF b) ->
  not_above_zero (Prim2SF (a / b)).
Proof.
  rewrite div_spec. unfold SF64div, SFdiv.
  destruct (Prim2SF a) as [sa | sa | | sa ma ea]; cbn [below_zero];
    try contradiction; intros ->;
    destruct (Prim2SF b) as [sb | sb | | sb mb eb]; cbn [above_zero];
    try contradiction; intros ->; cbn [xorb not_above_zero]; try reflexivity;
    try exact I.
  destruct (SFdiv_core_binary prec emax (Z.pos ma) ea (Z.pos mb) eb)
    as [[mz ez] lz].
  pose proof (round_aux_sign true mz ez lz) as H.
  destruct (binary_round_aux prec emax true mz ez lz); cbn; auto.
Qed.

(** A positive number times one that is not above zero is not above
    zero. *)
Lemma mul_above_by_not_above (e q : float) :
  above_zero (Prim2SF e) -> not_above_zero (Prim2SF q) ->
  not_above_zero (Prim2SF (e * q)).
Proof.
  rewrite mul_spec. unfold SF64mul, SFmul.
  destruct (Prim2SF e) as [se | se | | se me ee]; cbn [above_zero];
    try contradiction; intros ->;
    destruct (Prim2SF q) as [sq | sq | | sq mq eq]; cbn [not_above_zero];
    try (intros ->); try (intros _); cbn [xorb not_above_zero];
    try reflexivity; try exact I.
  pose proof (round_aux_sign true (Z.pos (me * mq)) (ee + eq) loc_Exact) as H.
  destruct (binary_round_aux prec emax true _ _ loc_Exact); cbn; auto.
Qed.

End Signs.

Section Reversal.
Import PyStr PyFloat Bend.
Variable L : library.
Variable spline : spline_obj.
Variable P : params.
Variable table : list float.

(** X6. On a plausible move that is reported as a self-intersection, for
    a positive layer height and a positive E field, the E value handed to
    [write_line] (the field times the scale) is not above zero: next to
    the error message the move is written with an extrusion that is
    reversed or zero. *)
Theorem self_intersecting_move_reverses_extrusion (st : state)
    (line : string) (cmds : GCodeLine) (px py cz : float) (es : string)
    (e : float) :
  xy_move st line cmds px py cz ->
  let g := bend_geometry L spline P table (at_height st cz) px in
  unplausible (at_height st cz) g = false ->
  self_intersects P g = true ->
  PrimFloat.ltb 0 (layer_height P) = true ->
  ge cmds = Some es -> py_float es = Ok e -> PrimFloat.ltb 0 e = true ->
  exists evs ev,
    bend_line L spline P table st line
    = ((evs ++ [Log (SelfIntersection cz)] ++ angle_check P (at_height st cz) g
          ++ [Write (rewritten_move L g py (Some ev))])%list,
       Ok (after_move st px py cz))
    /\ ev = (e * extrusion_scale P g)%float
    /\ PrimFloat.ltb 0 ev = false.
Proof.
  intros Hmove g Hpl Hself Hlh Hge Hes He.
  exists (spline_warning g ++ platform_check g)%list,
    (e * extrusion_scale P g)%float.
  split; [| split; [reflexivity |]].
  - rewrite (bend_line_xy_move L spline P table st line cmds px py cz Hmove).
    cbv zeta. fold g. rewrite Hpl. unfold extrusion_amount.
    rewrite Hge, Hes. cbn [rbind]. unfold intersection_check.
    rewrite Hself. cbn [current_z at_height set_current_z].
    rewrite <- !app_assoc. reflexivity.
  - apply not_above_zero_ltb, mul_above_by_not_above.
    + exact (zero_ltb_above e He).
    + unfold extrusion_scale. apply div_below_by_above.
      * exact (ltb_zero_below _ Hself).
      * exact (zero_ltb_above _ Hlh).
Qed.

End Reversal.

Lemma reversed_extrusion_witness :
  exists evs ev,
    Bend.bend_line Reference.lib Reference.spline Reference.P Reference.table
      near_state near_line
    = ((evs ++ [Bend.Log (Bend.SelfIntersection 50%float)]
          ++ Bend.angle_check Reference.P (at_height near_state 50%float)
               (Bend.bend_geometry Reference.lib Reference.spline Reference.P
                  Reference.table (at_height near_state 50%float) 195%float)
          ++ [Bend.Write
                (Bend.rewritten_move Reference.lib
                   (Bend.bend_geometry Reference.lib Reference.spline
                      Reference.P Reference.table
                      (at_height near_state 50%float) 195%float)
                   100%float (Some ev))])%list,
       Ok (after_move near_state 195%float 100%float 50%float))
    /\ ev = (0.5 * Bend.extrusion_scale Reference.P
                     (Bend.bend_geometry Reference.lib Reference.spline
                        Reference.P Reference.table
                        (at_height near_state 50%float) 195%float))%float
    /\ PrimFloat.ltb 0 ev = false.
Proof.
  apply (self_intersecting_move_reverses_extrusion Reference.lib
           Reference.spline Reference.P Reference.table near_state near_line
           near_fields 195%float 100%float 50%float "0.5" 0.5%float).
  - exact near_move_is_xy_move.
  - vm_compute. reflexivity.
  - vm_compute. reflexivity.
  - vm_compute. reflexivity.
  - reflexivity.
  - vm_compute. reflexivity.
  - vm_compute. reflexivity.
Defined.

(** * Further properties of the kinematics translation *)

Section IKWords.
Import PyStr PyFloat IK.
Variable L : library.

Lemma scan_raises (i : nat) (pre post : list string) (p : string)
    (f0 : fields) (e : exn) :
  Forall (fun q => axis_word q = true ->
                   exists v, py_float (tail_str q) = Ok v) pre ->
  axis_word p = true ->
  py_float (tail_str p) = Raise e ->
  scan i (pre ++ p :: post) f0 = Raise e.
Proof.
  intros Hpre Hp He. revert i f0.
  induction Hpre as [| q pre Hq _ IH]; intros i f0; cbn [app scan].
  - unfold axis_word in Hp. rewrite He.
    destruct (startswith p "X"); [reflexivity |].
    destruct (startswith p "Y"); [reflexivity |].
    destruct (startswith p "Z"); [reflexivity |].
    destruct (startswith p "A"); [reflexivity |].
    destruct (startswith p "B"); [reflexivity | discriminate].
  - unfold axis_word in Hq.
    destruct (startswith q "X");
      [destruct Hq as [v ->]; [reflexivity | apply IH] |].
    destruct (startswith q "Y");
      [destruct Hq as [v ->]; [reflexivity | apply IH] |].
    destruct (startswith q "Z");
      [destruct Hq as [v ->]; [reflexivity | apply IH] |].
    destruct (startswith q "A");
      [destruct Hq as [v ->]; [reflexivity | apply IH] |].
    destruct (startswith q "B");
      [destruct Hq as [v ->]; [reflexivity | apply IH] |].
    apply IH.
Qed.

(** X7. In a line that starts with G or M, every part after the first
    that begins with X, Y, Z, A or B is converted with [float], wherever
    it stands (a word of a message or of a trailing comment included):
    the first such part that is no number raises, and the line is not
    translated. *)
Theorem axis_word_without_number_raises (line head : string)
    (pre post : list string) (p : string) (e : exn) :
  (startswith line "G" || startswith line "M")%bool = true ->
  split line = (head :: pre ++ p :: post)%list ->
  Forall (fun q => axis_word q = true ->
                   exists v, py_float (tail_str q) = Ok v) pre ->
  axis_word p = true ->
  py_float (tail_str p) = Raise e ->
  recalculate L line = Raise e.
Proof.
  intros Hgm Hsplit Hpre Hp He. unfold recalculate.
  destruct (startswith line "G"), (startswith line "M"); try discriminate;
    cbn [negb andb]; rewrite Hsplit; cbn [tl];
    rewrite (scan_raises 1 pre post p no_fields e Hpre Hp He); reflexivity.
Qed.

(** The values and indices after the first loop when no part is a
    coordinate word. *)
Lemma scan_no_coordinates (i : nat) (parts : list string) (f0 : fields) :
  Forall (fun q => coordinate_word q = false
                   /\ (axis_word q = true ->
                       exists v, py_float (tail_str q) = Ok v)) parts ->
  exists f, scan i parts f0 = Ok f
            /\ x_indices f = x_indices f0 /\ y_indices f = y_indices f0
            /\ z_indices f = z_indices f0.
Proof.
  intros Hall. revert i f0.
  induction Hall as [| q parts [Hc Hq] _ IH]; intros i f0; cbn [scan].
  - eauto.
  - unfold coordinate_word in Hc. unfold axis_word in Hq.
    destruct (startswith q "X"); [discriminate |].
    destruct (startswith q "Y"); [discriminate |].
    destruct (startswith q "Z"); [discriminate |].
    cbn [orb] in Hq.
    destruct (startswith q "A").
    { destruct Hq as [v ->]; [reflexivity |]. cbn [rbind].
      destruct (IH (S i) (mk_fields (x_val f0) (y_val f0) (z_val f0) v
                            (b_val f0) (x_indices f0) (y_indices f0)
                            (z_indices f0))) as (f & -> & H).
      exists f. split; [reflexivity | exact H]. }
    destruct (startswith q "B").
    { destruct Hq as [v ->]; [reflexivity |]. cbn [rbind].
      destruct (IH (S i) (mk_fields (x_val f0) (y_val f0) (z_val f0)
                            (a_val f0) v (x_indices f0) (y_indices f0)
                            (z_indices f0))) as (f & -> & H).
      exists f. split; [reflexivity | exact H]. }
    apply IH.
Qed.

Lemma rev_str_app (acc s : string) :
  rev_str acc s = (rev_str EmptyString s ++ acc)%string.
Proof.
  revert acc. induction s as [| c s IH]; intros acc; cbn; [reflexivity |].
  rewrite (IH (String c acc)), (IH (String c EmptyString)).
  rewrite append_assoc. reflexivity.
Qed.

Lemma rev_str_involutive (s : string) :
  rev_str EmptyString (rev_str EmptyString s) = s.
Proof.
  induction s as [| c s IH]; cbn; [reflexivity |].
  rewrite (rev_str_app (String c EmptyString) s).
  assert (H : forall a b, rev_str EmptyString (a ++ b)
                          = (rev_str EmptyString b ++ rev_str EmptyString a)%string).
  { induction a as [| x a IHa]; intros b; cbn.
    - now rewrite append_empty_r.
    - rewrite (rev_str_app (String x EmptyString) (a ++ b)), IHa.
      rewrite (rev_str_app (String x EmptyString) a), append_assoc.
      reflexivity. }
  rewrite H, IH. reflexivity.
Qed.

(** Reading a word: its characters go to the current run. *)
Lemma split_go_word (w cur rest : string) :
  no_space w = true ->
  split_go cur (w ++ rest) = split_go (rev_str cur w) rest.
Proof.
  revert cur. induction w as [| c w IH]; intros cur; cbn; [reflexivity |].
  intros H. apply andb_prop in H as [Hc Hw].
  apply negb_true_iff in Hc. rewrite Hc. apply IH, Hw.
Qed.

Lemma rev_str_nonempty (cur w : string) :
  w <> EmptyString -> rev_str cur w <> EmptyString.
Proof.
  intros Hw. rewrite rev_str_app.
  destruct w as [| c w]; [congruence |]. cbn.
  rewrite (rev_str_app (String c EmptyString) w).
  destruct (rev_str EmptyString w); cbn; discriminate.
Qed.

(** [split] undoes [join]: words joined by single spaces split into the
    same words. *)
Lemma split_join (ws : list string) :
  Forall word ws -> split (join " " ws) = ws.
Proof.
  unfold split. induction 1 as [| w ws [Hne Hw] Hws IH]; [reflexivity |].
  destruct ws as [| w' ws'].
  - cbn [join]. rewrite <- (append_empty_r w) at 1.
    rewrite (split_go_word w EmptyString EmptyString Hw). cbn.
    destruct (rev_str EmptyString w) eqn:Hr.
    + exfalso. exact (rev_str_nonempty EmptyString w Hne Hr).
    + rewrite <- Hr, rev_str_involutive. reflexivity.
  - change (join " " (w :: w' :: ws'))
      with (w ++ " " ++ join " " (w' :: ws'))%string.
    rewrite (split_go_word w EmptyString _ Hw).
    cbn [append split_go]. change (is_space " ") with true. cbn iota.
    destruct (rev_str EmptyString w) eqn:Hr.
    + exfalso. exact (rev_str_nonempty EmptyString w Hne Hr).
    + rewrite <- Hr, rev_str_involutive, IH. reflexivity.
Qed.

(** X8. A line that starts with G or M, is made of words joined by single
    spaces, has no word after the first that starts with X, Y or Z, and
    whose A and B words are numbers, is returned as it is: [split] and
    [join] undo each other on it, and no formula is evaluated, so nothing
    of the C library is called. *)
Theorem line_without_coordinates_is_kept (head : string) (rest : list string) :
  (startswith head "G" || startswith head "M")%bool = true ->
  Forall word (head :: rest) ->
  Forall (fun q => coordinate_word q = false
                   /\ (axis_word q = true ->
                       exists v, py_float (tail_str q) = Ok v)) rest ->
  recalculate L (join " " (head :: rest)) = Ok (join " " (head :: rest)).
Proof.
  intros Hgm Hwords Hrest.
  assert (Hstart : (startswith (join " " (head :: rest)) "G"
                    || startswith (join " " (head :: rest)) "M")%bool = true).
  { inversion Hwords as [| ? ? [Hne _] _]; subst.
    destruct head as [| c h]; [congruence |].
    destruct rest as [| r0 rest0]; [exact Hgm |].
    change (join " " (String c h :: r0 :: rest0))
      with (String c (h ++ " " ++ join " " (r0 :: rest0)))%string.
    unfold startswith in *. cbn [String.prefix] in *.
    destruct (ascii_dec "G" c), (ascii_dec "M" c); cbn in *; auto;
      destruct h; cbn in *; auto. }
  unfold recalculate.
  destruct (startswith (join " " (head :: rest)) "G"),
    (startswith (join " " (head :: rest)) "M"); try discriminate;
    cbn [negb andb]; rewrite (split_join _ Hwords); cbn [tl];
    destruct (scan_no_coordinates 1 rest no_fields Hrest)
      as (f & Hs & Hx & Hy & Hz);
    rewrite Hs; cbn [rbind]; rewrite Hx, Hy, Hz; reflexivity.
Qed.

End IKWords.

Lemma axis_word_witness :
  IK.recalculate Reference.lib "M117 Heating Bed"
  = Raise (ValueError "could not convert string to float: 'ed'").
Proof.
  apply (axis_word_without_number_raises Reference.lib "M117 Heating Bed"
           "M117" ["Heating"] [] "Bed").
  - reflexivity.
  - vm_compute. reflexivity.
  - apply Forall_cons; [intros H; discriminate H | apply Forall_nil].
  - reflexivity.
  - vm_compute. reflexivity.
Defined.

Lemma kept_line_witness :
  IK.recalculate Reference.lib (PyStr.join " " ["G1"; "E5"; "F300"; "A0"])
  = Ok (PyStr.join " " ["G1"; "E5"; "F300"; "A0"]).
Proof.
  apply (line_without_coordinates_is_kept Reference.lib "G1"
           ["E5"; "F300"; "A0"]).
  - reflexivity.
  - repeat (apply Forall_cons; [split; [discriminate | reflexivity] |]).
    apply Forall_nil.
  - repeat (apply Forall_cons;
            [split;
             [reflexivity
             | first [intros H; discriminate H
                     | intros _; eexists; vm_compute; reflexivity]] |]).
    apply Forall_nil.
Defined.

(** * Further properties of the Klipper conversion *)

Section KlipperLines.
Import PyStr PyFloat Klipper.

Lemma gcode_lines_app (a b : list out_line) :
  gcode_lines (a ++ b) = (gcode_lines a ++ gcode_lines b)%list.
Proof.
  induction a as [| [v | t] a IH]; cbn; [reflexivity | exact IH |].
  now rewrite IH.
Qed.

Lemma line_output_shape (last_sent : option float) (line : string) :
  gcode_lines (line_output last_sent line) = [cleaned_line line]
  /\ List.length (line_output last_sent line)
     = S (List.length (stepper_values (line_output last_sent line))).
Proof.
  unfold line_output.
  destruct (rotation_B line) as [v |]; [| split; reflexivity].
  destruct (changed last_sent v); split; reflexivity.
Qed.

Lemma loop_output_lines (last_sent : option float) (lines : list string) :
  gcode_lines (loop_output last_sent lines) = map cleaned_line lines
  /\ List.length (loop_output last_sent lines)
     = (List.length lines
        + List.length (stepper_values (loop_output last_sent lines)))%nat.
Proof.
  revert last_sent. induction lines as [| l lines IH]; intros last_sent.
  - split; reflexivity.
  - cbn [loop_output map List.length].
    destruct (line_output_shape last_sent l) as [Hg Hl].
    destruct (IH (last_stepper_from last_sent (line_output last_sent l)))
      as [IHg IHl].
    rewrite gcode_lines_app, Hg, IHg, stepper_values_app, !length_app, Hl, IHl.
    split; [reflexivity | lia].
Qed.

(** In [runs], a value differs from the one before it. *)
Lemma runs_adjacent (prev : option float) (vs : list float) :
  (forall a, hd_error (runs prev vs) = Some a -> changed prev a = true)
  /\ forall i a b,
       nth_error (runs prev vs) i = Some a ->
       nth_error (runs prev vs) (S i) = Some b ->
       PrimFloat.eqb b a = false.
Proof.
  revert prev. induction vs as [| v vs IH]; intros prev; cbn [runs].
  - split; [discriminate |]. intros [| i] a b; discriminate.
  - destruct (changed prev v) eqn:Hch; [| apply IH].
    destruct (IH (Some v)) as [IHhd IHadj].
    split.
    + cbn. intros a H. injection H as <-. exact Hch.
    + intros [| i] a b; cbn [nth_error].
      * intros H. injection H as <-. intros Hb.
        assert (Hhd : hd_error (runs (Some v) vs) = Some b)
          by (destruct (runs (Some v) vs); [discriminate | exact Hb]).
        apply IHhd in Hhd. cbn in Hhd. now apply negb_true_iff in Hhd.
      * apply IHadj.
Qed.

(** X9. The conversion keeps every input line, once and in order: without
    the stepper commands, the output is the list of the cleaned input
    lines; the output is longer than the input by the number of stepper
    commands; and no stepper command repeats the value of the one before
    it. *)
Theorem conversion_keeps_every_line_and_repeats_no_value
    (lines : list string) :
  exists out,
    convert lines = Ok out
    /\ gcode_lines out = map cleaned_line lines
    /\ List.length out
       = (List.length lines + List.length (stepper_values out))%nat
    /\ forall i a b,
         nth_error (stepper_values out) i = Some a ->
         nth_error (stepper_values out) (S i) = Some b ->
         PrimFloat.eqb b a = false.
Proof.
  exists (loop_output None lines). unfold convert.
  split; [apply convert_loop_spec |].
  destruct (loop_output_lines None lines) as [Hg Hl].
  split; [exact Hg |]. split; [exact Hl |].
  rewrite loop_output_values. apply runs_adjacent.
Qed.

End KlipperLines.

(** * Properties of the file names *)

Section Paths.
Import PyStr PosixPath.

Lemma take_drop (n : nat) (s : string) : (take n s ++ drop n s)%string = s.
Proof.
  revert s. induction n as [| n IH]; intros [| c r]; cbn; try reflexivity.
  now rewrite IH.
Qed.

(** The two parts that [splitext] returns make up its argument. *)
Lemma splitext_joins (p : string) :
  (fst (splitext p) ++ snd (splitext p))%string = p.
Proof.
  unfold splitext.
  destruct (rfind "/" p <? rfind "." p); cbn; [| apply append_empty_r].
  destruct (has_non_dot _); cbn; [apply take_drop | apply append_empty_r].
Qed.

Lemma rfind_range (c : ascii) (s : string) :
  rfind c s = -1 \/ 0 <= rfind c s < Z.of_nat (String.length s).
Proof.
  induction s as [| a r IH]; cbn [rfind String.length]; [auto |].
  destruct (0 <=? rfind c r) eqn:Hi.
  - right. apply Z.leb_le in Hi. lia.
  - destruct (Ascii.eqb a c); [right; lia | auto].
Qed.

(** No separator follows the last one. *)
Lemma rfind_basename (p : string) : rfind "/" (basename p) = -1.
Proof.
  unfold basename. induction p as [| a r IH]; cbn [rfind]; [reflexivity |].
  destruct (rfind_range "/" r) as [Hr | Hr].
  - rewrite Hr in *. cbn [Z.leb Z.compare] in *.
    destruct (Ascii.eqb a "/") eqn:Ha; cbn; [exact Hr |].
    rewrite Hr. cbn. now rewrite Ha.
  - assert (H : (0 <=? rfind "/" r) = true) by (apply Z.leb_le; lia).
    rewrite H. replace (Z.to_nat (rfind "/" r + 1 + 1))
      with (S (Z.to_nat (rfind "/" r + 1))) by lia.
    exact IH.
Qed.

Lemma rfind_app_none (c : ascii) (a x : string) :
  rfind c x = -1 ->
  rfind c (a ++ x) = rfind c a.
Proof.
  intros Hx. induction a as [| b a IH]; cbn [append rfind]; [exact Hx |].
  now rewrite IH.
Qed.

Lemma rfind_endswith (a : string) :
  endswith_sep a = true -> rfind "/" a = Z.of_nat (String.length a) - 1.
Proof.
  induction a as [| c r IH]; [discriminate |].
  destruct r as [| c' r'].
  - cbn. intros ->. reflexivity.
  - intros H. change (endswith_sep (String c (String c' r')))
      with (endswith_sep (String c' r')) in H.
    specialize (IH H). cbn [rfind] in IH |- *.
    cbn [String.length] in IH |- *.
    destruct (0 <=? (if 0 <=? rfind "/" r' then rfind "/" r' + 1
                     else if Ascii.eqb c' "/" then 0 else -1)) eqn:Hi.
    + lia.
    + apply Z.leb_gt in Hi. lia.
Qed.

Lemma drop_app_length (a x : string) : drop (String.length a) (a ++ x) = x.
Proof. induction a as [| c a IH]; cbn; [destruct x |]; auto. Qed.

Lemma take_app_length (a x : string) : take (String.length a) (a ++ x) = a.
Proof. induction a as [| c a IH]; cbn; [destruct x |]; congruence. Qed.

(** The last component of [a ++ x] when [a] is empty or ends with the
    separator and [x] has none. *)
Lemma split_at_separator (a x : string) :
  a = EmptyString \/ endswith_sep a = true ->
  rfind "/" x = -1 ->
  Z.to_nat (rfind "/" (a ++ x) + 1) = String.length a.
Proof.
  intros Ha Hx. rewrite (rfind_app_none "/" a x Hx).
  destruct Ha as [-> | Ha]; [reflexivity |].
  rewrite (rfind_endswith a Ha). lia.
Qed.

Lemma endswith_sep_app (d : string) : endswith_sep (d ++ "/") = true.
Proof.
  induction d as [| c d IH]; [reflexivity |].
  cbn [append]. destruct (d ++ "/")%string eqn:Hd; [| exact IH].
  destruct d; discriminate.
Qed.

Lemma rstrip_sep_plain (d : string) :
  d <> EmptyString -> endswith_sep d = false -> rstrip_sep d = d.
Proof.
  induction d as [| c r IH]; [congruence |]. intros _.
  destruct r as [| c' r'].
  - cbn. intros ->. reflexivity.
  - intros H. change (endswith_sep (String c (String c' r')))
      with (endswith_sep (String c' r')) in H.
    cbn [rstrip_sep] in IH |- *.
    rewrite IH; [reflexivity | discriminate | exact H].
Qed.

Lemma rstrip_sep_app (d : string) :
  rstrip_sep (d ++ "/") = rstrip_sep d.
Proof.
  induction d as [| c d IH]; [reflexivity |].
  cbn [append rstrip_sep]. now rewrite IH.
Qed.

Lemma all_sep_endswith (d : string) :
  d <> EmptyString -> all_sep d = true -> endswith_sep d = true.
Proof.
  induction d as [| c r IH]; [congruence |]. intros _. cbn [all_sep].
  intros H. apply andb_prop in H as [Hc Hr].
  destruct r as [| c' r']; [exact Hc |].
  apply IH; [discriminate | exact Hr].
Qed.

Lemma all_sep_app (d : string) :
  all_sep (d ++ "/") = all_sep d.
Proof.
  induction d as [| c d IH]; [reflexivity |].
  cbn [append all_sep]. now rewrite IH.
Qed.

(** What [rstrip] leaves of a text that is not made of separators. *)
Lemma rstrip_sep_result (h : string) :
  all_sep h = false ->
  rstrip_sep h <> EmptyString
  /\ endswith_sep (rstrip_sep h) = false
  /\ all_sep (rstrip_sep h) = false.
Proof.
  induction h as [| c r IH]; [discriminate |].
  cbn [all_sep rstrip_sep]. intros H.
  destruct (all_sep r) eqn:Hr.
  - rewrite Bool.andb_true_r in H.
    assert (Hs : rstrip_sep r = EmptyString).
    { clear -Hr. induction r as [| a r IH]; [reflexivity |].
      cbn in Hr |- *. apply andb_prop in Hr as [Ha Hr].
      now rewrite (IH Hr), Ha. }
    rewrite Hs, H. cbn. rewrite H. repeat split; discriminate.
  - destruct (IH eq_refl) as (Hne & He & Ha).
    destruct (rstrip_sep r) as [| c' r'] eqn:Hs; [congruence |].
    repeat split; [discriminate | exact He |].
    cbn [all_sep] in Ha |- *. rewrite Ha. apply Bool.andb_false_r.
Qed.

(** The three forms of a directory name. *)
Lemma dirname_form (p : string) :
  dirname p = EmptyString
  \/ (dirname p <> EmptyString /\ all_sep (dirname p) = true)
  \/ (dirname p <> EmptyString /\ endswith_sep (dirname p) = false
      /\ all_sep (dirname p) = false).
Proof.
  unfold dirname.
  destruct (take (Z.to_nat (rfind "/" p + 1)) p) as [| c h] eqn:Hh;
    [left; reflexivity |].
  cbn [is_empty negb andb].
  destruct (all_sep (String c h)) eqn:Ha; cbn [negb].
  - right; left. split; [discriminate | exact Ha].
  - right; right. apply rstrip_sep_result, Ha.
Qed.

Lemma startswith_sep (x : string) :
  rfind "/" x = -1 -> startswith x "/" = false.
Proof.
  intros Hx. destruct (startswith x "/") eqn:Hs; [| reflexivity].
  apply startswith_letter in Hs as [r ->]. cbn [rfind] in Hx.
  change (Ascii.eqb "/" "/") with true in Hx.
  destruct (0 <=? rfind "/" r) eqn:Hi; [apply Z.leb_le in Hi; lia | discriminate].
Qed.

(** A name without separator, joined to a directory name. *)
Lemma join_to_directory (d x : string) :
  d = EmptyString
  \/ (d <> EmptyString /\ all_sep d = true)
  \/ (d <> EmptyString /\ endswith_sep d = false /\ all_sep d = false) ->
  rfind "/" x = -1 ->
  basename (join d x) = x /\ dirname (join d x) = d.
Proof.
  intros Hform Hx. unfold join. rewrite (startswith_sep x Hx).
  destruct Hform as [Hd | [[Hne Ha] | (Hne & He & Ha)]].
  - rewrite Hd. cbn [is_empty orb append].
    unfold basename, dirname. rewrite Hx. cbn. destruct x; auto.
  - pose proof (all_sep_endswith _ Hne Ha) as He. rewrite He.
    rewrite Bool.orb_true_r.
    unfold basename, dirname.
    rewrite (split_at_separator _ x (or_intror He) Hx).
    rewrite drop_app_length, take_app_length, Ha.
    rewrite Bool.andb_false_r. auto.
  - rewrite He. destruct d as [| c d]; [congruence |].
    cbn [is_empty orb].
    replace (String c d ++ "/" ++ x)%string
      with ((String c d ++ "/") ++ x)%string
      by (rewrite append_assoc; reflexivity).
    unfold basename, dirname.
    rewrite (split_at_separator _ x (or_intror (endswith_sep_app _)) Hx).
    rewrite drop_app_length, take_app_length, all_sep_app, Ha.
    cbn [append is_empty negb andb].
    change (rstrip_sep (String c (d ++ "/")))
      with (rstrip_sep (String c d ++ "/")).
    rewrite rstrip_sep_app, (rstrip_sep_plain _ Hne He). auto.
Qed.

Lemma join_name (p x : string) :
  rfind "/" x = -1 ->
  basename (join (dirname p) x) = x
  /\ dirname (join (dirname p) x) = dirname p.
Proof. apply join_to_directory, dirname_form. Qed.

Lemma rfind_prefixed (prefix b : string) :
  rfind "/" prefix = -1 -> rfind "/" b = -1 ->
  rfind "/" (prefix ++ "_" ++ b) = -1.
Proof.
  intros Hp Hb. rewrite rfind_app_none; [exact Hp |].
  cbn [append rfind]. rewrite Hb. reflexivity.
Qed.

Lemma length_append (a b : string) :
  String.length (a ++ b) = (String.length a + String.length b)%nat.
Proof. induction a; cbn; congruence. Qed.

Lemma get_output_filename_join (prefix p : string) :
  get_output_filename prefix p
  = join (dirname p) (prefix ++ "_" ++ basename p).
Proof.
  unfold get_output_filename.
  pose proof (splitext_joins (basename p)) as H.
  destruct (splitext (basename p)) as [name ext]. cbn in H.
  now rewrite H.
Qed.

(** X10. For a prefix without separator, the output file lies in the
    directory of the input file, and its name is the prefix, an
    underscore and the whole name of the input file, extension included
    (splitting the extension off and adding it back changes nothing); it
    is never the input file itself. *)
Theorem output_file_is_beside_the_input (prefix p : string) :
  rfind "/" prefix = -1 ->
  get_output_filename prefix p
  = join (dirname p) (prefix ++ "_" ++ basename p)
  /\ basename (get_output_filename prefix p)
     = (prefix ++ "_" ++ basename p)%string
  /\ dirname (get_output_filename prefix p) = dirname p
  /\ get_output_filename prefix p <> p.
Proof.
  intros Hp. rewrite get_output_filename_join.
  destruct (join_name p (prefix ++ "_" ++ basename p)
              (rfind_prefixed prefix _ Hp (rfind_basename p))) as [Hb Hd].
  repeat split; [exact Hb | exact Hd |].
  intros Heq. rewrite Heq in Hb.
  apply (f_equal String.length) in Hb.
  rewrite !length_append in Hb. cbn in Hb. lia.
Qed.

(** X11. The stages are chained and never overwrite what they read: the
    kinematics stage reads the file the bending stage writes, the
    conversion reads the file the kinematics stage writes, the file a
    stage writes is never the file it reads, and no stage writes the file
    the user selected. *)
Theorem stages_chain_without_overwriting (input_file : string) :
  fst (stage_files Kinematics input_file)
  = snd (stage_files Bending input_file)
  /\ fst (stage_files KlipperConversion input_file)
     = snd (stage_files Kinematics input_file)
  /\ (forall s, snd (stage_files s input_file) <> fst (stage_files s input_file))
  /\ (forall s, snd (stage_files s input_file) <> input_file).
Proof.
  assert (Hname : forall prefix,
             rfind "/" prefix = -1 ->
             String.length (basename (get_output_filename prefix input_file))
             = (String.length prefix + 1
                + String.length (basename input_file))%nat).
  { intros prefix Hp.
    rewrite get_output_filename_join.
    destruct (join_name input_file (prefix ++ "_" ++ basename input_file)
                (rfind_prefixed prefix _ Hp (rfind_basename input_file)))
      as [-> _].
    rewrite !length_append. cbn. lia. }
  pose proof (Hname "BENT" eq_refl) as Hb.
  pose proof (Hname "IK" eq_refl) as Hi.
  pose proof (Hname "KLIPPER" eq_refl) as Hk.
  cbn [String.length] in Hb, Hi, Hk.
  repeat split.
  - intros [] Heq; cbn [stage_files fst snd] in Heq.
    + rewrite Heq in Hb. lia.
    + rewrite Heq in Hi. lia.
    + rewrite Heq in Hk. lia.
  - intros [] Heq; cbn [stage_files fst snd] in Heq.
    + rewrite Heq in Hb. lia.
    + rewrite Heq in Hi. lia.
    + rewrite Heq in Hk. lia.
Qed.

End Paths.

Lemma output_file_witness :
  get_output_filename "BENT" "/home/user/part.gcode"
  = PosixPath.join (PosixPath.dirname "/home/user/part.gcode")
      ("BENT" ++ "_" ++ PosixPath.basename "/home/user/part.gcode")
  /\ PosixPath.basename (get_output_filename "BENT" "/home/user/part.gcode")
     = ("BENT" ++ "_" ++ PosixPath.basename "/home/user/part.gcode")%string
  /\ PosixPath.dirname (get_output_filename "BENT" "/home/user/part.gcode")
     = PosixPath.dirname "/home/user/part.gcode"
  /\ get_output_filename "BENT" "/home/user/part.gcode"
     <> "/home/user/part.gcode".
Proof.
  apply (output_file_is_beside_the_input "BENT" "/home/user/part.gcode").
  reflexivity.
Defined.

(** The names on a path with a directory and on a bare file name. *)
Example output_file_names :
  map (get_output_filename "IK")
    ["/home/user/part.gcode"; "part.gcode"; "dir/.hidden"; "a//b.tar.gz"]
  = ["/home/user/IK_part.gcode"; "IK_part.gcode"; "dir/IK_.hidden";
     "a/IK_b.tar.gz"].
Proof. vm_compute. reflexivity. Qed.

(** * Properties of the remote controller and of the setup sequences *)

Section ControllerFacts.
Import Moonraker.
Variable server : list request -> request -> reply.
Variable files : string -> file_state.
Variable host : string.
Variable port : Z.

Lemma append_inv_head (a x y : string) : (a ++ x = a ++ y)%string -> x = y.
Proof.
  induction a as [| c a IH]; cbn; [auto |]. intros H. injection H. auto.
Qed.

(** X12. [upload_and_print] sends the upload first and at most one more
    request, and it asks the printer to start only after the upload was
    accepted and its answer names the file: the request to start carries
    the value found at [item], [path] of that answer. A file that is
    missing, a refused upload or an answer without that entry sends no
    request to start. *)
Theorem print_starts_only_after_an_accepted_upload (file_path : string)
    (sent : list request) :
  match upload_and_print server files host port file_path sent with
  | (_, sent') =>
      exists new,
        sent' = (sent ++ new)%list
        /\ (List.length new <= 2)%nat
        /\ forall q,
             In q new ->
             url q = (base_url host port ++ "/printer/print/start")%string ->
             exists content value item filename,
               files file_path = Readable content
               /\ checked (server sent
                             (upload_request host port file_path content
                                "gcodes")) = inr value
               /\ subscript value "item" = Returned item
               /\ subscript item "path" = Returned filename
               /\ new = [upload_request host port file_path content "gcodes";
                         start_request host port filename]
  end.
Proof.
  unfold upload_and_print, upload_file.
  destruct (files file_path) as [| content | text] eqn:Hfile.
  - exists []. rewrite app_nil_r. split; [reflexivity |].
    split; [cbn; lia | intros q []].
  - set (up := upload_request host port file_path content "gcodes").
    assert (Hup : forall q,
               In q [up] ->
               url q <> (base_url host port ++ "/printer/print/start")%string).
    { intros q [<- | []] H. unfold up, upload_request in H.
      cbn [url] in H. apply append_inv_head in H. discriminate H. }
    assert (Hrest :
              exists new,
                (sent ++ [up])%list = (sent ++ new)%list
                /\ (List.length new <= 2)%nat
                /\ forall q,
                     In q new ->
                     url q = (base_url host port ++ "/printer/print/start")%string ->
                     exists content0 value0 item filename,
                       Readable content = Readable content0
                       /\ checked (server sent
                                     (upload_request host port file_path
                                        content0 "gcodes")) = inr value0
                       /\ subscript value0 "item" = Returned item
                       /\ subscript item "path" = Returned filename
                       /\ new = [upload_request host port file_path content0
                                   "gcodes";
                                 start_request host port filename]).
    { exists [up]. split; [reflexivity |]. split; [cbn; lia |].
      intros q Hq Hurl. now apply Hup in Hurl. }
    cbn [call]. unfold answer.
    destruct (checked (server sent up)) as [text | value] eqn:Hreply.
    + cbn [success negb]. exact Hrest.
    + cbn [success negb uploaded_path].
      change (String.eqb "response" "response") with true. cbv iota.
      destruct (subscript value "item") as [item | e] eqn:Hitem.
      * destruct (subscript item "path") as [filename | e] eqn:Hpath.
        -- unfold start_print. cbn [call].
           exists [up; start_request host port filename].
           rewrite <- app_assoc. split; [reflexivity |].
           split; [cbn; lia |].
           intros q _ _. exists content, value, item, filename. auto.
        -- destruct e; exact Hrest.
      * destruct e; exact Hrest.
  - exists []. rewrite app_nil_r. split; [reflexivity |].
    split; [cbn; lia | intros q []].
Qed.

(** X13. A setup sequence sends its commands in order, each after the
    printer accepted the one before, and stops at the first that fails:
    with [k] the number of accepted commands, the calls made are those of
    the first [k + 1] commands (all of them when none failed), the
    commands after that one are never sent, one line is logged for each
    command sent, and the loop does not raise. So a failure of the move
    that follows G91 leaves G90 unsent. [i] is the index of the first
    command, 0 in both sequences. *)
Theorem setup_sequence_stops_at_the_first_failure (i : nat)
    (commands : list string) (sent : list request) :
  exists k reports,
    run_steps server host port i commands sent
    = (Returned k, reports,
       (sent ++ scripts host port (firstn (S k) commands))%list)
    /\ (k <= List.length commands)%nat
    /\ List.length reports = List.length (firstn (S k) commands)
    /\ (forall j command,
          (j < k)%nat -> nth_error commands j = Some command ->
          accepted server host port
            (sent ++ scripts host port (firstn j commands)) command = true)
    /\ (forall command,
          nth_error commands k = Some command ->
          accepted server host port
            (sent ++ scripts host port (firstn k commands)) command = false).
Proof.
  revert i sent. induction commands as [| c rest IH]; intros i sent.
  - exists O, []. cbn. rewrite app_nil_r.
    split; [reflexivity |]. split; [lia |]. split; [reflexivity |].
    split; [intros j command Hj; lia | intros command H; discriminate H].
  - cbn [run_steps]. unfold send_gcode, answer. cbn [call].
    destruct (checked (server sent (script_request host port c)))
      as [text | value] eqn:Hc.
    + exists O, [StepFailed (S i) c text]. cbn.
      split; [reflexivity |]. split; [lia |]. split; [reflexivity |]. split.
      * intros j command Hj. lia.
      * intros command H. injection H as <-. unfold accepted.
        rewrite app_nil_r, Hc. reflexivity.
    + destruct (IH (S i) (sent ++ [script_request host port c])%list)
        as (k & reports & Hrun & Hk & Hlen & Hbefore & Hat).
      rewrite Hrun. exists (S k), (StepDone (S i) c :: reports).
      rewrite <- app_assoc. cbn [firstn scripts map app List.length].
      split; [reflexivity |]. split; [lia |].
      split; [now rewrite Hlen |]. split.
      * intros [| j] command Hj Hnth; cbn in Hnth |- *.
        -- injection Hnth as <-. unfold accepted.
           rewrite app_nil_r, Hc. reflexivity.
        -- specialize (Hbefore j command ltac:(lia) Hnth).
           unfold scripts in Hbefore. rewrite <- app_assoc in Hbefore.
           exact Hbefore.
      * intros command Hnth. cbn in Hnth. specialize (Hat command Hnth).
        unfold scripts in Hat. rewrite <- app_assoc in Hat. exact Hat.
Qed.

End ControllerFacts.

(** A printer that refuses the move of the Z axis: the mass production
    sequence stops after two calls, and G90 is not sent. *)
Example mass_production_stops_in_relative_mode :
  let server (sent : list Moonraker.request) (r : Moonraker.request) :=
    match Moonraker.body r with
    | Moonraker.Json
        (Moonraker.JObject [(_, Moonraker.JString "G1 Z15 F1000")]) =>
        Moonraker.Response 400 "400 Client Error" (inl "no body")
    | _ => Moonraker.Response 200 EmptyString
             (inr (Moonraker.JObject [("result", Moonraker.JString "ok")]))
    end in
  Moonraker.run_steps server "printer.local" 7125 0
    Moonraker.mass_production_commands []
  = (Moonraker.Returned 1%nat,
     [Moonraker.StepDone 1 "G91";
      Moonraker.StepFailed 2 "G1 Z15 F1000" "400 Client Error"],
     scripts "printer.local" 7125 ["G91"; "G1 Z15 F1000"]).
Proof. vm_compute. reflexivity. Qed.

(** * Properties of the worker and of the window *)

Section WorkerFacts.
Import Worker.
Variable L : library.

Lemma logs_not_terminal (texts : list string) :
  forallb (fun s => negb (terminal s)) (map log_signal texts) = true.
Proof. induction texts; cbn; auto. Qed.

Lemma stopped_run (start : string) (e : exn) (process_type : string) :
  one_terminal_last process_type
    [log_signal start; error_signal (exn_str e)] None.
Proof.
  exists start, [], (error_signal (exn_str e)).
  split; [reflexivity |]. split; [reflexivity |]. right. eauto.
Qed.

(** X14. A run of one of the three process types sends its starting line
    first and ends with exactly one terminal signal, the last one: the
    finished signal with the process type, after the output file was
    written, or the error signal; this holds whatever the parameters and
    the files are. A run of any other process type sends nothing and
    writes nothing. A Klipper conversion whose files open and read
    finishes. A bending run whose table cannot be built ([np.arange] or
    the power raises) sends the error signal with the text of the
    exception and writes no file. *)
Theorem run_ends_with_one_terminal_signal (process_type : string)
    (params : option Pipeline.bending_params) (fs : files) :
  (known process_type = true ->
   one_terminal_last process_type (fst (run L process_type params fs))
     (snd (run L process_type params fs)))
  /\ (known process_type = false ->
      run L process_type params fs = ([], None))
  /\ (forall lines,
        input fs = Opens lines None -> output_fails fs = None ->
        exists body,
          fst (run L "klipper" params fs)
          = (body ++ [finished_signal "klipper"])%list)
  /\ (forall bp pp e,
        CubicSpline.make (fst (Pipeline.spline_z bp))
          (snd (Pipeline.spline_z bp)) (fst (Pipeline.spline_x bp))
          (snd (Pipeline.spline_x bp)) = Ok pp ->
        Pipeline.lookup_table L bp (CubicSpline.spline_of pp) = Raise e ->
        run L "bending" (Some bp) fs
        = ([log_signal "Starting G-code bending process...";
            error_signal (exn_str e)], None)).
Proof.
  split; [| split; [| split]].
  - unfold run, known.
    destruct (String.eqb process_type "bending") eqn:Hb.
    { apply String.eqb_eq in Hb. subst process_type. intros _.
      unfold run_bending.
      destruct params as [bp |]; [| apply stopped_run].
      destruct (CubicSpline.make _ _ _ _) as [pp | e]; [| apply stopped_run].
      destruct (Pipeline.lookup_table L bp _) as [table | e];
        [| apply stopped_run].
      destruct (input fs) as [e | lines failure]; [apply stopped_run |].
      destruct (output_fails fs) as [e |]; [apply stopped_run |].
      destruct (Bend.run_bending L _ _ _ lines failure) as [evs [| e]]; cbn.
      - exists "Starting G-code bending process...",
          (map log_signal (Bend.log_text L evs)
             ++ [log_signal "G-code bending finished!"])%list,
          (finished_signal "bending").
        rewrite <- app_assoc. split; [reflexivity |].
        split; [| left; split; [reflexivity | discriminate]].
        rewrite forallb_app, logs_not_terminal. reflexivity.
      - exists "Starting G-code bending process...",
          (map log_signal (Bend.log_text L evs)),
          (error_signal (exn_str e)).
        split; [reflexivity |].
        split; [apply logs_not_terminal | right; eauto]. }
    destruct (String.eqb process_type "ik") eqn:Hi.
    { apply String.eqb_eq in Hi. subst process_type. intros _.
      unfold run_ik_translation.
      destruct (input fs) as [e | lines [e |]]; try apply stopped_run.
      destruct (output_fails fs) as [e |]; [apply stopped_run |].
      destruct (IK.run_ik_translation L lines) as [written [| e]]; cbn.
      - exists "Starting IK translation process...",
          [log_signal "IK translation finished!"], (finished_signal "ik").
        split; [reflexivity |]. split; [reflexivity |].
        left. split; [reflexivity | discriminate].
      - exists "Starting IK translation process...", [],
          (error_signal (exn_str e)). cbn. eauto. }
    destruct (String.eqb process_type "klipper") eqn:Hk; [| discriminate].
    apply String.eqb_eq in Hk. subst process_type. intros _.
    unfold run_klipper_conversion.
    destruct (input fs) as [e | lines [e |]]; try apply stopped_run.
    unfold Klipper.convert. rewrite convert_loop_spec.
    destruct (output_fails fs) as [e |]; [apply stopped_run |]. cbn.
    exists "Starting Klipper conversion process...",
      [log_signal "Klipper conversion finished!"],
      (finished_signal "klipper").
    split; [reflexivity |]. split; [reflexivity |].
    left. split; [reflexivity | discriminate].
  - unfold run, known.
    destruct (String.eqb process_type "bending"); [discriminate |].
    destruct (String.eqb process_type "ik"); [discriminate |].
    destruct (String.eqb process_type "klipper"); [discriminate |].
    reflexivity.
  - intros lines Hin Hout. unfold run. cbn [String.eqb Ascii.eqb Bool.eqb].
    unfold run_klipper_conversion, Klipper.convert.
    rewrite Hin, Hout, convert_loop_spec. cbn.
    exists [log_signal "Starting Klipper conversion process...";
            log_signal "Klipper conversion finished!"]. reflexivity.
  - intros bp pp e Hmake Htable. unfold run.
    cbn [String.eqb Ascii.eqb Bool.eqb]. unfold run_bending.
    rewrite Hmake, Htable. reflexivity.
Qed.

End WorkerFacts.

(** The signals and the output file of four runs: a bending run that a
    field stops, one whose discretization length is 0, one whose file does
    not decode after its first block, and a conversion. *)
Example worker_runs :
  Worker.run Reference.lib "bending" (Some Reference.parameters)
    (Worker.mk_files
       (Worker.Opens (map file_line ["; start"; "G1 X1.2.3 Y4"; "G1 X5 Y6"])
          None) None)
  = ([Worker.log_signal "Starting G-code bending process...";
      Worker.error_signal "could not convert string to float: '1.2.3'"],
     Some (file_line "; start"))
  /\ Worker.run Reference.lib "bending"
       (Some (Pipeline.mk_bending_params (115.5, 205.5)%float (0, 100)%float
                0.28%float 100%float 0%float))
       (Worker.mk_files (Worker.Opens [file_line "; start"] None) None)
     = ([Worker.log_signal "Starting G-code bending process...";
         Worker.error_signal "float division by zero"],
        None)
  /\ Worker.run Reference.lib "bending" (Some Reference.parameters)
       (Worker.mk_files
          (Worker.Opens [file_line "; start"]
             (Some (UnicodeDecodeError "invalid start byte"))) None)
     = ([Worker.log_signal "Starting G-code bending process...";
         Worker.error_signal "invalid start byte"],
        Some (file_line "; start"))
  /\ Worker.run Reference.lib "klipper" None
       (Worker.mk_files
          (Worker.Opens (map file_line ["G1 X1 A0 B5"; "G1 X2 A0 B5"]) None)
          None)
     = ([Worker.log_signal "Starting Klipper conversion process...";
         Worker.log_signal "Klipper conversion finished!";
         Worker.finished_signal "klipper"],
        Some (PyStr.join Klipper.newline
                ["MANUAL_STEPPER STEPPER=b_stepper MOVE=5.0"; "G1 X1";
                 "G1 X2"])).
Proof. repeat split; vm_compute; reflexivity. Qed.

Section WindowFacts.
Import Window.
Variable klipper_available : bool.

Lemma run_snoc (events : list event) (e : event) :
  run klipper_available (events ++ [e])
  = step klipper_available (run klipper_available events) e.
Proof. unfold run. now rewrite fold_left_app. Qed.

Lemma converted_snoc (events : list event) (e : event) :
  converted_while_connected klipper_available (events ++ [e])
  <-> converted_while_connected klipper_available events
      \/ (e = on_process_finished "klipper"
          /\ printer_controller (run klipper_available events) = true).
Proof.
  split.
  - intros (pre & post & Heq & Hc).
    induction post as [| e' post' _] using rev_ind.
    + right. apply app_inj_tail in Heq as [-> ->]. auto.
    + left. exists pre, post'.
      rewrite app_comm_cons, app_assoc in Heq.
      apply app_inj_tail in Heq as [-> _]. auto.
  - intros [(pre & post & -> & Hc) | [-> Hc]].
    + exists pre, (post ++ [e])%list. rewrite <- app_assoc. auto.
    + exists events, []. auto.
Qed.

(** X15. After any sequence of handler calls from the initial window: the
    four printer controls are enabled exactly when a controller is
    connected; the two upload buttons are enabled together, exactly when
    a Klipper conversion finished while a controller was connected (a
    connection made after the conversion does not enable them); and the
    kinematics button is enabled exactly when a bending run has
    finished. *)
Theorem buttons_follow_the_events (events : list event) :
  let s := run klipper_available events in
  (mass_production_button s = printer_controller s
   /\ five_axis_button s = printer_controller s
   /\ home_all_button s = printer_controller s
   /\ emergency_stop_button s = printer_controller s)
  /\ upload_only_button s = send_to_printer_button s
  /\ (send_to_printer_button s = true
      <-> converted_while_connected klipper_available events)
  /\ (ik_button s = true <-> In (on_process_finished "bending") events).
Proof.
  induction events as [| e events IH] using rev_ind.
  - cbn. repeat split; try discriminate.
    + intros (pre & post & Heq & _). destruct pre; discriminate.
    + intros [].
  - cbv zeta in IH |- *. rewrite run_snoc.
    set (s := run klipper_available events) in *.
    destruct IH as (Hcontrols & Hu & Hsend & Hik).
    rewrite converted_snoc, in_app_iff. fold s.
    assert (Hkeep :
        forall s' : state,
          send_to_printer_button s' = send_to_printer_button s ->
          upload_only_button s' = upload_only_button s ->
          ik_button s' = ik_button s ->
          (mass_production_button s' = printer_controller s'
           /\ five_axis_button s' = printer_controller s'
           /\ home_all_button s' = printer_controller s'
           /\ emergency_stop_button s' = printer_controller s') ->
          e <> on_process_finished "klipper" ->
          e <> on_process_finished "bending" ->
          (mass_production_button s' = printer_controller s'
           /\ five_axis_button s' = printer_controller s'
           /\ home_all_button s' = printer_controller s'
           /\ emergency_stop_button s' = printer_controller s')
          /\ upload_only_button s' = send_to_printer_button s'
          /\ (send_to_printer_button s' = true <->
              converted_while_connected klipper_available events
              \/ e = on_process_finished "klipper"
                 /\ printer_controller s = true)
          /\ (ik_button s' = true <->
              In (on_process_finished "bending") events
              \/ In (on_process_finished "bending") [e])).
    { intros s' H1 H2 H3 H4 Hk Hb. split; [exact H4 |].
      split; [now rewrite H1, H2 |]. split.
      - rewrite H1, Hsend.
        split; [auto | intros [H | [H _]]; [exact H | contradiction]].
      - rewrite H3, Hik.
        split; [auto | intros [H | [H | []]]; [exact H | congruence]]. }
    destruct e as [path | pt | msg | ip outcome]; cbn [step].
    + destruct (PyStr.is_empty path);
        apply Hkeep; try reflexivity; try exact Hcontrols; discriminate.
    + destruct (String.eqb pt "bending") eqn:Hb.
      { apply String.eqb_eq in Hb. subst pt. cbn.
        split; [exact Hcontrols |]. split; [exact Hu |]. split.
        - rewrite Hsend.
          split; [auto | intros [H | [H _]]; [exact H | discriminate]].
        - split; [auto | reflexivity]. }
      destruct (String.eqb pt "ik") eqn:Hi.
      { apply String.eqb_eq in Hi. subst pt.
        apply Hkeep; try reflexivity; try exact Hcontrols; discriminate. }
      destruct (String.eqb pt "klipper") eqn:Hk.
      { apply String.eqb_eq in Hk. subst pt. cbn.
        split; [exact Hcontrols |]. split; [now rewrite Hu |]. split.
        - destruct (printer_controller s) eqn:Hc.
          + split; [auto | reflexivity].
          + rewrite Hsend.
            split; [auto | intros [H | [_ H]]; [exact H | discriminate]].
        - rewrite Hik.
          split; [auto | intros [H | [H | []]]; [exact H | discriminate]]. }
      apply Hkeep; try reflexivity; try exact Hcontrols;
        intros H; injection H as ->; discriminate.
    + apply Hkeep; try reflexivity; try exact Hcontrols; discriminate.
    + destruct (negb klipper_available);
        [apply Hkeep; try reflexivity; try exact Hcontrols; discriminate |].
      destruct (PyStr.is_empty (PyStr.strip ip));
        [apply Hkeep; try reflexivity; try exact Hcontrols; discriminate |].
      destruct outcome as [[] |]; apply Hkeep; cbn; auto; discriminate.
Qed.

End WindowFacts.

(** Connecting after the conversion leaves the upload buttons disabled;
    connecting before it enables them. *)
Example upload_buttons_need_the_connection_first :
  Window.send_to_printer_button
    (Window.run true
       [Window.browse_file "part.gcode"; Window.on_process_finished "bending";
        Window.on_process_finished "ik"; Window.on_process_finished "klipper";
        Window.test_printer_connection "10.0.0.2" (Window.Answered true)])
  = false
  /\ Window.send_to_printer_button
       (Window.run true
          [Window.test_printer_connection "10.0.0.2" (Window.Answered true);
           Window.browse_file "part.gcode";
           Window.on_process_finished "bending";
           Window.on_process_finished "ik";
           Window.on_process_finished "klipper"])
     = true.
Proof. split; reflexivity. Qed.
